(** * times-backend: the JSON-file CMS backend of [index.js]

    A shallow embedding of the request handlers of [index.js] and the
    properties of its specification.

    Conventions of the embedding.
    - A JavaScript value that is either [undefined] or a string (a form
      field of [req.body], a field of a stored record) is an
      [option string]; [None] is [undefined], which [JSON.stringify] drops,
      so an absent key and an [undefined] field are the same value.  Form
      fields of other JSON types are not represented.
    - [data.json] is either absent or holds a [Document]; [readData] and
      [writeData] are the only accesses to it.  A top-level key that the
      handlers test for absence ([posters], [featuredStories],
      [activities]) or never use ([tools]) is an [option]; the keys that
      the handlers dereference directly are always present.
    - JavaScript arrays are lists: [unshift] is cons, [push] appends at the
      end, [slice(0, n)] is [take n], [findIndex] is [list_find],
      [splice(i, 1)] is [delete i] and [a[i] = x] is [<[i:=x]>].
    - Handlers run in the monad [Eff]: state (the data file, the readings
      of the clock, the calls made to the media host) and exceptions
      ([throw], [try], [catch]).  A handler runs from its first statement
      to its response without another request in between.
    - A [string] holds the UTF-8 bytes of a JavaScript string.  What the
      handlers do with ASCII characters (the search for [/] and [.] of
      [path.extname], the tests of the patterns of the filters, [===],
      concatenation) is the same on the bytes; the methods that depend on
      the UTF-16 code units of a string ([toLowerCase], [length],
      [substring]) are parameters of the handlers.
    - The clock, the answers of the media host and [Number] on form fields
      are parameters of the handlers as well.  [path.extname] is Node's,
      for POSIX paths; multer and the error handler of express are
      modelled as far as the routes use them.

    Left out: [/api/test], [/health] and the static [/uploads], which do
    not touch the data file; the names multer gives the staged files and
    their removal after an upload; logging. *)

From Stdlib Require Import ZArith String Ascii.
From stdpp Require Import base option list strings gmap pretty.

Local Open Scope string_scope.
Local Open Scope list_scope.
Local Open Scope Z_scope.

(** ** JavaScript values *)

(** [v] in a boolean position, for a value that is [undefined] or a string. *)
Definition truthy (v : option string) : bool :=
  match v with
  | Some s => negb (String.eqb s EmptyString)
  | None => false
  end.

(** [a || b] *)
Definition js_or (a b : option string) : option string :=
  if truthy a then a else b.

(** [a || ''] *)
Definition or_empty (a : option string) : string :=
  match js_or a (Some EmptyString) with
  | Some s => s
  | None => EmptyString
  end.

(** [a !== undefined ? a : b] *)
Definition if_defined (a b : option string) : option string :=
  match a with
  | Some _ => a
  | None => b
  end.

(** A JavaScript number as the handlers meet it: the integers ([Date.now()],
    the literal [1], a numeric route parameter) and [NaN], which
    [JSON.stringify] writes as [null]. *)
Inductive number : Type :=
  | NaN
  | Int (z : Z).

Global Instance number_eq_dec : EqDecision number.
Proof. solve_decision. Defined.

(** ** Strings *)

Definition dquote : string := String (ascii_of_nat 34) EmptyString.

(** [s.includes(p)]: [p] occurs somewhere in [s]. *)
Fixpoint includes (p s : string) : bool :=
  match s with
  | EmptyString => String.prefix p s
  | String _ s' => String.prefix p s || includes p s'
  end.

(** [s] has no character [c]. *)
Fixpoint free_of (c : ascii) (s : string) : bool :=
  match s with
  | EmptyString => true
  | String d s' => negb (Ascii.eqb d c) && free_of c s'
  end.

(** [/a1|a2|...|an/.test(s)] for literal alternatives: the pattern is not
    anchored, so it succeeds when some alternative occurs in [s]. *)
Definition test_alternatives (alts : list string) (s : string) : bool :=
  existsb (fun a => includes a s) alts.

(** [/pre(a1|...|an)/.test(s)] *)
Definition test_prefixed (pre : string) (alts : list string) (s : string) : bool :=
  existsb (fun a => includes (pre +:+ a) s) alts.

(** ** Data model *)

Module Poster.
Record t := mk { id : Z; title : string; image : string; link : string }.
End Poster.

Module BreakingNews.
Record t := mk {
    id : Z;
    headline : option string;
    shortDescription : option string;
    fullDescription : option string;
    category : option string;
    state : option string;
    videoUrl : option string;
    thumbnail : option string;
    youtubeUrl : option string;
    timestamp : option string }.
End BreakingNews.

Module FeaturedStory.
Record t := mk {
    id : Z;
    title : option string;
    description : option string;
    content : option string;
    category : option string;
    state : option string;
    excerpt : option string;
    imageUrl : option string;
    priority : option number;
    views : option string;
    timestamp : option string }.
End FeaturedStory.

Module Media.
Record t := mk {
    id : Z;
    title : option string;
    description : option string;
    url : option string;
    type : option string;
    timestamp : option string }.
End Media.

Module News.
Record t := mk {
    id : Z;
    title : option string;
    content : option string;
    category : option string;
    imageUrl : option string;
    timestamp : option string }.
End News.

Module Ad.
Record t := mk {
    id : Z;
    title : option string;
    placement : option string;
    imageUrl : option string;
    url : option string;
    startDate : option string;
    endDate : option string;
    active : bool;
    timestamp : option string }.
End Ad.

Module User.
Record t := mk {
    id : Z;
    username : option string;
    password : option string;
    role : option string;
    email : option string;
    timestamp : option string }.
End User.

Module Category.
Record t := mk {
    id : Z;
    name : option string;
    description : option string;
    timestamp : option string }.
End Category.

Module StaticPage.
Record t := mk {
    id : Z;
    title : option string;
    content : option string;
    slug : option string;
    timestamp : option string }.
End StaticPage.

Module Ticker.
Record t := mk {
    id : Z;
    text : option string;
    type : option string;
    active : bool;
    timestamp : option string }.
End Ticker.

Module Activity.
Record t := mk {
    id : Z;
    type : string;
    title : string;
    user : string;
    status : string;
    timestamp : string }.
End Activity.

(** The content of [data.json]. *)
Record Document := mkDocument {
  posters : option (list Poster.t);
  breakingNews : list BreakingNews.t;
  featuredStories : option (list FeaturedStory.t);
  categories : list Category.t;
  users : list User.t;
  media : list Media.t;
  news : list News.t;
  staticPages : list StaticPage.t;
  tickers : list Ticker.t;
  tools : option (list string);
  ads : list Ad.t;
  activities : option (list Activity.t) }.

(** [Object.keys(d)] with the length of each collection. *)
Definition collections (d : Document) : list (string * nat) :=
  from_option (fun l => [("posters", length l)]) [] (posters d) ++
  [("breakingNews", length (breakingNews d))] ++
  from_option (fun l => [("featuredStories", length l)]) [] (featuredStories d) ++
  [("categories", length (categories d));
   ("users", length (users d));
   ("media", length (media d));
   ("news", length (news d));
   ("staticPages", length (staticPages d));
   ("tickers", length (tickers d))] ++
  from_option (fun l => [("tools", length l)]) [] (tools d) ++
  [("ads", length (ads d))] ++
  from_option (fun l => [("activities", length l)]) [] (activities d).

(** [d[k]] as a collection: its length when [d] has the key. *)
Definition collection (k : string) (d : Document) : option nat :=
  snd <$> find (fun kv => String.eqb (fst kv) k) (collections d).

(** The eleven collections of the specification's data model. *)
Definition spec_collections : list string :=
  ["posters"; "breakingNews"; "featuredStories"; "categories"; "users";
   "media"; "news"; "staticPages"; "tickers"; "ads"; "activities"].

(** Functional updates of one collection. *)
Definition set_posters (d : Document) (v : option (list Poster.t)) : Document :=
  mkDocument v (breakingNews d) (featuredStories d) (categories d) (users d)
    (media d) (news d) (staticPages d) (tickers d) (tools d) (ads d) (activities d).

Definition set_breakingNews (d : Document) (v : list BreakingNews.t) : Document :=
  mkDocument (posters d) v (featuredStories d) (categories d) (users d)
    (media d) (news d) (staticPages d) (tickers d) (tools d) (ads d) (activities d).

Definition set_featuredStories (d : Document) (v : option (list FeaturedStory.t)) : Document :=
  mkDocument (posters d) (breakingNews d) v (categories d) (users d)
    (media d) (news d) (staticPages d) (tickers d) (tools d) (ads d) (activities d).

Definition set_media (d : Document) (v : list Media.t) : Document :=
  mkDocument (posters d) (breakingNews d) (featuredStories d) (categories d) (users d)
    v (news d) (staticPages d) (tickers d) (tools d) (ads d) (activities d).

Definition set_news (d : Document) (v : list News.t) : Document :=
  mkDocument (posters d) (breakingNews d) (featuredStories d) (categories d) (users d)
    (media d) v (staticPages d) (tickers d) (tools d) (ads d) (activities d).

Definition set_ads (d : Document) (v : list Ad.t) : Document :=
  mkDocument (posters d) (breakingNews d) (featuredStories d) (categories d) (users d)
    (media d) (news d) (staticPages d) (tickers d) (tools d) v (activities d).

Definition set_activities (d : Document) (v : option (list Activity.t)) : Document :=
  mkDocument (posters d) (breakingNews d) (featuredStories d) (categories d) (users d)
    (media d) (news d) (staticPages d) (tickers d) (tools d) (ads d) v.

Definition set_categories (d : Document) (v : list Category.t) : Document :=
  mkDocument (posters d) (breakingNews d) (featuredStories d) v (users d)
    (media d) (news d) (staticPages d) (tickers d) (tools d) (ads d) (activities d).

Definition set_users (d : Document) (v : list User.t) : Document :=
  mkDocument (posters d) (breakingNews d) (featuredStories d) (categories d) v
    (media d) (news d) (staticPages d) (tickers d) (tools d) (ads d) (activities d).

Definition set_staticPages (d : Document) (v : list StaticPage.t) : Document :=
  mkDocument (posters d) (breakingNews d) (featuredStories d) (categories d) (users d)
    (media d) (news d) v (tickers d) (tools d) (ads d) (activities d).

Definition set_tickers (d : Document) (v : list Ticker.t) : Document :=
  mkDocument (posters d) (breakingNews d) (featuredStories d) (categories d) (users d)
    (media d) (news d) (staticPages d) v (tools d) (ads d) (activities d).

(** [{ ...user, password: undefined }] *)
Definition without_password (u : User.t) : User.t :=
  User.mk (User.id u) (User.username u) None (User.role u) (User.email u)
    (User.timestamp u).

(** ** Requests and responses *)

(** A file as multer hands it to a handler. *)
Record File := mkFile {
  fieldname : string;
  originalname : string;
  mimetype : string;
  path : string }.

(** The JSON bodies the handlers send. *)
Inductive Body : Type :=
  | PosterList (l : list Poster.t)
  | BreakingNewsList (l : list BreakingNews.t)
  | BreakingNewsItem (b : BreakingNews.t)
  | FeaturedStoryList (l : list FeaturedStory.t)
  | FeaturedStoryItem (s : FeaturedStory.t)
  | MediaItem (m : Media.t)
  | NewsList (l : list News.t)
  | NewsItem (n : News.t)
  | AdList (l : list Ad.t)
  | AdItem (a : Ad.t)
  | ActivityList (l : list Activity.t)
  | CategoryList (l : list Category.t)
  | CategoryItem (c : Category.t)
  | CategoryContent (breakingNews : list BreakingNews.t)
      (featuredStories : list FeaturedStory.t) (news : list News.t)
      (category : string)          (* { breakingNews, featuredStories, news, category } *)
  | StaticPageList (l : list StaticPage.t)
  | StaticPageItem (p : StaticPage.t)
  | TickerList (l : list Ticker.t)
  | TickerItem (t : Ticker.t)
  | UserList (l : list User.t)
  | UserItem (u : User.t)
  | LoginUser (u : User.t)                          (* { success: true, user } *)
  | LoginFailure (message : string)                 (* { success: false, message } *)
  | Success                                         (* { success: true } *)
  | Error (error : string) (details : option string) (* { error, details } *)
  | Unhandled (message : string).                   (* error left to express *)

Record Response := mkResponse { status : Z; payload : Body }.

(** [res.json(b)] *)
Definition json (b : Body) : Response := mkResponse 200 b.

(** ** File admission (multer) *)

(** [path.extname] of Node (POSIX): the loop of the library, which scans
    the path from its end.  [scan_startDot] and [scan_end] are [None] for
    the library's [-1]. *)
Record ExtScan := mkExtScan {
  scan_startDot : option nat;
  scan_startPart : nat;
  scan_end : option nat;
  scan_matchedSlash : bool;
  scan_preDotState : Z }.

Fixpoint extname_loop (p : string) (n : nat) (st : ExtScan) : ExtScan :=
  match n with
  | O => st
  | S i =>
    match String.get i p with
    | None => st
    | Some code =>
      if Ascii.eqb code "/" then
        if negb (scan_matchedSlash st) then
          mkExtScan (scan_startDot st) (S i) (scan_end st)
            (scan_matchedSlash st) (scan_preDotState st)
        else extname_loop p i st
      else
        let st :=
          match scan_end st with
          | None => mkExtScan (scan_startDot st) (scan_startPart st) (Some (S i))
                      false (scan_preDotState st)
          | Some _ => st
          end in
        let st :=
          if Ascii.eqb code "." then
            match scan_startDot st with
            | None => mkExtScan (Some i) (scan_startPart st) (scan_end st)
                        (scan_matchedSlash st) (scan_preDotState st)
            | Some _ =>
              if negb (Z.eqb (scan_preDotState st) 1) then
                mkExtScan (scan_startDot st) (scan_startPart st) (scan_end st)
                  (scan_matchedSlash st) 1
              else st
            end
          else
            match scan_startDot st with
            | Some _ => mkExtScan (scan_startDot st) (scan_startPart st) (scan_end st)
                          (scan_matchedSlash st) (-1)
            | None => st
            end in
        extname_loop p i st
    end
  end.

Definition extname (p : string) : string :=
  let st := extname_loop p (String.length p) (mkExtScan None 0 None true 0) in
  match scan_startDot st, scan_end st with
  | Some startDot, Some end_ =>
    if Z.eqb (scan_preDotState st) 0
       || (Z.eqb (scan_preDotState st) 1
           && Nat.eqb startDot (end_ - 1)
           && Nat.eqb startDot (scan_startPart st + 1))
    then ""
    else String.substring startDot (end_ - startDot) p
  | _, _ => ""
  end.

(** What a [fileFilter] tells multer: [cb(null, true)] or [cb(new Error(m))]. *)
Inductive Admission : Type :=
  | Admit
  | Refuse (message : string).

(** Multer over the file parts of a request, in their order: a part on a
    field the route does not expect ([limits], with the [maxCount] of each
    field; [None] for [.any()]) or refused by the filter fails the request
    before its handler runs; otherwise the handler gets the parts. *)
Fixpoint multer_parts (fileFilter : File -> Admission)
    (limits : option (list (string * nat))) (seen parts : list File)
  : list File + string :=
  match parts with
  | [] => inl seen
  | file :: parts' =>
    let expected :=
      match limits with
      | None => true
      | Some fields =>
        match find (fun f => String.eqb (fst f) (fieldname file)) fields with
        | Some (_, maxCount) =>
          Nat.ltb (length (filter (fun g => fieldname g = fieldname file) seen)) maxCount
        | None => false
        end
      end in
    if expected then
      match fileFilter file with
      | Admit => multer_parts fileFilter limits (seen ++ [file]) parts'
      | Refuse message => inr message
      end
    else inr "Unexpected field"
  end.

Definition multer (fileFilter : File -> Admission)
    (limits : option (list (string * nat))) (parts : list File) : list File + string :=
  multer_parts fileFilter limits [] parts.

(** [req.files] as multer's [.fields] builds it, an object without a
    prototype: for each field name, the admitted parts on that field, in
    their order. *)
Definition group_by_fieldname (files : list File) : gmap string (list File) :=
  foldl (fun (m : gmap string (list File)) f =>
           <[fieldname f := default [] (m !! fieldname f) ++ [f]]> m) ∅ files.

(** The own properties of [Object.prototype], which an object literal
    inherits: each is a function, or the prototype itself for
    [__proto__]. *)
Definition Object_prototype : list string :=
  ["constructor"; "__defineGetter__"; "__defineSetter__"; "hasOwnProperty";
   "__lookupGetter__"; "__lookupSetter__"; "isPrototypeOf";
   "propertyIsEnumerable"; "toString"; "valueOf"; "__proto__";
   "toLocaleString"].

(** [filesArray.forEach(f => {
       if (!filesByField[f.fieldname]) filesByField[f.fieldname] = [];
       filesByField[f.fieldname].push(f); })]
    on an object literal, whose own properties are [filesByField].  On a
    field name that [Object.prototype] has, [filesByField[f.fieldname]]
    is the inherited property: it is truthy, so no array is made, and it
    has no [push], so the call throws. *)
Fixpoint forEach_push (filesArray : list File)
    (filesByField : gmap string (list File)) : gmap string (list File) + string :=
  match filesArray with
  | [] => inl filesByField
  | f :: filesArray' =>
    match filesByField !! fieldname f with
    | Some array =>
      forEach_push filesArray' (<[fieldname f := array ++ [f]]> filesByField)
    | None =>
      if bool_decide (fieldname f ∈ Object_prototype)
      then inr "filesByField[f.fieldname].push is not a function"
      else forEach_push filesArray' (<[fieldname f := [f]]> filesByField)
    end
  end.

(** [m[name] && m[name][0]], for a name that [Object.prototype] has not. *)
Definition first_file (name : string) (m : gmap string (list File)) : option File :=
  m !! name ≫= head.

(** ** The world of a handler *)

Record World := mkWorld {
  dataFile : option Document;       (* data.json, when it exists *)
  ticks : nat;                      (* readings of the clock taken so far *)
  uploads : list (string * string)  (* calls to the media host, latest first *)
}.

Definition set_dataFile (w : World) (f : option Document) : World :=
  mkWorld f (ticks w) (uploads w).

Definition tick (w : World) : World :=
  mkWorld (dataFile w) (S (ticks w)) (uploads w).

Definition add_upload (w : World) (c : string * string) : World :=
  mkWorld (dataFile w) (ticks w) (c :: uploads w).

(** How a JavaScript computation completes. *)
Inductive Completion (A : Type) : Type :=
  | Return (a : A)
  | Throw (message : string).
Arguments Return {A} a.
Arguments Throw {A} message.

Definition Eff (A : Type) : Type := World -> Completion A * World.

Definition ret {A} (a : A) : Eff A := fun w => (Return a, w).

Definition throw {A} (message : string) : Eff A := fun w => (Throw message, w).

Definition bind {A B} (m : Eff A) (k : A -> Eff B) : Eff B :=
  fun w =>
    match m w with
    | (Return a, w') => k a w'
    | (Throw e, w') => (Throw e, w')
    end.

(** [try { m } catch (err) { ... err.message ... }], the catch block left to
    the caller. *)
Definition catch {A} (m : Eff A) (handler : string -> Eff A) : Eff A :=
  fun w =>
    match m w with
    | (Return a, w') => (Return a, w')
    | (Throw e, w') => handler e w'
    end.

Definition try {A} (m : Eff A) : Eff (A + string) :=
  fun w =>
    match m w with
    | (Return a, w') => (Return (inl a), w')
    | (Throw e, w') => (Return (inr e), w')
    end.

Notation "'let*' x ':=' m 'in' k" := (bind m (fun x => k))
  (at level 10, x pattern, m at level 100, k at level 200).

(** A step that touches nothing of the world: its value, or the error it
    throws. *)
Definition completed {A} (r : A + string) : Eff A :=
  match r with
  | inl a => ret a
  | inr message => throw message
  end.

(** The handler as express runs it: the response it sends and the world it
    leaves; an exception that escapes the handler is answered by express
    with status 500. *)
Definition run (h : Eff Response) (w : World) : Response * World :=
  match h w with
  | (Return r, w') => (r, w')
  | (Throw e, w') => (mkResponse 500 (Unhandled e), w')
  end.

(** ** Simple JSON file storage *)

Definition emptyDocument : Document :=
  {| posters := Some [];
     breakingNews := [];
     featuredStories := Some [];
     categories := [];
     users := [];
     media := [];
     news := [];
     staticPages := [];
     tickers := [];
     tools := Some [];
     ads := [];
     activities := None |}.

Definition readData : Eff Document :=
  fun w =>
    match dataFile w with
    | None => (Return emptyDocument, w)
    | Some d => (Return d, w)
    end.

Definition writeData (data : Document) : Eff unit :=
  fun w => (Return tt, set_dataFile w (Some data)).

(** The document a handler would read in [w]. *)
Definition stored (w : World) : Document :=
  match dataFile w with
  | None => emptyDocument
  | Some d => d
  end.

(** [GET /api/activities] *)
Definition get_activities : Eff Response :=
  let* data := readData in
  ret (json (ActivityList (default [] (activities data)))).

(** The arguments of one call of [logActivity]. *)
Record Call := mkCall {
  call_type : string;
  call_title : string;
  call_user : option string;
  call_status : option string }.

(** ** Sample data for the runs at the end *)


(** A clock that advances by one millisecond at each reading; the
    rendering of its readings is left as the number. *)
Definition a_clock : nat -> Z := fun n => 1700000000000 + Z.of_nat n.
Definition a_rendering : Z -> string := fun z => pretty z.

(** A media host that is down, and one that stores the file. *)
Definition host_down : string -> string -> string + string :=
  fun _ _ => inr "Request Timeout".
Definition host_up : string -> string -> string + string :=
  fun path folder => inl ("https://res.cloudinary.com/" +:+ folder +:+ "/" +:+ path).

(** [toLowerCase], [length] and [substring] on the strings of the runs
    below, which are made of ASCII characters: a byte is a code unit. *)
Definition ascii_toLowerCase_char (c : ascii) : ascii :=
  let n := nat_of_ascii c in
  if (Nat.leb 65 n && Nat.leb n 90)%bool then ascii_of_nat (n + 32) else c.

Fixpoint ascii_toLowerCase (s : string) : string :=
  match s with
  | EmptyString => EmptyString
  | String c s' => String (ascii_toLowerCase_char c) (ascii_toLowerCase s')
  end.

Definition ascii_length : string -> nat := String.length.

Definition ascii_substring : string -> nat -> nat -> string :=
  fun s i j => String.substring i (j - i) s.

(** A [Number] that knows the numerals of the runs below. *)
Definition a_Number : string -> number :=
  fun s => if String.eqb s "5" then Int 5 else NaN.

(** No data file yet. *)
Definition no_file : World := mkWorld None 0 [].

Definition sixty_calls : list Call :=
  map (fun i => mkCall "news" ("Article " +:+ pretty i) (Some "Admin User")
                  (Some "published")) (seq 1 60).

Definition four_posters : World :=
  mkWorld
    (Some (set_posters emptyDocument
             (Some [Poster.mk 1 "One" "" ""; Poster.mk 2 "Two" "" "";
                    Poster.mk 3 "Three" "" ""; Poster.mk 4 "Four" "" ""])))
    0 [].

Definition an_exe : File :=
  mkFile "video" "clip.exe" "application/octet-stream" "uploads/1700000000000_clip.exe".

Definition a_video : File :=
  mkFile "video" "clip.mp4" "video/mp4" "uploads/1700000000000_clip.mp4".

Definition two_breaking_news : World :=
  mkWorld
    (Some (set_breakingNews emptyDocument
             [BreakingNews.mk 2 (Some "Second") None None None None None None None None;
              BreakingNews.mk 1 (Some "First") None None None None None None None None]))
    0 [].

(** One stored news article, and one user. *)
Definition an_article : News.t :=
  News.mk 7 (Some "Old title") (Some "Old content") (Some "World")
    (Some "https://host/old.png") (Some "2024-01-01T00:00:00.000Z").

Definition one_article : World :=
  mkWorld (Some (set_news emptyDocument [an_article])) 0 [].

Definition a_png : File :=
  mkFile "image" "photo.PNG" "image/png" "uploads/1700000000000_photo.PNG".

Definition a_signup : gmap string string :=
  {[ "username" := "editor"; "password" := "secret"; "role" := "admin" ]}.

Definition a_news_form : gmap string string :=
  {[ "title" := "A"; "content" := "B"; "category" := "world" ]}.

Definition a_thumbnail : File :=
  mkFile "thumbnail" "thumb.jpg" "image/jpeg" "uploads/1700000000000_thumb.jpg".

(** A file on no allow-list, and an image on a field named like a property
    of [Object.prototype]. *)
Definition a_jpgx : File :=
  mkFile "file" "photo.jpgx" "image/jpgx"
    "uploads/1700000000000_photo.jpgx".

Definition a_constructor_part : File :=
  mkFile "constructor" "photo.png" "image/png" "uploads/1700000000000_photo.png".

Section Handlers.

(** The wall clock: its [n]-th reading, in milliseconds, and the ISO-8601
    rendering of a reading. *)
Variable clock : nat -> Z.
Variable toISOString : Z -> string.

(** The media host: [cloudinary.uploader.upload(path, { folder })] answers
    with a [secure_url] or fails with a message. *)
Variable cloudinary : string -> string -> string + string.

(** [Number(s)] for a form field [s]. *)
Variable Number : string -> number.

(** [s.toLowerCase()], [s.length] and [s.substring(i, j)], which go by the
    UTF-16 code units of [s]. *)
Variable toLowerCase : string -> string.
Variable string_length : string -> nat.
Variable substring : string -> nat -> nat -> string.

(** [`${t.substring(0, 50)}${t.length > 50 ? '...' : ''}`] *)
Definition ellipsis50 (t : string) : string :=
  substring t 0 50 +:+
  (if Nat.ltb 50 (string_length t) then "..." else EmptyString).

(** [x.category && x.category.toLowerCase() === category.toLowerCase()] *)
Definition in_category (category : string) (c : option string) : bool :=
  truthy c &&
  match c with
  | Some s => String.eqb (toLowerCase s) (toLowerCase category)
  | None => false
  end.

(** *** The filters of the multers *)

(** The filter of [upload], the video-only multer; no route mounts it. *)
Definition upload_fileFilter (file : File) : Admission :=
  let filetypes := ["mp4"; "mov"; "avi"; "wmv"] in
  let extname_ok := test_alternatives filetypes (toLowerCase (extname (originalname file))) in
  let mimetype_ok := test_alternatives filetypes (mimetype file) in
  if extname_ok && mimetype_ok then Admit else Refuse "Video files only!".

Definition videoExtTypes : list string := ["mp4"; "mov"; "avi"; "wmv"].
Definition videoMimeTypes : list string := ["mp4"; "quicktime"; "avi"; "x-msvideo"].
Definition imageExtTypes : list string := ["jpeg"; "jpg"; "png"; "gif"; "webp"].
Definition imageMimeTypes : list string := ["jpeg"; "jpg"; "png"; "gif"; "webp"].

(** The filter of [breakingNewsUpload]. *)
Definition breakingNewsUpload_fileFilter (file : File) : Admission :=
  let ext := toLowerCase (extname (originalname file)) in
  let isValidVideo :=
    test_alternatives videoExtTypes ext
    && test_prefixed "video/" videoMimeTypes (mimetype file) in
  let isValidImage :=
    test_alternatives imageExtTypes ext
    && test_prefixed "image/" imageMimeTypes (mimetype file) in
  if isValidVideo || isValidImage then Admit
  else Refuse ("Invalid file type. Only video (MP4, MOV, AVI, WMV) and image (JPEG, JPG, PNG, GIF, WebP) files are allowed. Got: "
               +:+ mimetype file +:+ " with extension: " +:+ ext).

Definition posterExtTypes : list string :=
  ["jpeg"; "jpg"; "png"; "gif"; "webp"; "avif"].
Definition posterMimeTypes : list string :=
  ["jpeg"; "jpg"; "png"; "gif"; "webp"; "avif"].

(** The filter of [posterUpload]. *)
Definition posterUpload_fileFilter (file : File) : Admission :=
  let ext := toLowerCase (extname (originalname file)) in
  let extname_ok := test_alternatives posterExtTypes ext in
  let mimetype_ok := test_prefixed "image/" posterMimeTypes (mimetype file) in
  if extname_ok && mimetype_ok then Admit
  else Refuse ("Invalid file type. Only JPEG, JPG, PNG, GIF, WebP, and AVIF are allowed. Got: "
               +:+ mimetype file +:+ " with extension: " +:+ ext).


(** [Date.now()] *)
Definition Date_now : Eff Z :=
  fun w => (Return (clock (ticks w)), tick w).

(** [new Date().toISOString()] *)
Definition Date_toISOString : Eff string :=
  fun w => (Return (toISOString (clock (ticks w))), tick w).

(** *** Activity logger *)

Definition logActivity (type title : string) (user status : option string)
  : Eff Activity.t :=
  let user := default "Admin User" user in
  let status := default "completed" status in
  let* data := readData in
  let activities0 := default [] (activities data) in
  let* id := Date_now in
  let* timestamp := Date_toISOString in
  let activity := Activity.mk id type title user status timestamp in
  let activities1 := activity :: activities0 in
  let data := set_activities data (Some (take 50 activities1)) in
  let* _ := writeData data in
  ret activity.

(** *** Upload to the media host *)

Definition uploadToCloudinary (file : File) (folder : string) : Eff string :=
  if String.eqb (path file) "" then throw "Invalid file provided for upload"
  else fun w =>
    let w' := add_upload w (path file, folder) in
    match cloudinary (path file) folder with
    | inl secure_url => (Return secure_url, w')
    | inr message => (Throw ("Failed to upload to Cloudinary: " +:+ message), w')
    end.

(** [title.substring(...)] on a value that may be [undefined]. *)
Definition substring_of (title : option string) : Eff string :=
  match title with
  | Some t => ret t
  | None => throw "Cannot read properties of undefined (reading 'substring')"
  end.

(** *** Authentication *)

(** [POST /api/auth/login] *)
Definition post_auth_login (body : gmap string string) : Eff Response :=
  let username := body !! "username" in
  let password := body !! "password" in
  let* data := readData in
  let user :=
    find (fun u => bool_decide (User.username u = username)
                   && bool_decide (User.password u = password)) (users data) in
  match user with
  | Some user => ret (json (LoginUser (without_password user)))
  | None => ret (mkResponse 401 (LoginFailure "Invalid credentials"))
  end.

(** *** Posters *)

(** [while (posters.length < 3) posters.push({ id: posters.length + 1, ... })] *)
Fixpoint pad_posters (fuel : nat) (posters : list Poster.t) : list Poster.t :=
  match fuel with
  | O => posters
  | S fuel' =>
    if Nat.ltb (length posters) 3 then
      pad_posters fuel'
        (posters ++ [Poster.mk (Z.of_nat (length posters) + 1) "" "" ""])
    else posters
  end.

(** [GET /api/posters] *)
Definition get_posters : Eff Response :=
  catch
    (let* data := readData in
     let posters := default [] (posters data) in
     let posters := pad_posters 3 posters in
     ret (json (PosterList posters)))
    (fun _ => ret (mkResponse 500 (Error "Failed to fetch posters" None))).

(** [files[0]] when [files && files.length > 0], for the [files] of slot
    [i]: [req.files ? req.files[`posterImage${i}`] : []]. *)
Definition poster_file (files : option (gmap string (list File))) (i : Z)
  : option File :=
  match files with
  | Some fs => fs !! ("posterImage" +:+ pretty i)
  | None => Some []
  end ≫= head.

(** The body of [for (let i = 1; i <= 3; i++)], for the values [slots] of
    [i] still to come. *)
Fixpoint post_posters_loop (body : gmap string string)
    (files : option (gmap string (list File)))
    (slots : list Z) (posters : list Poster.t) : Eff (list Poster.t) :=
  match slots with
  | [] => ret posters
  | i :: slots' =>
    let title := body !! ("poster" +:+ pretty i +:+ "Title") in
    let link := body !! ("poster" +:+ pretty i +:+ "Link") in
    let imageUrl := body !! ("poster" +:+ pretty i +:+ "ImageUrl") in
    let* imageUrl :=
      match poster_file files i with
      | Some file =>
        let* url := uploadToCloudinary file "posters" in
        ret (Some url)
      | None => ret imageUrl
      end in
    post_posters_loop body files slots'
      (posters ++ [Poster.mk i (or_empty title) (or_empty imageUrl) (or_empty link)])
  end.

(** [POST /api/posters] *)
Definition post_posters (body : gmap string string)
    (files : option (gmap string (list File))) : Eff Response :=
  catch
    (let* data := readData in
     let data :=
       match posters data with
       | Some _ => data
       | None => set_posters data (Some [])
       end in
     let* posters := post_posters_loop body files [1; 2; 3] [] in
     let data := set_posters data (Some posters) in
     let* _ := writeData data in
     ret (json (PosterList posters)))
    (fun message =>
       ret (mkResponse 500 (Error ("Failed to update posters: " +:+ message) None))).

(** *** Breaking news *)

(** [GET /api/breaking-news] *)
Definition get_breaking_news : Eff Response :=
  let* data := readData in
  ret (json (BreakingNewsList (breakingNews data))).

(** [POST /api/breaking-news] *)
Definition post_breaking_news (body : gmap string string)
    (files : option (list File)) : Eff Response :=
  catch
    (let headline := body !! "headline" in
     let shortDescription := body !! "shortDescription" in
     let fullDescription := body !! "fullDescription" in
     let category := body !! "category" in
     let state := body !! "state" in
     let youtubeUrl := body !! "youtubeUrl" in
     let* data := readData in
     let filesArray := default [] files in
     let* filesByField := completed (forEach_push filesArray ∅) in
     let* video :=
       match first_file "video" filesByField with
       | Some file => try (uploadToCloudinary file "breaking-news")
       | None => ret (inl "")
       end in
     match video with
     | inr message =>
       ret (mkResponse 500 (Error "Failed to upload video" (Some message)))
     | inl videoUrl =>
       let* thumbnail :=
         match first_file "thumbnail" filesByField with
         | Some file => try (uploadToCloudinary file "breaking-news-thumbnails")
         | None => ret (inl "")
         end in
       match thumbnail with
       | inr message =>
         ret (mkResponse 500 (Error "Failed to upload thumbnail" (Some message)))
       | inl thumbnailUrl =>
         let* id := Date_now in
         let* timestamp := Date_toISOString in
         let newNews :=
           BreakingNews.mk id headline shortDescription fullDescription
             category state (Some videoUrl)
             (Some (or_empty (Some thumbnailUrl)))
             (Some (or_empty youtubeUrl)) (Some timestamp) in
         let data := set_breakingNews data (newNews :: breakingNews data) in
         let* _ := writeData data in
         ret (json (BreakingNewsItem newNews))
       end
     end)
    (fun message =>
       ret (mkResponse 500 (Error "Failed to add breaking news" (Some message)))).

(** [PUT /api/breaking-news/:id]; [id] is [Number(req.params.id)]. *)
Definition put_breaking_news (id : number) (body : gmap string string)
    (files : option (list File)) : Eff Response :=
  catch
    (let* data := readData in
     match list_find (fun b => Int (BreakingNews.id b) = id) (breakingNews data) with
     | None => ret (mkResponse 404 (Error "Breaking news not found" None))
     | Some (idx, existing) =>
       let headline := body !! "headline" in
       let shortDescription := body !! "shortDescription" in
       let fullDescription := body !! "fullDescription" in
       let category := body !! "category" in
       let state := body !! "state" in
       let youtubeUrl := body !! "youtubeUrl" in
       let filesArray := default [] files in
       let* filesByField := completed (forEach_push filesArray ∅) in
       let videoUrl := or_empty (BreakingNews.videoUrl existing) in
       let thumbnailUrl := or_empty (BreakingNews.thumbnail existing) in
       let* video :=
         match first_file "video" filesByField with
         | Some file => try (uploadToCloudinary file "breaking-news")
         | None => ret (inl videoUrl)
         end in
       match video with
       | inr message =>
         ret (mkResponse 500 (Error "Failed to upload video" (Some message)))
       | inl videoUrl =>
         let* thumbnail :=
           match first_file "thumbnail" filesByField with
           | Some file => try (uploadToCloudinary file "breaking-news-thumbnails")
           | None => ret (inl thumbnailUrl)
           end in
         match thumbnail with
         | inr message =>
           ret (mkResponse 500 (Error "Failed to upload thumbnail" (Some message)))
         | inl thumbnailUrl =>
           let* timestamp := Date_toISOString in
           let updated :=
             BreakingNews.mk (BreakingNews.id existing)
               (if_defined headline (BreakingNews.headline existing))
               (if_defined shortDescription (BreakingNews.shortDescription existing))
               (if_defined fullDescription (BreakingNews.fullDescription existing))
               (if_defined category (BreakingNews.category existing))
               (if_defined state (BreakingNews.state existing))
               (Some videoUrl)
               (Some thumbnailUrl)
               (if_defined youtubeUrl (BreakingNews.youtubeUrl existing))
               (Some timestamp) in
           let data := set_breakingNews data (<[idx := updated]> (breakingNews data)) in
           let* _ := writeData data in
           ret (json (BreakingNewsItem updated))
         end
       end
     end)
    (fun message =>
       ret (mkResponse 500 (Error "Failed to update breaking news" (Some message)))).

(** [DELETE /api/breaking-news/:id] *)
Definition delete_breaking_news (id : number) : Eff Response :=
  catch
    (let* data := readData in
     match list_find (fun b => Int (BreakingNews.id b) = id) (breakingNews data) with
     | None => ret (mkResponse 404 (Error "Breaking news not found" None))
     | Some (idx, _) =>
       let data := set_breakingNews data (delete idx (breakingNews data)) in
       let* _ := writeData data in
       ret (json Success)
     end)
    (fun _ => ret (mkResponse 500 (Error "Failed to delete breaking news" None))).

(** *** Featured stories *)

(** [GET /api/featured-stories] *)
Definition get_featured_stories : Eff Response :=
  catch
    (let* data := readData in
     ret (json (FeaturedStoryList (default [] (featuredStories data)))))
    (fun _ => ret (mkResponse 500 (Error "Failed to fetch featured stories" None))).

(** [POST /api/featured-stories] *)
Definition post_featured_stories (body : gmap string string)
    (file : option File) : Eff Response :=
  catch
    (let title := body !! "title" in
     let description := body !! "description" in
     let content := body !! "content" in
     let category := body !! "category" in
     let state := body !! "state" in
     let excerpt := body !! "excerpt" in
     let priority := body !! "priority" in
     let* image :=
       match file with
       | Some file => try (uploadToCloudinary file "featured-stories")
       | None => ret (inl "")
       end in
     match image with
     | inr message =>
       ret (mkResponse 500 (Error "Failed to upload image" (Some message)))
     | inl imageUrl =>
       let* data := readData in
       let* id := Date_now in
       let* timestamp := Date_toISOString in
       let newStory :=
         FeaturedStory.mk id title description (js_or content description)
           category state (js_or excerpt description) (Some imageUrl)
           (Some (match priority with
                  | Some p => if truthy priority then Number p else Int 1
                  | None => Int 1
                  end))
           (Some "0") (Some timestamp) in
       let stories := default [] (featuredStories data) in
       let data := set_featuredStories data (Some (stories ++ [newStory])) in
       let* _ := writeData data in
       let* t := substring_of title in
       let* _ := logActivity "featured-story"
                   ("New featured story published: " +:+ dquote +:+ ellipsis50 t +:+ dquote)
                   (Some "Admin User") (Some "published") in
       ret (mkResponse 201 (FeaturedStoryItem newStory))
     end)
    (fun message =>
       ret (mkResponse 500 (Error "Failed to create featured story" (Some message)))).

(** [PUT /api/featured-stories/:id] *)
Definition put_featured_stories (id : number) (body : gmap string string)
    (file : option File) : Eff Response :=
  catch
    (let title := body !! "title" in
     let description := body !! "description" in
     let content := body !! "content" in
     let category := body !! "category" in
     let state := body !! "state" in
     let excerpt := body !! "excerpt" in
     let priority := body !! "priority" in
     let* data := readData in
     match featuredStories data with
     | None => throw "Cannot read properties of undefined (reading 'findIndex')"
     | Some stories =>
       match list_find (fun s => Int (FeaturedStory.id s) = id) stories with
       | None => ret (mkResponse 404 (Error "Featured story not found" None))
       | Some (storyIdx, existing) =>
         let imageUrl := FeaturedStory.imageUrl existing in
         let* image :=
           match file with
           | Some file =>
             let* r := try (uploadToCloudinary file "featured-stories") in
             ret (match r with inl url => inl (Some url) | inr e => inr e end)
           | None => ret (inl imageUrl)
           end in
         match image with
         | inr message =>
           ret (mkResponse 500 (Error "Failed to upload image" (Some message)))
         | inl imageUrl =>
           let* timestamp := Date_toISOString in
           let updated :=
             FeaturedStory.mk (FeaturedStory.id existing) title description
               (js_or content description) category state
               (js_or excerpt description) imageUrl
               (match priority with
                | Some p =>
                  if truthy priority then Some (Number p)
                  else FeaturedStory.priority existing
                | None => FeaturedStory.priority existing
                end)
               (FeaturedStory.views existing) (Some timestamp) in
           let data := set_featuredStories data (Some (<[storyIdx := updated]> stories)) in
           let* _ := writeData data in
           let* t := substring_of title in
           let* _ := logActivity "featured-story"
                       ("Featured story updated: " +:+ dquote +:+ ellipsis50 t +:+ dquote)
                       (Some "Admin User") (Some "updated") in
           ret (json (FeaturedStoryItem updated))
         end
       end
     end)
    (fun message =>
       ret (mkResponse 500 (Error "Failed to update featured story" (Some message)))).

(** [DELETE /api/featured-stories/:id] *)
Definition delete_featured_stories (id : number) : Eff Response :=
  catch
    (let* data := readData in
     let stories := default [] (featuredStories data) in
     match list_find (fun s => Int (FeaturedStory.id s) = id) stories with
     | None => ret (mkResponse 404 (Error "Featured story not found" None))
     | Some (idx, deletedStory) =>
       let data := set_featuredStories data (Some (delete idx stories)) in
       let* _ := writeData data in
       let* t := substring_of (FeaturedStory.title deletedStory) in
       let* _ := logActivity "featured-story"
                   ("Featured story deleted: " +:+ dquote +:+ ellipsis50 t +:+ dquote)
                   (Some "Admin User") (Some "deleted") in
       ret (json Success)
     end)
    (fun _ => ret (mkResponse 500 (Error "Failed to delete featured story" None))).

(** *** Media *)

(** [POST /api/media] *)
Definition post_media (body : gmap string string) (file : option File)
  : Eff Response :=
  catch
    (let title := body !! "title" in
     let description := body !! "description" in
     match file with
     | None => ret (mkResponse 400 (Error "No file uploaded" None))
     | Some file =>
       let* fileUrl := uploadToCloudinary file "media" in
       let* data := readData in
       let* id := Date_now in
       let* timestamp := Date_toISOString in
       let newMedia :=
         Media.mk id title description (Some fileUrl) (Some (mimetype file))
           (Some timestamp) in
       let data := set_media data (media data ++ [newMedia]) in
       let* _ := writeData data in
       ret (json (MediaItem newMedia))
     end)
    (fun _ => ret (mkResponse 500 (Error "Failed to upload media" None))).

(** *** News *)

(** [GET /api/news] *)
Definition get_news : Eff Response :=
  let* data := readData in
  ret (json (NewsList (news data))).

(** [POST /api/news] *)
Definition post_news (body : gmap string string) (file : option File)
  : Eff Response :=
  catch
    (let title := body !! "title" in
     let content := body !! "content" in
     let category := body !! "category" in
     let* imageUrl :=
       if truthy (body !! "imageUrl") then ret (or_empty (body !! "imageUrl"))
       else
         match file with
         | Some file => uploadToCloudinary file "news"
         | None => ret ""
         end in
     let* data := readData in
     let* id := Date_now in
     let* timestamp := Date_toISOString in
     let newNews := News.mk id title content category (Some imageUrl) (Some timestamp) in
     let data := set_news data (news data ++ [newNews]) in
     let* _ := writeData data in
     let* t := substring_of title in
     let* _ := logActivity "news"
                 ("New article published: " +:+ dquote +:+ ellipsis50 t +:+ dquote)
                 (Some "Admin User") (Some "published") in
     ret (json (NewsItem newNews)))
    (fun _ => ret (mkResponse 500 (Error "Failed to add news" None))).

(** [PUT /api/news/:id] *)
Definition put_news (id : number) (body : gmap string string)
    (file : option File) : Eff Response :=
  catch
    (let* data := readData in
     match list_find (fun n => Int (News.id n) = id) (news data) with
     | None => ret (mkResponse 404 (Error "News not found" None))
     | Some (idx, existing) =>
       let title := body !! "title" in
       let content := body !! "content" in
       let category := body !! "category" in
       let imageUrl := body !! "imageUrl" in
       let finalImageUrl := or_empty (js_or imageUrl (News.imageUrl existing)) in
       let* finalImageUrl :=
         match file with
         | Some file => uploadToCloudinary file "news"
         | None => ret finalImageUrl
         end in
       let* timestamp := Date_toISOString in
       let updated :=
         News.mk (News.id existing)
           (js_or title (News.title existing))
           (js_or content (News.content existing))
           (js_or category (News.category existing))
           (Some finalImageUrl) (Some timestamp) in
       let data := set_news data (<[idx := updated]> (news data)) in
       let* _ := writeData data in
       let* t := substring_of (News.title updated) in
       let* _ := logActivity "news"
                   ("Article updated: " +:+ dquote +:+ ellipsis50 t +:+ dquote)
                   (Some "Admin User") (Some "updated") in
       ret (json (NewsItem updated))
     end)
    (fun _ => ret (mkResponse 500 (Error "Failed to update news" None))).

(** [DELETE /api/news/:id] *)
Definition delete_news (id : number) : Eff Response :=
  catch
    (let* data := readData in
     match list_find (fun n => Int (News.id n) = id) (news data) with
     | None => ret (mkResponse 404 (Error "News not found" None))
     | Some (idx, deletedNews) =>
       let data := set_news data (delete idx (news data)) in
       let* _ := writeData data in
       let* t := substring_of (News.title deletedNews) in
       let* _ := logActivity "news"
                   ("Article deleted: " +:+ dquote +:+ ellipsis50 t +:+ dquote)
                   (Some "Admin User") (Some "deleted") in
       ret (json Success)
     end)
    (fun _ => ret (mkResponse 500 (Error "Failed to delete news" None))).

(** *** Ads *)

(** [POST /api/ads] *)
Definition post_ads (body : gmap string string) (file : option File)
  : Eff Response :=
  catch
    (let title := body !! "title" in
     let placement := body !! "placement" in
     let startDate := body !! "startDate" in
     let endDate := body !! "endDate" in
     let url := body !! "url" in
     let* imageUrl :=
       match file with
       | Some file => uploadToCloudinary file "ads"
       | None => ret ""
       end in
     let* data := readData in
     let* id := Date_now in
     let* timestamp := Date_toISOString in
     let newAd :=
       Ad.mk id title placement (Some imageUrl) url startDate endDate true
         (Some timestamp) in
     let data := set_ads data (ads data ++ [newAd]) in
     let* _ := writeData data in
     ret (json (AdItem newAd)))
    (fun _ => ret (mkResponse 500 (Error "Failed to add advertisement" None))).

(** *** Listings by category *)

(** [GET /api/breaking-news/category/:category] *)
Definition get_breaking_news_category (category : string) : Eff Response :=
  catch
    (let* data := readData in
     let filteredNews :=
       List.filter (fun n => in_category category (BreakingNews.category n))
         (breakingNews data) in
     ret (json (BreakingNewsList filteredNews)))
    (fun _ => ret (mkResponse 500 (Error "Failed to fetch breaking news by category" None))).

(** [GET /api/featured-stories/category/:category] *)
Definition get_featured_stories_category (category : string) : Eff Response :=
  catch
    (let* data := readData in
     let filteredStories :=
       List.filter (fun s => in_category category (FeaturedStory.category s))
         (default [] (featuredStories data)) in
     ret (json (FeaturedStoryList filteredStories)))
    (fun _ => ret (mkResponse 500 (Error "Failed to fetch featured stories by category" None))).

(** [GET /api/category/:category] *)
Definition get_category (category : string) : Eff Response :=
  catch
    (let* data := readData in
     let breakingNews :=
       List.filter (fun n => in_category category (BreakingNews.category n))
         (breakingNews data) in
     let featuredStories :=
       List.filter (fun s => in_category category (FeaturedStory.category s))
         (default [] (featuredStories data)) in
     let regularNews :=
       List.filter (fun n => in_category category (News.category n)) (news data) in
     ret (json (CategoryContent breakingNews featuredStories regularNews category)))
    (fun _ => ret (mkResponse 500 (Error "Failed to fetch content by category" None))).

(** *** Categories, static pages, tickers, ads, users *)

(** [GET /api/categories] *)
Definition get_categories : Eff Response :=
  let* data := readData in
  ret (json (CategoryList (categories data))).

(** [POST /api/categories] *)
Definition post_categories (body : gmap string string) : Eff Response :=
  let name := body !! "name" in
  let description := body !! "description" in
  let* data := readData in
  let* id := Date_now in
  let* timestamp := Date_toISOString in
  let newCategory := Category.mk id name description (Some timestamp) in
  let data := set_categories data (categories data ++ [newCategory]) in
  let* _ := writeData data in
  ret (json (CategoryItem newCategory)).

(** [GET /api/static-pages] *)
Definition get_static_pages : Eff Response :=
  let* data := readData in
  ret (json (StaticPageList (staticPages data))).

(** [POST /api/static-pages] *)
Definition post_static_pages (body : gmap string string) : Eff Response :=
  let title := body !! "title" in
  let content := body !! "content" in
  let slug := body !! "slug" in
  let* data := readData in
  let* id := Date_now in
  let* timestamp := Date_toISOString in
  let newPage := StaticPage.mk id title content slug (Some timestamp) in
  let data := set_staticPages data (staticPages data ++ [newPage]) in
  let* _ := writeData data in
  ret (json (StaticPageItem newPage)).

(** [GET /api/tickers] *)
Definition get_tickers : Eff Response :=
  let* data := readData in
  ret (json (TickerList (tickers data))).

(** [POST /api/tickers] *)
Definition post_tickers (body : gmap string string) : Eff Response :=
  let text := body !! "text" in
  let type := body !! "type" in
  let* data := readData in
  let* id := Date_now in
  let* timestamp := Date_toISOString in
  let newTicker := Ticker.mk id text type true (Some timestamp) in
  let data := set_tickers data (tickers data ++ [newTicker]) in
  let* _ := writeData data in
  ret (json (TickerItem newTicker)).

(** [GET /api/ads] *)
Definition get_ads : Eff Response :=
  let* data := readData in
  ret (json (AdList (ads data))).

(** [GET /api/users] *)
Definition get_users : Eff Response :=
  let* data := readData in
  ret (json (UserList (map without_password (users data)))).

(** [POST /api/users] *)
Definition post_users (body : gmap string string) : Eff Response :=
  let username := body !! "username" in
  let password := body !! "password" in
  let role := body !! "role" in
  let email := body !! "email" in
  let* data := readData in
  if existsb (fun u => bool_decide (User.username u = username)) (users data) then
    ret (mkResponse 400 (Error "Username already exists" None))
  else
    let* id := Date_now in
    let* timestamp := Date_toISOString in
    let newUser := User.mk id username password role email (Some timestamp) in
    let data := set_users data (users data ++ [newUser]) in
    let* _ := writeData data in
    ret (json (UserItem (without_password newUser))).

(** *** Routes *)

(** A route mounted behind a multer: the handler runs on the admitted
    parts; a refused request goes to the error handler of express. *)
Definition route (fileFilter : File -> Admission)
    (limits : option (list (string * nat)))
    (handler : list File -> Eff Response) (parts : list File)
  : World -> Response * World :=
  fun w =>
    match multer fileFilter limits parts with
    | inl files => run (handler files) w
    | inr message => (mkResponse 500 (Unhandled message), w)
    end.

(** The routes that take files. *)
Inductive UploadRoute : Type :=
  | POST_posters
  | POST_breaking_news
  | PUT_breaking_news (id : number)
  | POST_featured_stories
  | PUT_featured_stories (id : number)
  | POST_media
  | POST_news
  | PUT_news (id : number)
  | POST_ads.

Definition fileFilter_of (r : UploadRoute) : File -> Admission :=
  match r with
  | POST_breaking_news | PUT_breaking_news _ => breakingNewsUpload_fileFilter
  | _ => posterUpload_fileFilter
  end.

Definition limits_of (r : UploadRoute) : option (list (string * nat)) :=
  match r with
  | POST_posters =>
    Some [("posterImage1", 1%nat); ("posterImage2", 1%nat); ("posterImage3", 1%nat)]
  | POST_breaking_news | PUT_breaking_news _ => None
  | POST_media => Some [("file", 1%nat)]
  | _ => Some [("image", 1%nat)]
  end.

(** [req.files] and [req.file] as multer sets them from the admitted
    parts: an object of arrays for [.fields], the array for [.any()], the
    one file for [.single]. *)
Definition handler_of (r : UploadRoute) (body : gmap string string)
    (files : list File) : Eff Response :=
  match r with
  | POST_posters => post_posters body (Some (group_by_fieldname files))
  | POST_breaking_news => post_breaking_news body (Some files)
  | PUT_breaking_news id => put_breaking_news id body (Some files)
  | POST_featured_stories => post_featured_stories body (head files)
  | PUT_featured_stories id => put_featured_stories id body (head files)
  | POST_media => post_media body (head files)
  | POST_news => post_news body (head files)
  | PUT_news id => put_news id body (head files)
  | POST_ads => post_ads body (head files)
  end.

Definition serve (r : UploadRoute) (body : gmap string string)
    (parts : list File) : World -> Response * World :=
  route (fileFilter_of r) (limits_of r) (handler_of r body) parts.

(** *** Entity kinds with update and delete *)

Inductive Kind : Type := breaking_news | featured_stories | news_articles.

Definition update (k : Kind) (id : number) (body : gmap string string)
    (files : list File) : Eff Response :=
  handler_of
    match k with
    | breaking_news => PUT_breaking_news id
    | featured_stories => PUT_featured_stories id
    | news_articles => PUT_news id
    end body files.


(** The ids of the stored records of a kind, in order; [None] when the
    document has no such collection. *)
Definition ids (k : Kind) (d : Document) : option (list Z) :=
  match k with
  | breaking_news => Some (BreakingNews.id <$> breakingNews d)
  | featured_stories => fmap (M:=list) FeaturedStory.id <$> featuredStories d
  | news_articles => Some (News.id <$> news d)
  end.

(** *** Creates that take files *)

Inductive Create : Type :=
  | create_posters (files : option (gmap string (list File)))
  | create_breaking_news (files : option (list File))
  | create_featured_story (file : option File)
  | create_media (file : option File)
  | create_news (file : option File)
  | create_ad (file : option File).

Definition create (c : Create) (body : gmap string string) : Eff Response :=
  match c with
  | create_posters files => post_posters body files
  | create_breaking_news files => post_breaking_news body files
  | create_featured_story file => post_featured_stories body file
  | create_media file => post_media body file
  | create_news file => post_news body file
  | create_ad file => post_ads body file
  end.

(** *** The requests that read or write the data file *)

Inductive Request : Type :=
  | POST_auth_login (body : gmap string string)
  | GET_posters
  | GET_breaking_news
  | DELETE_breaking_news (id : number)
  | GET_breaking_news_category (category : string)
  | GET_featured_stories
  | DELETE_featured_stories (id : number)
  | GET_featured_stories_category (category : string)
  | GET_category (category : string)
  | GET_categories
  | POST_categories (body : gmap string string)
  | GET_activities
  | GET_news
  | DELETE_news (id : number)
  | GET_static_pages
  | POST_static_pages (body : gmap string string)
  | GET_tickers
  | POST_tickers (body : gmap string string)
  | GET_ads
  | GET_users
  | POST_users (body : gmap string string)
  | Upload (r : UploadRoute) (body : gmap string string) (parts : list File).

Definition handle (req : Request) : World -> Response * World :=
  match req with
  | POST_auth_login body => run (post_auth_login body)
  | GET_posters => run get_posters
  | GET_breaking_news => run get_breaking_news
  | DELETE_breaking_news id => run (delete_breaking_news id)
  | GET_breaking_news_category category => run (get_breaking_news_category category)
  | GET_featured_stories => run get_featured_stories
  | DELETE_featured_stories id => run (delete_featured_stories id)
  | GET_featured_stories_category category => run (get_featured_stories_category category)
  | GET_category category => run (get_category category)
  | GET_categories => run get_categories
  | POST_categories body => run (post_categories body)
  | GET_activities => run get_activities
  | GET_news => run get_news
  | DELETE_news id => run (delete_news id)
  | GET_static_pages => run get_static_pages
  | POST_static_pages body => run (post_static_pages body)
  | GET_tickers => run get_tickers
  | POST_tickers body => run (post_tickers body)
  | GET_ads => run get_ads
  | GET_users => run get_users
  | POST_users body => run (post_users body)
  | Upload r body parts => serve r body parts
  end.

(** The world after the requests, served one after the other. *)
Definition serve_all (reqs : list Request) (w : World) : World :=
  foldl (fun w req => snd (handle req w)) w reqs.

(** *** Definitions for the properties *)

(** The activities a handler would read in [w]. *)
Definition activity_log (w : World) : list Activity.t :=
  default [] (activities (stored w)).

(** The record that [logActivity] builds in [w]. *)
Definition new_activity (type title : string) (user status : option string)
    (w : World) : Activity.t :=
  Activity.mk (clock (ticks w)) type title
    (default "Admin User" user) (default "completed" status)
    (toISOString (clock (S (ticks w)))).

Definition log_call (c : Call) : Eff Activity.t :=
  logActivity (call_type c) (call_title c) (call_user c) (call_status c).

(** Calls of [logActivity] one after the other; the records they return,
    oldest first. *)
Fixpoint log_calls (calls : list Call) (w : World) : list Activity.t * World :=
  match calls with
  | [] => ([], w)
  | c :: calls' =>
    match log_call c w with
    | (Return a, w') =>
      let (l, w'') := log_calls calls' w' in (a :: l, w'')
    | (Throw _, w') => ([], w')
    end
  end.

(** The records that [log_calls] builds from the [n]-th reading of the
    clock on. *)
Fixpoint logged (calls : list Call) (n : nat) : list Activity.t :=
  match calls with
  | [] => []
  | c :: calls' =>
    Activity.mk (clock n) (call_type c) (call_title c)
      (default "Admin User" (call_user c)) (default "completed" (call_status c))
      (toISOString (clock (S n)))
    :: logged calls' (S (S n))
  end.

(** What one request may do to the activities: nothing, or put a record
    at the front and keep the first 50. *)
Definition log_step (w w' : World) : Prop :=
  activity_log w' = activity_log w \/
  exists a, activity_log w' = take 50 (a :: activity_log w).

(** What one request may do to the posters: nothing, or set three, with
    the ids 1, 2 and 3. *)
Definition posters_step (w w' : World) : Prop :=
  posters (stored w') = posters (stored w) \/
  exists p1 p2 p3,
    posters (stored w') = Some [p1; p2; p3] /\
    Poster.id <$> [p1; p2; p3] = [1; 2; 3].

Definition placeholder (i : nat) : Poster.t := Poster.mk (Z.of_nat i) "" "" "".

Definition credentials_match (body : gmap string string) (u : User.t) : Prop :=
  User.username u = body !! "username" /\ User.password u = body !! "password".

Definition Unauthorized : Response :=
  mkResponse 401 (LoginFailure "Invalid credentials").

(** The lower-cased extension that the filters test. *)
Definition extension (f : File) : string := toLowerCase (extname (originalname f)).

(** [p] occurs in [s]. *)
Definition occurs (p s : string) : Prop :=
  exists before after, s = before +:+ p +:+ after.

(** What the filter of a route tests, without the patterns: a token of
    its list of extensions occurs in the lower-cased extension of the
    file, and a MIME type of its list occurs in the declared MIME type;
    for breaking news, those of a video or those of an image. *)
Definition passes_filter (r : UploadRoute) (f : File) : Prop :=
  let both exts pre mimes :=
    Exists (fun e => occurs e (extension f)) exts /\
    Exists (fun m => occurs (pre +:+ m) (mimetype f)) mimes in
  match r with
  | POST_breaking_news | PUT_breaking_news _ =>
    both videoExtTypes "video/" videoMimeTypes
    \/ both imageExtTypes "image/" imageMimeTypes
  | _ => both posterExtTypes "image/" posterMimeTypes
  end.

(** The allow-lists in the words of the specification: for each kind of
    file that the fields of a route take, the file extensions and the
    declared MIME types of that kind. *)
Definition spec_allow_list (r : UploadRoute) : list (list string * list string) :=
  match r with
  | POST_breaking_news | PUT_breaking_news _ =>
    [([".mp4"; ".mov"; ".avi"; ".wmv"],
      ["video/mp4"; "video/quicktime"; "video/avi"; "video/x-msvideo"]);
     ([".jpeg"; ".jpg"; ".png"; ".gif"; ".webp"],
      ["image/jpeg"; "image/jpg"; "image/png"; "image/gif"; "image/webp"])]
  | _ =>
    [([".jpeg"; ".jpg"; ".png"; ".gif"; ".webp"; ".avif"],
      ["image/jpeg"; "image/jpg"; "image/png"; "image/gif"; "image/webp";
       "image/avif"])]
  end.

(** The admission of the specification: both the extension and the
    declared MIME type of the file are on the allow-list of the route,
    for one kind of file. *)
Definition spec_admits (r : UploadRoute) (f : File) : Prop :=
  exists exts mimes,
    (exts, mimes) ∈ spec_allow_list r /\ extension f ∈ exts /\ mimetype f ∈ mimes.

(** The computation throws, in whatever world it runs. *)
Definition raises {A} (m : Eff A) : Prop :=
  forall w, exists e w', m w = (Throw e, w').

(** The first file part of a request on the field [name]. *)
Definition part_on (name : string) (files : list File) : option File :=
  head (filter (fun f => fieldname f = name) files).

(** No file part is on a field named like a property of
    [Object.prototype]. *)
Definition plain_fields (files : list File) : Prop :=
  Forall (fun f => fieldname f ∉ Object_prototype) files.

(** The files of a breaking-news request that its handler uploads, each
    with its folder on the media host: the first part on [video] and the
    first part on [thumbnail], when the parts can be grouped. *)
Definition breaking_news_attached (files : list File) : list (File * string) :=
  if bool_decide (plain_fields files) then
    option_list ((fun f => (f, "breaking-news")) <$> part_on "video" files)
    ++ option_list ((fun f => (f, "breaking-news-thumbnails"))
                      <$> part_on "thumbnail" files)
  else [].

(** The files that a create uploads, each with its folder on the media
    host. *)
Definition attached (c : Create) (body : gmap string string)
  : list (File * string) :=
  match c with
  | create_posters files =>
    omap (fun i => (fun f => (f, "posters")) <$> poster_file files i) [1; 2; 3]
  | create_breaking_news files => breaking_news_attached (default [] files)
  | create_featured_story file =>
    option_list ((fun f => (f, "featured-stories")) <$> file)
  | create_media file => option_list ((fun f => (f, "media")) <$> file)
  | create_news file =>
    if truthy (body !! "imageUrl") then []
    else option_list ((fun f => (f, "news")) <$> file)
  | create_ad file => option_list ((fun f => (f, "ads")) <$> file)
  end.

(** What [POST /api/posters] writes in slot [i]: the title, the link and
    the image URL of the request, the URL of the uploaded file taking the
    place of the latter, and the empty string for what is missing. *)
Definition poster_written (body : gmap string string)
    (files : option (gmap string (list File))) (i : Z) (p : Poster.t) : Prop :=
  Poster.id p = i /\
  Poster.title p = or_empty (body !! ("poster" +:+ pretty i +:+ "Title")) /\
  Poster.link p = or_empty (body !! ("poster" +:+ pretty i +:+ "Link")) /\
  match poster_file files i with
  | Some f =>
    exists url, cloudinary (path f) "posters" = inl url /\
                Poster.image p = or_empty (Some url)
  | None =>
    Poster.image p = or_empty (body !! ("poster" +:+ pretty i +:+ "ImageUrl"))
  end.

(** The computation returns [a], in whatever world it runs. *)
Definition returns {A} (m : Eff A) (a : A) : Prop :=
  forall w, exists w', m w = (Return a, w').

(** The URL that a create gets for an optional file: the empty string
    without a file, what the upload returns with one. *)
Definition url_of (file : option File) (folder url : string) : Prop :=
  match file with
  | None => url = ""
  | Some f => returns (uploadToCloudinary f folder) url
  end.

(** The priority that [POST /api/featured-stories] stores. *)
Definition priority_of (body : gmap string string) : number :=
  match body !! "priority" with
  | Some p => if truthy (Some p) then Number p else Int 1
  | None => Int 1
  end.



(** A stored featured story with every field set. *)
Definition a_story : FeaturedStory.t :=
  FeaturedStory.mk 1 (Some "Old title") (Some "Old description")
    (Some "Old content") (Some "world") (Some "Goa") (Some "Old excerpt")
    (Some "https://host/old.png") (Some (Int 3)) (Some "0")
    (Some "2024-01-01T00:00:00.000Z").

Definition a_story_world : World :=
  mkWorld (Some (set_featuredStories emptyDocument (Some [a_story]))) 0 [].

(** The requests that only read: the listings and the login. *)
Definition reads (req : Request) : bool :=
  match req with
  | POST_auth_login _ | GET_posters | GET_breaking_news
  | GET_breaking_news_category _ | GET_featured_stories
  | GET_featured_stories_category _ | GET_category _ | GET_categories
  | GET_activities | GET_news | GET_static_pages | GET_tickers | GET_ads
  | GET_users => true
  | _ => false
  end.

(** The requests whose handlers call [logActivity]. *)
Definition logs (req : Request) : bool :=
  match req with
  | DELETE_featured_stories _ | DELETE_news _
  | Upload POST_featured_stories _ _ | Upload (PUT_featured_stories _) _ _
  | Upload POST_news _ _ | Upload (PUT_news _) _ _ => true
  | _ => false
  end.

(** The file parts of a request. *)
Definition parts_of (req : Request) : list File :=
  match req with
  | Upload _ _ parts => parts
  | _ => []
  end.

(** The files that an update uploads once it has found its record, each
    with its folder on the media host. *)
Definition update_attached (k : Kind) (files : list File) : list (File * string) :=
  match k with
  | breaking_news => breaking_news_attached files
  | featured_stories =>
    option_list ((fun f => (f, "featured-stories")) <$> head files)
  | news_articles => option_list ((fun f => (f, "news")) <$> head files)
  end.

(** The usernames of the stored users, in order. *)
Definition usernames (d : Document) : list (option string) :=
  User.username <$> users d.

(** The user records that a response carries. *)
Definition users_of (b : Body) : list User.t :=
  match b with
  | LoginUser u | UserItem u => [u]
  | UserList l => l
  | _ => []
  end.

(** ** Properties *)

Lemma stored_set_dataFile w d : stored (set_dataFile w (Some d)) = d.
Proof. reflexivity. Qed.

Lemma readData_stored w : readData w = (Return (stored w), w).
Proof. unfold readData, stored. destruct (dataFile w); reflexivity. Qed.

Lemma stored_dataFile w w' : dataFile w' = dataFile w -> stored w' = stored w.
Proof. unfold stored. intros ->. reflexivity. Qed.

Local Arguments logActivity : simpl never.

Lemma logActivity_eq type title user status w :
  logActivity type title user status w =
    (Return (new_activity type title user status w),
     mkWorld
       (Some (set_activities (stored w)
                (Some (take 50 (new_activity type title user status w
                                :: activity_log w)))))
       (S (S (ticks w))) (uploads w)).
Proof.
  unfold logActivity, bind, readData, Date_now, Date_toISOString, writeData,
    ret, new_activity, activity_log, stored.
  destruct w as [[d|] n u]; reflexivity.
Qed.

Lemma activity_log_logActivity type title user status w :
  activity_log (snd (logActivity type title user status w)) =
    take 50 (new_activity type title user status w :: activity_log w).
Proof. rewrite logActivity_eq. reflexivity. Qed.

Lemma take_app_take {A} (n : nat) (l1 l2 : list A) :
  take n (l1 ++ take n l2) = take n (l1 ++ l2).
Proof.
  rewrite !take_app, take_take. f_equal. f_equal. lia.
Qed.

Lemma length_logged calls : forall n, length (logged calls n) = length calls.
Proof. induction calls; intros; simpl; auto. Qed.

Lemma log_calls_logged calls : forall w,
  fst (log_calls calls w) = logged calls (ticks w).
Proof.
  induction calls as [|c calls IH]; intros w; simpl; [reflexivity|].
  unfold log_call. rewrite logActivity_eq.
  specialize (IH (mkWorld
       (Some (set_activities (stored w)
                (Some (take 50 (new_activity (call_type c) (call_title c)
                                  (call_user c) (call_status c) w
                                :: activity_log w)))))
       (S (S (ticks w))) (uploads w))).
  destruct (log_calls calls _) as [l w'']. simpl in *. rewrite IH. reflexivity.
Qed.

Lemma log_calls_activity_log calls : forall w,
  calls <> [] ->
  activity_log (snd (log_calls calls w)) =
    take 50 (reverse (logged calls (ticks w)) ++ activity_log w).
Proof.
  induction calls as [|c calls IH]; intros w Hne; [congruence|].
  rewrite <- log_calls_logged. simpl.
  unfold log_call. rewrite logActivity_eq.
  set (a := new_activity _ _ _ _ w).
  set (w1 := mkWorld _ _ _).
  destruct calls as [|c' calls].
  - reflexivity.
  - specialize (IH w1 ltac:(congruence)).
    rewrite <- log_calls_logged in IH.
    destruct (log_calls (c' :: calls) w1) as [l w2]. simpl in *.
    rewrite IH. unfold w1 at 1. unfold activity_log at 1. simpl.
    change (a :: take 49 (activity_log w)) with (take 50 (a :: activity_log w)).
    rewrite take_app_take, reverse_cons, <- app_assoc. reflexivity.
Qed.

Lemma log_calls_dataFile calls : forall w,
  calls <> [] ->
  dataFile (snd (log_calls calls w)) =
    Some (set_activities (stored (snd (log_calls calls w)))
            (Some (activity_log (snd (log_calls calls w))))) /\
  set_activities (stored (snd (log_calls calls w))) None =
    set_activities (stored w) None.
Proof.
  induction calls as [|c calls IH]; intros w Hne; [congruence|].
  simpl. unfold log_call. rewrite logActivity_eq.
  set (w1 := mkWorld _ _ _).
  destruct calls as [|c' calls].
  - simpl. split; reflexivity.
  - specialize (IH w1 ltac:(congruence)).
    destruct (log_calls (c' :: calls) w1) as [l w2]. simpl in *.
    destruct IH as [IH1 IH2]. split; [exact IH1|].
    rewrite IH2. reflexivity.
Qed.

(** C1 (as the code has it). Without a data file [readData] returns a
    document of eleven empty collections: ten of the eleven of the data
    model, and [tools]; it has no [activities], which the first
    [logActivity] creates and which [GET /api/activities] reads as
    empty until then. *)
Theorem readData_without_file (w : World) (Hfile : dataFile w = None) :
  readData w = (Return emptyDocument, w) /\
  collections emptyDocument =
    [("posters", 0%nat); ("breakingNews", 0%nat); ("featuredStories", 0%nat);
     ("categories", 0%nat); ("users", 0%nat); ("media", 0%nat);
     ("news", 0%nat); ("staticPages", 0%nat); ("tickers", 0%nat);
     ("tools", 0%nat); ("ads", 0%nat)] /\
  (forall k, k ∈ spec_collections -> k <> "activities" ->
     collection k emptyDocument = Some 0%nat) /\
  collection "activities" emptyDocument = None /\
  run get_activities w = (json (ActivityList []), w) /\
  (forall type title user status,
     activities (stored (snd (logActivity type title user status w))) =
       Some [new_activity type title user status w]).
Proof.
  split; [|split; [|split; [|split; [|split]]]].
  - unfold readData. rewrite Hfile. reflexivity.
  - reflexivity.
  - intros k Hk Hne. unfold spec_collections in Hk.
    repeat (apply elem_of_cons in Hk as [->|Hk]; [try reflexivity; congruence|]).
    apply elem_of_nil in Hk. contradiction.
  - reflexivity.
  - unfold run, get_activities, bind, readData, ret. rewrite Hfile. reflexivity.
  - intros. rewrite logActivity_eq. unfold activity_log, stored.
    rewrite Hfile. reflexivity.
Qed.

(** *** Posters *)

Lemma pad_posters_spec (l : list Poster.t) :
  pad_posters 3 l = l ++ map placeholder (seq (length l + 1) (3 - length l)).
Proof.
  destruct l as [|p1 [|p2 [|p3 l]]]; try reflexivity.
  simpl. rewrite app_nil_r. reflexivity.
Qed.

(** *** Login *)

(** C8. [POST /api/auth/login] succeeds exactly when a stored user has
    the username and the password of the request.  It then answers with
    that user, the first of the stored users that has both: the id, the
    username, the role, the email and the timestamp of the answer are
    those of the stored record, and the answer has no password.  Every
    failure is the one response [Unauthorized], whatever the request and
    the stored users, so an unknown username and a wrong password cannot
    be told apart.  The data file is not touched. *)
Theorem login_iff_credentials_match (body : gmap string string) (w : World) :
  (status (fst (run (post_auth_login body) w)) = 200 <->
   exists u, u ∈ users (stored w) /\ credentials_match body u) /\
  ((exists i u answered,
      users (stored w) !! i = Some u /\ credentials_match body u /\
      (forall j v, users (stored w) !! j = Some v -> (j < i)%nat ->
                   ~ credentials_match body v) /\
      run (post_auth_login body) w = (json (LoginUser answered), w) /\
      User.id answered = User.id u /\
      User.username answered = User.username u /\
      User.username answered = body !! "username" /\
      User.role answered = User.role u /\
      User.email answered = User.email u /\
      User.timestamp answered = User.timestamp u /\
      User.password answered = None) \/
   ((forall u, u ∈ users (stored w) -> ~ credentials_match body u) /\
    run (post_auth_login body) w = (Unauthorized, w))).
Proof.
  unfold run, post_auth_login, bind, ret, credentials_match.
  rewrite readData_stored.
  set (matches := fun u : User.t =>
         bool_decide (User.username u = body !! "username")
         && bool_decide (User.password u = body !! "password")).
  assert (Hmatches : forall u, matches u = true <->
            User.username u = body !! "username" /\
            User.password u = body !! "password").
  { intros u. unfold matches.
    rewrite andb_true_iff, !bool_decide_eq_true. reflexivity. }
  assert (Hfirst : forall l : list User.t,
            match find matches l with
            | Some u =>
              exists i, l !! i = Some u /\ matches u = true /\
                forall j v, l !! j = Some v -> (j < i)%nat -> matches v = false
            | None => forall v, v ∈ l -> matches v = false
            end).
  { induction l as [|x l IH]; simpl.
    - intros v Hv. apply elem_of_nil in Hv. contradiction.
    - destruct (matches x) eqn:Hx.
      + exists 0%nat. repeat split; auto. intros j v _ Hj. lia.
      + destruct (find matches l) as [u|].
        * destruct IH as (i & Hi & Hu & Hbefore).
          exists (S i). repeat split; auto.
          intros [|j] v Hv Hj; simpl in Hv.
          -- inversion Hv; subst. exact Hx.
          -- apply (Hbefore j v Hv). lia.
        * intros v Hv. apply elem_of_cons in Hv as [->|Hv]; auto. }
  specialize (Hfirst (users (stored w))).
  destruct (find matches (users (stored w))) as [u|]; simpl.
  - destruct Hfirst as (i & Hi & Hu & Hbefore).
    apply Hmatches in Hu. split.
    + split; [|reflexivity]. intros _. exists u. split; [|exact Hu].
      eapply list_elem_of_lookup_2. exact Hi.
    + left. exists i, u, (without_password u).
      split; [exact Hi|]. split; [exact Hu|]. split.
      { intros j v Hv Hj Hm. apply Hmatches in Hm.
        rewrite (Hbefore j v Hv Hj) in Hm. discriminate. }
      split; [reflexivity|]. destruct Hu as [Hu _].
      repeat split; try reflexivity. exact Hu.
  - assert (Hnone : forall u, u ∈ users (stored w) ->
              ~ (User.username u = body !! "username" /\
                 User.password u = body !! "password")).
    { intros u Hin Hm. apply Hmatches in Hm.
      rewrite (Hfirst u Hin) in Hm. discriminate. }
    split; [split; [discriminate|]|].
    + intros (u & Hin & Hm). destruct (Hnone u Hin Hm).
    + right. split; [exact Hnone|reflexivity].
Qed.

(** *** File admission *)

Lemma multer_parts_refused fileFilter limits parts : forall seen f,
  f ∈ parts -> fileFilter f <> Admit ->
  exists m, multer_parts fileFilter limits seen parts = inr m.
Proof.
  induction parts as [|g parts IH]; intros seen f Hin Hf.
  - apply elem_of_nil in Hin. contradiction.
  - simpl.
    match goal with |- context [if ?b then _ else _] => destruct b end;
      [|eauto].
    destruct (fileFilter g) eqn:Hg; [|eauto].
    apply elem_of_cons in Hin as [->|Hin]; [congruence|].
    eapply IH; eauto.
Qed.

Lemma multer_parts_admitted fileFilter limits parts : forall seen files,
  multer_parts fileFilter limits seen parts = inl files ->
  files = seen ++ parts /\ Forall (fun f => fileFilter f = Admit) parts.
Proof.
  induction parts as [|g parts IH]; intros seen files H; simpl in H.
  - inversion H. rewrite app_nil_r. split; [reflexivity|constructor].
  - match type of H with context [if ?b then _ else _] => destruct b end;
      [|discriminate].
    destruct (fileFilter g) eqn:Hg; [|discriminate].
    apply IH in H as [-> HF]. rewrite <- app_assoc. split; [reflexivity|].
    constructor; assumption.
Qed.

(** [path.extname] on file names. *)

Lemma free_of_get (c : ascii) (s : string) :
  free_of c s = true ->
  forall i, (i < String.length s)%nat ->
  exists d, String.get i s = Some d /\ Ascii.eqb d c = false.
Proof.
  induction s as [|d s IH]; simpl; intros H i Hi; [lia|].
  apply andb_prop in H as [Hd Hs]. apply negb_true_iff in Hd.
  destruct i as [|i]; [eauto|]. apply IH; [exact Hs|lia].
Qed.

Lemma get_append_left (s1 s2 : string) (i : nat) :
  (i < String.length s1)%nat -> String.get i (s1 +:+ s2) = String.get i s1.
Proof.
  revert i. induction s1 as [|c s1 IH]; simpl; intros i Hi; [lia|].
  destruct i as [|i]; [reflexivity|]. apply IH. lia.
Qed.

Lemma get_append_right (s1 s2 : string) (j : nat) :
  String.get (String.length s1 + j) (s1 +:+ s2) = String.get j s2.
Proof. induction s1 as [|c s1 IH]; simpl; auto. Qed.

Lemma length_append (s1 s2 : string) :
  String.length (s1 +:+ s2) = (String.length s1 + String.length s2)%nat.
Proof. induction s1; simpl; auto. Qed.

Lemma substring_whole (s : string) : String.substring 0 (String.length s) s = s.
Proof. induction s as [|c s IH]; simpl; [reflexivity|]. rewrite IH. reflexivity. Qed.

Lemma substring_append_right (s1 s2 : string) :
  String.substring (String.length s1) (String.length s2) (s1 +:+ s2) = s2.
Proof.
  induction s1 as [|c s1 IH]; simpl; [apply substring_whole|exact IH].
Qed.

(** The scan over the extension: nothing changes once the end is set. *)
Lemma extname_loop_ext (p : string) (a : nat) : forall k st,
  (forall j, (j < k)%nat ->
     exists c, String.get (a + 1 + j) p = Some c /\
               Ascii.eqb c "/" = false /\ Ascii.eqb c "." = false) ->
  scan_startDot st = None -> is_Some (scan_end st) ->
  extname_loop p (a + 1 + k) st = extname_loop p (a + 1) st.
Proof.
  induction k as [|k IH]; intros st Hchars Hdot Hend.
  - f_equal. lia.
  - replace (a + 1 + S k)%nat with (S (a + 1 + k)) by lia.
    cbn [extname_loop].
    destruct (Hchars k ltac:(lia)) as (c & -> & -> & ->).
    destruct Hend as [e He]. rewrite He, Hdot.
    apply IH; [intros j Hj; apply Hchars; lia|exact Hdot|eauto].
Qed.

(** The scan over the stem: the dot and the end stay, and the state before
    the dot is no longer 0 once a character has been seen. *)
Lemma extname_loop_stem (p : string) (a L : nat) : forall n st,
  (n <= a)%nat ->
  (forall i, (i < a)%nat ->
     exists c, String.get i p = Some c /\ Ascii.eqb c "/" = false) ->
  scan_startDot st = Some a -> scan_end st = Some L ->
  scan_startDot (extname_loop p n st) = Some a /\
  scan_end (extname_loop p n st) = Some L /\
  ((0 < n)%nat \/ scan_preDotState st <> 0 ->
   scan_preDotState (extname_loop p n st) <> 0).
Proof.
  induction n as [|n IH]; intros st Hn Hchars Hdot Hend.
  - simpl. repeat split; auto. intros [H|H]; [lia|exact H].
  - cbn [extname_loop].
    destruct (Hchars n ltac:(lia)) as (c & -> & ->).
    rewrite Hend. cbv beta iota zeta. rewrite Hdot.
    destruct (Ascii.eqb c "."); [destruct (negb (scan_preDotState st =? 1)) eqn:E|];
      match goal with
      | |- context [extname_loop p n ?s] =>
        destruct (IH s) as (H1 & H2 & H3);
          [lia|exact Hchars|simpl; congruence|simpl; congruence|]
      end;
      (split; [exact H1|]); (split; [exact H2|]);
      intros _; apply H3; right; simpl; try lia;
      apply negb_false_iff, Z.eqb_eq in E; lia.
Qed.

(** The last character of the extension sets the end. *)
Lemma extname_loop_last (p : string) (a k : nat) (st : ExtScan) :
  (forall j, (j < S k)%nat ->
     exists c, String.get (a + 1 + j) p = Some c /\
               Ascii.eqb c "/" = false /\ Ascii.eqb c "." = false) ->
  scan_startDot st = None -> scan_end st = None ->
  extname_loop p (a + 1 + S k) st =
    extname_loop p (a + 1)
      (mkExtScan None (scan_startPart st) (Some (a + 1 + S k)%nat) false
         (scan_preDotState st)).
Proof.
  intros Hchars Hdot Hend.
  rewrite <- (extname_loop_ext p a k);
    [|intros j Hj; apply Hchars; lia|reflexivity|simpl; eauto].
  replace (a + 1 + S k)%nat with (S (a + 1 + k)) by lia.
  cbn [extname_loop].
  destruct (Hchars k ltac:(lia)) as (c & -> & -> & ->).
  rewrite Hend. cbv beta iota zeta. simpl scan_startDot. rewrite Hdot.
  reflexivity.
Qed.

(** The dot before the extension. *)
Lemma extname_loop_dot (p : string) (a L : nat) (st : ExtScan) :
  String.get a p = Some "."%char ->
  scan_startDot st = None -> scan_end st = Some L ->
  extname_loop p (a + 1) st =
    extname_loop p a
      (mkExtScan (Some a) (scan_startPart st) (Some L) (scan_matchedSlash st)
         (scan_preDotState st)).
Proof.
  intros Hget Hdot Hend.
  replace (a + 1)%nat with (S a) by lia. cbn [extname_loop].
  rewrite Hget, Hend. cbv beta iota zeta. simpl Ascii.eqb. cbv iota.
  rewrite Hdot, Hend. reflexivity.
Qed.

(** [path.extname] of a file name without directory: after a stem that is
    not empty, the last dot and what follows it. *)
Lemma extname_of_name (stem e : string) :
  stem <> "" -> free_of "/" stem = true ->
  e <> "" -> free_of "/" e = true -> free_of "." e = true ->
  extname (stem +:+ "." +:+ e) = "." +:+ e.
Proof.
  intros Hstem Hslash He Heslash Hedot.
  set (p := stem +:+ "." +:+ e). set (a := String.length stem).
  assert (Hlen : String.length p = (a + 1 + String.length e)%nat).
  { unfold p, a. rewrite !length_append. simpl. lia. }
  assert (Hext : forall j, (j < String.length e)%nat ->
            exists c, String.get (a + 1 + j) p = Some c /\
                      Ascii.eqb c "/" = false /\ Ascii.eqb c "." = false).
  { intros j Hj. unfold p, a.
    replace (String.length stem + 1 + j)%nat
      with (String.length stem + S j)%nat by lia.
    rewrite get_append_right. simpl.
    destruct (free_of_get "/" e Heslash j Hj) as (c & Hc & Hs).
    destruct (free_of_get "." e Hedot j Hj) as (c' & Hc' & Hd).
    rewrite Hc in Hc'. inversion Hc'; subst c'. eauto. }
  assert (Hdot : String.get a p = Some "."%char).
  { unfold p, a.
    replace (String.length stem) with (String.length stem + 0)%nat at 1 by lia.
    rewrite get_append_right. reflexivity. }
  assert (Hstemchars : forall i, (i < a)%nat ->
            exists c, String.get i p = Some c /\ Ascii.eqb c "/" = false).
  { intros i Hi. unfold p. rewrite get_append_left by exact Hi.
    apply free_of_get; assumption. }
  assert (Hpos : (0 < a)%nat).
  { unfold a. destruct stem; [congruence|simpl; lia]. }
  destruct (String.length e) as [|k] eqn:Hk;
    [destruct e; [congruence|discriminate]|].
  unfold extname. fold p. rewrite Hlen.
  rewrite (extname_loop_last p a k) by (auto; reflexivity).
  rewrite (extname_loop_dot p a (a + 1 + S k)) by (auto; reflexivity).
  destruct (extname_loop_stem p a (a + 1 + S k) a
              (mkExtScan (Some a) 0 (Some (a + 1 + S k)%nat) false 0))
    as (H1 & H2 & H3); [lia|exact Hstemchars|reflexivity|reflexivity|].
  simpl scan_startPart. simpl scan_matchedSlash. simpl scan_preDotState.
  rewrite H1, H2.
  specialize (H3 (or_introl Hpos)).
  apply Z.eqb_neq in H3. rewrite H3.
  replace (a =? a + 1 + S k - 1)%nat with false
    by (symmetry; apply Nat.eqb_neq; lia).
  rewrite andb_false_r. simpl orb. cbv iota.
  replace (a + 1 + S k - a)%nat with (String.length ("." +:+ e))
    by (change ("." +:+ e) with (String "." e); simpl; rewrite Hk; lia).
  unfold p, a. apply substring_append_right.
Qed.

(** A name without a dot has no extension. *)
Lemma extname_loop_plain (p : string) : forall n st,
  (n <= String.length p)%nat ->
  free_of "/" p = true -> free_of "." p = true ->
  scan_startDot st = None ->
  scan_startDot (extname_loop p n st) = None.
Proof.
  induction n as [|n IH]; intros st Hn Hs Hd Hdot; [exact Hdot|].
  cbn [extname_loop].
  destruct (free_of_get "/" p Hs n ltac:(lia)) as (c & Hc & Hcs).
  destruct (free_of_get "." p Hd n ltac:(lia)) as (c' & Hc' & Hcd).
  rewrite Hc in Hc'. inversion Hc'; subst c'.
  rewrite Hc, Hcs, Hcd.
  destruct (scan_end st); simpl; rewrite ?Hdot; apply IH; auto; lia.
Qed.

Lemma extname_without_dot (p : string) :
  free_of "/" p = true -> free_of "." p = true -> extname p = "".
Proof.
  intros Hs Hd. unfold extname.
  rewrite (extname_loop_plain p (String.length p)); auto.
Qed.

Lemma test_alternatives_app l1 l2 s :
  test_alternatives (l1 ++ l2) s = test_alternatives l1 s || test_alternatives l2 s.
Proof. apply existsb_app. Qed.

Lemma prefix_append (p s : string) :
  String.prefix p s = true <-> exists after, s = p +:+ after.
Proof.
  revert s. induction p as [|a p IH]; intros s.
  - split; [eauto|]. intros _. destruct s; reflexivity.
  - destruct s as [|b s]; simpl.
    + split; [discriminate|]. intros [after H]. discriminate H.
    + destruct (ascii_dec a b) as [->|Hne].
      * rewrite IH. split; intros [after H]; exists after.
        -- change (String b s = String b (p +:+ after)). rewrite H. reflexivity.
        -- change (String b s = String b (p +:+ after)) in H. congruence.
      * split; [discriminate|]. intros [after H].
        change (String b s = String a (p +:+ after)) in H. congruence.
Qed.

Lemma includes_occurs (p s : string) : includes p s = true <-> occurs p s.
Proof.
  unfold occurs. induction s as [|c s IH].
  - change (includes p "") with (String.prefix p "").
    rewrite prefix_append. split.
    + intros [after H]. exists "", after. exact H.
    + intros (before & after & H). destruct before; [eauto|discriminate H].
  - change (includes p (String c s))
      with (String.prefix p (String c s) || includes p s).
    rewrite orb_true_iff, IH, prefix_append. split.
    + intros [[after H] | (before & after & H)].
      * exists "", after. exact H.
      * exists (String c before), after.
        change (String c s = String c (before +:+ p +:+ after)).
        rewrite H. reflexivity.
    + intros (before & after & H). destruct before as [|d before].
      * left. eauto.
      * right. exists before, after.
        change (String c s = String d (before +:+ p +:+ after)) in H. congruence.
Qed.

Lemma test_alternatives_occurs (alts : list string) (s : string) :
  test_alternatives alts s = true <-> Exists (fun a => occurs a s) alts.
Proof.
  unfold test_alternatives. rewrite existsb_exists, Exists_exists.
  split; intros (a & Ha & H); exists a.
  - apply list_elem_of_In in Ha. split; [exact Ha|]. apply includes_occurs, H.
  - apply list_elem_of_In in Ha. split; [exact Ha|]. apply includes_occurs, H.
Qed.

Lemma test_prefixed_occurs (pre : string) (alts : list string) (s : string) :
  test_prefixed pre alts s = true <-> Exists (fun a => occurs (pre +:+ a) s) alts.
Proof.
  unfold test_prefixed. rewrite existsb_exists, Exists_exists.
  split; intros (a & Ha & H); exists a.
  - apply list_elem_of_In in Ha. split; [exact Ha|]. apply includes_occurs, H.
  - apply list_elem_of_In in Ha. split; [exact Ha|]. apply includes_occurs, H.
Qed.

Lemma fileFilter_of_admit r f : fileFilter_of r f = Admit <-> passes_filter r f.
Proof.
  destruct r; cbv beta iota zeta delta [passes_filter];
    rewrite <- !test_alternatives_occurs, <- !test_prefixed_occurs;
    unfold fileFilter_of, breakingNewsUpload_fileFilter, posterUpload_fileFilter,
      extension;
    repeat match goal with
           | |- context [test_alternatives ?l ?s] =>
             destruct (test_alternatives l s)
           | |- context [test_prefixed ?p ?l ?s] =>
             destruct (test_prefixed p l s)
           end; simpl; intuition discriminate.
Qed.

Lemma fileFilter_of_refuse r f :
  fileFilter_of r f <> Admit ->
  exists m,
    fileFilter_of r f =
      Refuse (m +:+ mimetype f +:+ " with extension: " +:+ extension f).
Proof.
  unfold fileFilter_of, breakingNewsUpload_fileFilter, posterUpload_fileFilter,
    extension.
  destruct r;
    repeat match goal with
           | |- context [test_alternatives ?l ?s] =>
             destruct (test_alternatives l s)
           | |- context [test_prefixed ?p ?l ?s] =>
             destruct (test_prefixed p l s)
           end; simpl; intros H; try congruence; eexists; reflexivity.
Qed.

Lemma spec_admits_admitted r f : spec_admits r f -> fileFilter_of r f = Admit.
Proof.
  intros (exts & mimes & Hlist & Hext & Hmime).
  unfold fileFilter_of, breakingNewsUpload_fileFilter, posterUpload_fileFilter.
  unfold extension in Hext.
  destruct r; unfold spec_allow_list in Hlist;
    repeat (apply elem_of_cons in Hlist as [Hlist|Hlist];
            [inversion Hlist; subst exts mimes; clear Hlist|]);
    try (apply elem_of_nil in Hlist; contradiction);
    repeat (apply elem_of_cons in Hext as [Hext|Hext]; [rewrite Hext|]);
    try (apply elem_of_nil in Hext; contradiction);
    repeat (apply elem_of_cons in Hmime as [Hmime|Hmime]; [rewrite Hmime|]);
    try (apply elem_of_nil in Hmime; contradiction);
    reflexivity.
Qed.

(** C7 (the code against the claim). On every route that takes files, a
    file that the allow-list of the route has, by its extension and its
    declared MIME type, is admitted; and a part that the filter of the
    route does not pass is refused with an error whose message ends with
    the MIME type and the extension, the request being answered with a
    failure before its handler runs: the media host is not called and
    the data file is not written.  A file with extension [.exe],
    declared [application/octet-stream], is such a part on every route.
    The extension is the lower-cased end of the file name from its last
    dot on, for a name without directory, and empty without a dot.
    But the filter passes more than the allow-list: its patterns are not
    anchored, so it passes any file in whose extension a listed token
    occurs and in whose MIME type a listed type occurs, as with extension
    [.jpgx] and MIME type [image/jpgx], on no list and
    admitted on every route, or with extension [.mp4v] and MIME type
    [video/mp4v-es] for breaking news. *)
Theorem unsupported_file_refused_before_upload (r : UploadRoute)
    (body : gmap string string) (parts : list File) (w : World) (f : File)
    (Hpart : f ∈ parts)
    (Hbad : ~ passes_filter r f) :
  (forall g, fileFilter_of r g = Admit <-> passes_filter r g) /\
  (forall g, spec_admits r g -> fileFilter_of r g = Admit) /\
  (exists m,
     fileFilter_of r f =
       Refuse (m +:+ mimetype f +:+ " with extension: " +:+ extension f)) /\
  (exists m, serve r body parts w = (mkResponse 500 (Unhandled m), w)) /\
  uploads (snd (serve r body parts w)) = uploads w /\
  dataFile (snd (serve r body parts w)) = dataFile w /\
  (forall g, extension g = ".exe" ->
     mimetype g = "application/octet-stream" ->
     ~ passes_filter r g /\ ~ spec_admits r g) /\
  (forall g, extension g = ".jpgx" ->
     mimetype g = "image/jpgx" ->
     fileFilter_of r g = Admit /\ ~ spec_admits r g) /\
  (forall g stem e,
     originalname g = stem +:+ "." +:+ e ->
     stem <> "" -> free_of "/" stem = true ->
     e <> "" -> free_of "/" e = true -> free_of "." e = true ->
     extension g = toLowerCase ("." +:+ e)) /\
  (forall g,
     free_of "/" (originalname g) = true -> free_of "." (originalname g) = true ->
     extension g = toLowerCase "") /\
  (forall g, extension g = ".mp4v" -> mimetype g = "video/mp4v-es" ->
     breakingNewsUpload_fileFilter g = Admit /\
     ~ spec_admits POST_breaking_news g).
Proof.
  assert (Hrefused : fileFilter_of r f <> Admit).
  { intros H. apply Hbad, fileFilter_of_admit, H. }
  pose proof (fileFilter_of_refuse r f Hrefused) as [m Hm].
  assert (Hserve : exists m, serve r body parts w = (mkResponse 500 (Unhandled m), w)).
  { unfold serve, route, multer.
    destruct (multer_parts_refused (fileFilter_of r) (limits_of r) parts [] f Hpart)
      as [m' ->]; [exact Hrefused|eauto]. }
  split; [exact (fileFilter_of_admit r)|].
  split; [exact (spec_admits_admitted r)|].
  split; [eauto|]. split; [exact Hserve|].
  destruct Hserve as [m' ->]. split; [reflexivity|]. split; [reflexivity|].
  assert (Hoff : forall g e, extension g = e ->
            (forall exts mimes, (exts, mimes) ∈ spec_allow_list r -> e ∉ exts) ->
            ~ spec_admits r g).
  { intros g e He Hno (exts & mimes & Hlist & Hext & _).
    rewrite He in Hext. exact (Hno exts mimes Hlist Hext). }
  assert (Hlists : forall e : string,
            e ∉ [".mp4"; ".mov"; ".avi"; ".wmv"] ->
            e ∉ [".jpeg"; ".jpg"; ".png"; ".gif"; ".webp"; ".avif"] ->
            forall exts mimes, (exts, mimes) ∈ spec_allow_list r -> e ∉ exts).
  { intros e Hv Hi exts mimes Hlist He.
    destruct r; unfold spec_allow_list in Hlist;
      repeat (apply elem_of_cons in Hlist as [Hlist|Hlist];
              [inversion Hlist; subst exts mimes; clear Hlist|]);
      try (apply elem_of_nil in Hlist; contradiction);
      try (apply Hv; exact He); apply Hi;
      repeat (apply elem_of_cons in He as [->|He];
              [repeat first [apply list_elem_of_here|apply list_elem_of_further]|]);
      apply elem_of_nil in He; contradiction. }
  split.
  - intros g Hext Hmime. split.
    + intros Hpass. apply fileFilter_of_admit in Hpass.
      unfold extension in Hext.
      destruct r;
        cbv beta iota zeta delta [fileFilter_of breakingNewsUpload_fileFilter
                                  posterUpload_fileFilter] in Hpass;
        rewrite Hext, Hmime in Hpass; vm_compute in Hpass; discriminate Hpass.
    + apply (Hoff g ".exe" Hext).
      apply Hlists; intros H;
        repeat (apply elem_of_cons in H as [H|H]; [discriminate H|]);
        apply elem_of_nil in H; exact H.
  - split; [|split].
    + intros g Hext Hmime. split.
      * unfold extension in Hext.
        destruct r;
          cbv beta iota zeta delta [fileFilter_of breakingNewsUpload_fileFilter
                                    posterUpload_fileFilter];
          rewrite Hext, Hmime; reflexivity.
      * apply (Hoff g ".jpgx" Hext).
        apply Hlists; intros H;
          repeat (apply elem_of_cons in H as [H|H]; [discriminate H|]);
          apply elem_of_nil in H; exact H.
    + intros g stem e Hname Hstem Hslash He Heslash Hedot.
      unfold extension. rewrite Hname, extname_of_name by assumption.
      reflexivity.
    + split.
      * intros g Hslash Hdot.
        unfold extension. rewrite extname_without_dot by assumption.
        reflexivity.
      * intros g Hext Hmime. split.
        -- unfold breakingNewsUpload_fileFilter. unfold extension in Hext.
           rewrite Hext, Hmime. reflexivity.
        -- intros (exts & mimes & Hlist & He & _). rewrite Hext in He.
           unfold spec_allow_list in Hlist.
           repeat (apply elem_of_cons in Hlist as [Hlist|Hlist];
                   [inversion Hlist; subst exts mimes; clear Hlist;
                    repeat (apply elem_of_cons in He as [He|He]; [discriminate He|]);
                    apply elem_of_nil in He; exact He|]).
           apply elem_of_nil in Hlist. exact Hlist.
Qed.

(** *** Files by field *)

Lemma group_by_fieldname_snoc files f :
  group_by_fieldname (files ++ [f]) =
    <[fieldname f :=
        default [] (group_by_fieldname files !! fieldname f) ++ [f]]>
      (group_by_fieldname files).
Proof. unfold group_by_fieldname. rewrite foldl_app. reflexivity. Qed.

Lemma group_by_fieldname_lookup (files : list File) (name : string) :
  group_by_fieldname files !! name =
    match filter (fun f => fieldname f = name) files with
    | [] => None
    | l => Some l
    end.
Proof.
  induction files as [|f files IH] using rev_ind.
  - unfold group_by_fieldname. simpl. apply lookup_empty.
  - rewrite group_by_fieldname_snoc, filter_app.
    destruct (decide (fieldname f = name)) as [Heq|Hne].
    + subst name. rewrite lookup_insert_eq, IH.
      rewrite (filter_cons_True _ f []) by reflexivity. rewrite filter_nil.
      destruct (filter _ files) as [|g l]; reflexivity.
    + rewrite lookup_insert_ne by exact Hne. rewrite IH.
      rewrite (filter_cons_False _ f []) by exact Hne.
      rewrite filter_nil, app_nil_r. reflexivity.
Qed.

Lemma first_file_group (name : string) (files : list File) :
  first_file name (group_by_fieldname files) = part_on name files.
Proof.
  unfold first_file, part_on. rewrite group_by_fieldname_lookup.
  destruct (filter _ files); reflexivity.
Qed.

Lemma forEach_push_plain (files : list File) : forall m,
  plain_fields files ->
  forEach_push files m =
    inl (foldl (fun (m : gmap string (list File)) f =>
                  <[fieldname f := default [] (m !! fieldname f) ++ [f]]> m)
           m files).
Proof.
  induction files as [|f files IH]; intros m Hplain; simpl; [reflexivity|].
  apply Forall_cons in Hplain as [Hf Hplain].
  destruct (m !! fieldname f) as [array|]; simpl.
  - apply IH. exact Hplain.
  - rewrite bool_decide_eq_false_2 by exact Hf. apply IH. exact Hplain.
Qed.

Lemma forEach_push_inherited (files : list File) : forall m,
  (forall k, k ∈ Object_prototype -> m !! k = None) ->
  ~ plain_fields files ->
  forEach_push files m = inr "filesByField[f.fieldname].push is not a function".
Proof.
  induction files as [|f files IH]; intros m Hm Hnot; simpl.
  - destruct Hnot. constructor.
  - destruct (decide (fieldname f ∈ Object_prototype)) as [Hin|Hout].
    + rewrite (Hm _ Hin), bool_decide_eq_true_2 by exact Hin. reflexivity.
    + assert (Hrest : ~ plain_fields files).
      { intros H. apply Hnot. constructor; assumption. }
      assert (Hkeep : forall (l : list File) k, k ∈ Object_prototype ->
                <[fieldname f := l]> m !! k = None).
      { intros l k Hk. rewrite lookup_insert_ne; [apply Hm; exact Hk|].
        intros Heq. apply Hout. rewrite Heq. exact Hk. }
      destruct (m !! fieldname f) as [array|]; simpl.
      * apply IH; [apply Hkeep|exact Hrest].
      * rewrite bool_decide_eq_false_2 by exact Hout.
        apply IH; [apply Hkeep|exact Hrest].
Qed.

Lemma forEach_push_spec (files : list File) :
  forEach_push files ∅ =
    if bool_decide (plain_fields files) then inl (group_by_fieldname files)
    else inr "filesByField[f.fieldname].push is not a function".
Proof.
  destruct (bool_decide (plain_fields files)) eqn:E.
  - apply bool_decide_eq_true in E. apply forEach_push_plain. exact E.
  - apply bool_decide_eq_false in E. apply forEach_push_inherited; [|exact E].
    intros k _. apply lookup_empty.
Qed.

(** *** Failed uploads *)

Lemma uploadToCloudinary_world file folder w :
  dataFile (snd (uploadToCloudinary file folder w)) = dataFile w /\
  ticks (snd (uploadToCloudinary file folder w)) = ticks w.
Proof.
  unfold uploadToCloudinary, throw.
  destruct (String.eqb (path file) ""); [split; reflexivity|].
  destruct (cloudinary (path file) folder); split; reflexivity.
Qed.

Lemma raises_throw file folder w :
  raises (uploadToCloudinary file folder) ->
  exists e w', uploadToCloudinary file folder w = (Throw e, w') /\
               dataFile w' = dataFile w /\ ticks w' = ticks w.
Proof.
  intros H. destruct (H w) as (e & w' & Hw).
  pose proof (uploadToCloudinary_world file folder w) as [Hd Ht].
  rewrite Hw in Hd, Ht. eauto.
Qed.

Lemma post_posters_loop_raises body files slots : forall acc w,
  (exists i f, i ∈ slots /\ poster_file files i = Some f /\
               raises (uploadToCloudinary f "posters")) ->
  exists e w', post_posters_loop body files slots acc w = (Throw e, w') /\
               dataFile w' = dataFile w /\ ticks w' = ticks w.
Proof.
  induction slots as [|i slots IH]; intros acc w (j & f & Hj & Hf & Hr).
  - apply elem_of_nil in Hj. contradiction.
  - simpl. unfold bind at 1.
    destruct (poster_file files i) as [g|] eqn:Hg.
    + unfold bind at 1.
      pose proof (uploadToCloudinary_world g "posters" w) as [Hd Ht].
      destruct (uploadToCloudinary g "posters" w) as [[url|e] w1] eqn:Hup;
        simpl in Hd, Ht; [|eauto].
      unfold ret.
      apply elem_of_cons in Hj as [->|Hj].
      { rewrite Hg in Hf. inversion Hf; subst.
        destruct (Hr w) as (e & w' & Hw). congruence. }
      destruct (IH (acc ++ [Poster.mk i
                    (or_empty (body !! ("poster" +:+ pretty i +:+ "Title")))
                    (or_empty (Some url))
                    (or_empty (body !! ("poster" +:+ pretty i +:+ "Link")))]) w1)
        as (e & w' & Hw & Hd' & Ht'); [eauto|].
      exists e, w'. rewrite Hw. repeat split; congruence.
    + apply elem_of_cons in Hj as [->|Hj]; [congruence|].
      unfold ret. apply IH; eauto.
Qed.

Ltac upload_cases f folder w :=
  let Hd := fresh "Hd" in
  let Ht := fresh "Ht" in
  let Hup := fresh "Hup" in
  unfold ret, try; simpl;
  pose proof (uploadToCloudinary_world f folder w) as [Hd Ht];
  destruct (uploadToCloudinary f folder w) as [[?|?] ?] eqn:Hup;
  simpl in Hd, Ht.

Ltac raise_contradiction Hr w :=
  let e := fresh in let w' := fresh in let H := fresh in
  destruct (Hr w) as (e & w' & H); congruence.

Ltac aborted :=
  unfold ret; simpl;
  repeat split; eauto; try congruence;
  try (match goal with H : forall _, _ -> fst (run get_breaking_news _) = _ |- _ =>
         apply H; congruence end);
  try (intros; discriminate).

(** C4. When the upload of a file attached to a create fails, the create
    answers with status 500 and an error, and the data file is as it was;
    so after [POST /api/breaking-news] with a [video] whose upload fails,
    [GET /api/breaking-news] lists what it listed before. *)
Theorem failed_upload_aborts_create (c : Create) (body : gmap string string)
    (w : World) (file : File) (folder : string)
    (Hattached : (file, folder) ∈ attached c body)
    (Hraises : raises (uploadToCloudinary file folder)) :
  let r := fst (run (create c body) w) in
  let w' := snd (run (create c body) w) in
  status r = 500 /\
  (exists e details, payload r = Error e details) /\
  dataFile w' = dataFile w /\
  fst (run get_breaking_news w') = fst (run get_breaking_news w) /\
  (folder = "breaking-news" ->
   exists m, r = mkResponse 500 (Error "Failed to upload video" (Some m))).
Proof.
  cbv zeta.
  assert (Hget : forall w', dataFile w' = dataFile w ->
            fst (run get_breaking_news w') = fst (run get_breaking_news w)).
  { intros w' Hw'. unfold run, get_breaking_news, bind, ret.
    rewrite !readData_stored, (stored_dataFile _ _ Hw'). reflexivity. }
  destruct c as [files|files|f|f|f|f]; unfold attached in Hattached; unfold create.
  - (* posters *)
    apply list_elem_of_omap in Hattached as (i & Hi & Hfile).
    destruct (poster_file files i) as [g|] eqn:Hg; simpl in Hfile; [|discriminate].
    inversion Hfile; subst g folder.
    unfold run, post_posters, catch, bind. rewrite readData_stored.
    destruct (post_posters_loop_raises body files [1; 2; 3] [] w)
      as (e & w' & Hloop & Hd & Ht); [eauto|].
    rewrite Hloop. aborted.
  - (* breaking news *)
    unfold run, post_breaking_news, catch, bind. rewrite readData_stored.
    unfold breaking_news_attached in Hattached. rewrite forEach_push_spec.
    destruct (bool_decide (plain_fields (default [] files)));
      [|apply elem_of_nil in Hattached; contradiction].
    rewrite <- !first_file_group in Hattached. unfold completed, ret.
    cbv beta iota zeta.
    set (byField := group_by_fieldname (default [] files)) in *.
    apply elem_of_app in Hattached as [Hv|Hth].
    + destruct (first_file "video" byField) as [g|]; simpl in Hv;
        [|apply elem_of_nil in Hv; contradiction].
      apply list_elem_of_singleton in Hv. inversion Hv; subst g folder.
      unfold try. upload_cases file "breaking-news" w;
        [raise_contradiction Hraises w|].
      aborted.
    + destruct (first_file "thumbnail" byField) as [g|]; simpl in Hth;
        [|apply elem_of_nil in Hth; contradiction].
      apply list_elem_of_singleton in Hth. inversion Hth; subst g folder.
      destruct (first_file "video" byField) as [v|] eqn:Hvideo.
      * unfold try. upload_cases v "breaking-news" w.
        -- upload_cases file "breaking-news-thumbnails" w0;
             [raise_contradiction Hraises w0|].
           aborted.
        -- aborted.
      * unfold try.
        upload_cases file "breaking-news-thumbnails" w;
          [raise_contradiction Hraises w|].
        aborted.
  - (* featured story *)
    destruct f as [g|]; simpl in Hattached; [|apply elem_of_nil in Hattached; contradiction].
    apply list_elem_of_singleton in Hattached. inversion Hattached; subst g folder.
    unfold run, post_featured_stories, catch, bind, try.
    upload_cases file "featured-stories" w; [raise_contradiction Hraises w|].
    aborted.
  - (* media *)
    destruct f as [g|]; simpl in Hattached; [|apply elem_of_nil in Hattached; contradiction].
    apply list_elem_of_singleton in Hattached. inversion Hattached; subst g folder.
    unfold run, post_media, catch, bind.
    upload_cases file "media" w; [raise_contradiction Hraises w|].
    aborted.
  - (* news *)
    unfold run, post_news, catch, bind.
    destruct (truthy (body !! "imageUrl")); [apply elem_of_nil in Hattached; contradiction|].
    destruct f as [g|]; simpl in Hattached; [|apply elem_of_nil in Hattached; contradiction].
    apply list_elem_of_singleton in Hattached. inversion Hattached; subst g folder.
    upload_cases file "news" w; [raise_contradiction Hraises w|].
    aborted.
  - (* ads *)
    destruct f as [g|]; simpl in Hattached; [|apply elem_of_nil in Hattached; contradiction].
    apply list_elem_of_singleton in Hattached. inversion Hattached; subst g folder.
    unfold run, post_ads, catch, bind.
    upload_cases file "ads" w; [raise_contradiction Hraises w|].
    aborted.
Qed.

Lemma uploadToCloudinary_return file folder w url w' :
  uploadToCloudinary file folder w = (Return url, w') ->
  cloudinary (path file) folder = inl url /\
  w' = add_upload w (path file, folder).
Proof.
  unfold uploadToCloudinary, throw.
  destruct (String.eqb (path file) ""); [discriminate|].
  destruct (cloudinary (path file) folder); intros [= <- <-]; auto.
Qed.

Lemma post_posters_loop_return body files slots : forall acc w l w',
  post_posters_loop body files slots acc w = (Return l, w') ->
  dataFile w' = dataFile w /\ ticks w' = ticks w /\
  exists ps, l = acc ++ ps /\ Forall2 (poster_written body files) slots ps.
Proof.
  induction slots as [|i slots IH]; intros acc w l w' H; simpl in H.
  - inversion H; subst. repeat split; auto.
    exists []. rewrite app_nil_r. split; [reflexivity|constructor].
  - unfold bind at 1 in H.
    destruct (poster_file files i) as [g|] eqn:Hg.
    + unfold bind at 1 in H.
      pose proof (uploadToCloudinary_world g "posters" w) as [Hd Ht].
      destruct (uploadToCloudinary g "posters" w) as [[url|e] w1] eqn:Hup;
        simpl in Hd, Ht; [|discriminate].
      apply uploadToCloudinary_return in Hup as [Hcloud _].
      unfold ret in H. apply IH in H as (Hd' & Ht' & ps & -> & HF).
      split; [congruence|]. split; [congruence|].
      eexists (_ :: ps). rewrite <- app_assoc. split; [reflexivity|].
      constructor; [|exact HF].
      unfold poster_written. rewrite Hg. simpl. eauto 6.
    + unfold ret in H. apply IH in H as (Hd' & Ht' & ps & -> & HF).
      split; [congruence|]. split; [congruence|].
      eexists (_ :: ps). rewrite <- app_assoc. split; [reflexivity|].
      constructor; [|exact HF].
      unfold poster_written. rewrite Hg. simpl. auto.
Qed.

(** C10. A [POST /api/posters] that succeeds replaces the stored posters
    by exactly three records, with ids 1, 2 and 3, built from the request
    alone: a slot gets the empty string for each of title, link and image
    that the request does not supply, so a slot with nothing supplied is
    the empty poster whatever was stored before.  The rest of the
    document is kept and the three records are the response. *)
Theorem post_posters_replaces_all_three (body : gmap string string)
    (files : option (gmap string (list File))) (w : World)
    (Hok : status (fst (run (post_posters body files) w)) = 200) :
  exists p1 p2 p3,
    fst (run (post_posters body files) w) = json (PosterList [p1; p2; p3]) /\
    posters (stored (snd (run (post_posters body files) w))) = Some [p1; p2; p3] /\
    set_posters (stored (snd (run (post_posters body files) w))) None =
      set_posters (stored w) None /\
    Poster.id p1 = 1 /\ Poster.id p2 = 2 /\ Poster.id p3 = 3 /\
    Forall2 (poster_written body files) [1; 2; 3] [p1; p2; p3] /\
    (forall i p,
       poster_written body files i p ->
       body !! ("poster" +:+ pretty i +:+ "Title") = None ->
       body !! ("poster" +:+ pretty i +:+ "Link") = None ->
       body !! ("poster" +:+ pretty i +:+ "ImageUrl") = None ->
       poster_file files i = None ->
       p = Poster.mk i "" "" "").
Proof.
  unfold run, post_posters, catch, bind in *. rewrite readData_stored in *.
  destruct (post_posters_loop body files [1; 2; 3] [] w) as [[l|e] w1] eqn:Hloop;
    [|simpl in Hok; discriminate].
  apply post_posters_loop_return in Hloop as (Hd & Ht & ps & -> & HF).
  inversion HF as [|? p1 ? ps1 H1 HF1]; subst.
  inversion HF1 as [|? p2 ? ps2 H2 HF2]; subst.
  inversion HF2 as [|? p3 ? ps3 H3 HF3]; subst.
  inversion HF3; subst.
  exists p1, p2, p3. unfold writeData, ret. simpl.
  split; [reflexivity|]. split; [destruct (posters (stored w)); reflexivity|].
  split; [destruct (posters (stored w)); reflexivity|].
  split; [apply H1|]. split; [apply H2|]. split; [apply H3|].
  split; [exact HF|].
  intros i p (Hid & Htitle & Hlink & Himage) Ht0 Hl0 Hi0 Hf0.
  rewrite Hf0, Hi0 in Himage. rewrite Ht0 in Htitle. rewrite Hl0 in Hlink.
  destruct p; simpl in *. subst. reflexivity.
Qed.

(** *** Creates *)

Lemma or_empty_Some s : or_empty (Some s) = s.
Proof.
  unfold or_empty, js_or, truthy.
  destruct (String.eqb s EmptyString) eqn:E; simpl; [|reflexivity].
  apply String.eqb_eq in E. auto.
Qed.

Lemma returns_return file folder url w :
  returns (uploadToCloudinary file folder) url ->
  exists w', uploadToCloudinary file folder w = (Return url, w') /\
             dataFile w' = dataFile w /\ ticks w' = ticks w.
Proof.
  intros H. destruct (H w) as (w' & Hw).
  pose proof (uploadToCloudinary_world file folder w) as [Hd Ht].
  rewrite Hw in Hd, Ht. eauto.
Qed.

Lemma ret_at {A} (a : A) (w : World) : ret a w = (Return a, w).
Proof. reflexivity. Qed.

Lemma throw_at {A} (e : string) (w : World) : throw (A:=A) e w = (Throw e, w).
Proof. reflexivity. Qed.

(** The grouping of the parts of a request whose fields are plain. *)
Ltac grouped H :=
  rewrite forEach_push_spec, (bool_decide_eq_true_2 _ H);
  unfold completed; rewrite !ret_at; cbv beta iota.

(** C9 (the code against the claim). A create builds its record with the
    reading of the clock as id and with defaults for what the request
    leaves out: the empty string for a URL without a file or a value, 1
    for a missing priority, ['0'] for the view count.
    [POST /api/breaking-news] puts the record at the front of the
    collection, writes the document and answers with the record.
    [POST /api/featured-stories] puts the record at the end of the
    collection and writes the document, whatever the request; it answers
    with the record when the request has a title, and with status 500
    when it has none: the record is stored and not returned. *)
Theorem create_defaults_and_order (body : gmap string string)
    (files : option (list File)) (file : option File) (w : World)
    (videoUrl thumbnailUrl imageUrl : string)
    (Hplain : plain_fields (default [] files))
    (Hvideo : url_of (part_on "video" (default [] files))
                "breaking-news" videoUrl)
    (Hthumbnail : url_of (part_on "thumbnail" (default [] files))
                    "breaking-news-thumbnails" thumbnailUrl)
    (Himage : url_of file "featured-stories" imageUrl) :
  (let newNews :=
     BreakingNews.mk (clock (ticks w)) (body !! "headline")
       (body !! "shortDescription") (body !! "fullDescription")
       (body !! "category") (body !! "state") (Some videoUrl)
       (Some thumbnailUrl) (Some (or_empty (body !! "youtubeUrl")))
       (Some (toISOString (clock (S (ticks w))))) in
   let r := run (post_breaking_news body files) w in
   fst r = json (BreakingNewsItem newNews) /\
   dataFile (snd r) =
     Some (set_breakingNews (stored w) (newNews :: breakingNews (stored w)))) /\
  (let newStory :=
     FeaturedStory.mk (clock (ticks w)) (body !! "title") (body !! "description")
       (js_or (body !! "content") (body !! "description"))
       (body !! "category") (body !! "state")
       (js_or (body !! "excerpt") (body !! "description"))
       (Some imageUrl) (Some (priority_of body)) (Some "0")
       (Some (toISOString (clock (S (ticks w))))) in
   let r := run (post_featured_stories body file) w in
   featuredStories (stored (snd r)) =
     Some (default [] (featuredStories (stored w)) ++ [newStory]) /\
   set_activities (set_featuredStories (stored (snd r)) None) None =
     set_activities (set_featuredStories (stored w) None) None /\
   (forall t, body !! "title" = Some t ->
      fst r = mkResponse 201 (FeaturedStoryItem newStory)) /\
   (body !! "title" = None ->
      fst r = mkResponse 500
                (Error "Failed to create featured story"
                   (Some "Cannot read properties of undefined (reading 'substring')")))) /\
  (part_on "video" (default [] files) = None -> videoUrl = "") /\
  (part_on "thumbnail" (default [] files) = None -> thumbnailUrl = "") /\
  (body !! "youtubeUrl" = None -> or_empty (body !! "youtubeUrl") = "") /\
  (file = None -> imageUrl = "") /\
  (body !! "priority" = None -> priority_of body = Int 1).
Proof.
  split; [|split; [|repeat split]].
  - cbv zeta.
    unfold run, post_breaking_news, catch, bind. rewrite readData_stored.
    grouped Hplain. rewrite <- first_file_group in Hvideo, Hthumbnail.
    set (byField := group_by_fieldname (default [] files)) in *.
    assert (Hv : exists w1,
              match first_file "video" byField with
              | Some f => try (uploadToCloudinary f "breaking-news")
              | None => ret (inl "")
              end w = (Return (inl videoUrl), w1) /\
              dataFile w1 = dataFile w /\ ticks w1 = ticks w).
    { destruct (first_file "video" byField) as [f|]; simpl in Hvideo.
      - destruct (returns_return _ _ _ w Hvideo) as (w1 & Hw1 & Hd & Ht).
        exists w1. unfold try. rewrite Hw1. auto.
      - subst. exists w. auto. }
    destruct Hv as (w1 & -> & Hd1 & Ht1).
    assert (Hth : exists w2,
              match first_file "thumbnail" byField with
              | Some f => try (uploadToCloudinary f "breaking-news-thumbnails")
              | None => ret (inl "")
              end w1 = (Return (inl thumbnailUrl), w2) /\
              dataFile w2 = dataFile w /\ ticks w2 = ticks w).
    { destruct (first_file "thumbnail" byField) as [f|]; simpl in Hthumbnail.
      - destruct (returns_return _ _ _ w1 Hthumbnail) as (w2 & Hw2 & Hd & Ht).
        exists w2. unfold try. rewrite Hw2. split; [reflexivity|].
        split; congruence.
      - subst. exists w1. auto. }
    destruct Hth as (w2 & -> & Hd2 & Ht2).
    unfold Date_now, Date_toISOString, writeData, ret. simpl.
    rewrite or_empty_Some, Ht2. split; reflexivity.
  - cbv zeta.
    unfold run, post_featured_stories, catch, bind.
    assert (Hi : exists w1,
              match file with
              | Some f => try (uploadToCloudinary f "featured-stories")
              | None => ret (inl "")
              end w = (Return (inl imageUrl), w1) /\
              dataFile w1 = dataFile w /\ ticks w1 = ticks w).
    { destruct file as [f|]; simpl in Himage.
      - destruct (returns_return _ _ _ w Himage) as (w1 & Hw1 & Hd & Ht).
        exists w1. unfold try. rewrite Hw1. auto.
      - subst. exists w. auto. }
    destruct Hi as (w1 & -> & Hd1 & Ht1).
    rewrite readData_stored, (stored_dataFile _ _ Hd1).
    unfold Date_now, Date_toISOString, writeData, substring_of, priority_of.
    unfold ret, throw. simpl. rewrite Ht1.
    destruct (body !! "priority") as [p|];
    destruct (body !! "title") as [t|] eqn:Htitle.
    + rewrite logActivity_eq. simpl.
      split; [reflexivity|]. split; [reflexivity|].
      split; [|discriminate]. intros t' [= <-]. reflexivity.
    + simpl. split; [reflexivity|]. split; [reflexivity|].
      split; [intros t' [=]|reflexivity].
    + rewrite logActivity_eq. simpl.
      split; [reflexivity|]. split; [reflexivity|].
      split; [|discriminate]. intros t' [= <-]. reflexivity.
    + simpl. split; [reflexivity|]. split; [reflexivity|].
      split; [intros t' [=]|reflexivity].
  - intros H. rewrite H in Hvideo. exact Hvideo.
  - intros H. rewrite H in Hthumbnail. exact Hthumbnail.
  - intros ->. reflexivity.
  - intros ->. exact Himage.
  - unfold priority_of. intros ->. reflexivity.
Qed.

(** *** Update and delete by id *)


Lemma find_id_Some {A} (f : A -> Z) (l : list A) (z : Z) :
  z ∈ f <$> l ->
  exists i x, list_find (fun x => Int (f x) = Int z) l = Some (i, x) /\
              l !! i = Some x /\ f x = z /\
              list_find (fun y => y = z) (f <$> l) = Some (i, z).
Proof.
  intros Hz. apply list_elem_of_fmap in Hz as (x0 & -> & Hx0).
  destruct (list_find (fun x => Int (f x) = Int (f x0)) l) as [[i x]|] eqn:Hfind.
  - exists i, x. pose proof Hfind as Hfind'.
    apply list_find_Some in Hfind as (Hi & Hx & Hbefore).
    assert (Hfx : f x = f x0) by congruence.
    repeat split; auto. apply list_find_Some. repeat split.
    + rewrite list_lookup_fmap, Hi. simpl. congruence.
    + intros j y Hj Hlt ->. rewrite list_lookup_fmap in Hj.
      destruct (l !! j) as [xj|] eqn:Hxj; simpl in Hj; [|discriminate].
      apply (Hbefore j xj Hxj Hlt). congruence.
  - apply list_find_None in Hfind. rewrite Forall_forall in Hfind.
    destruct (Hfind x0 Hx0). reflexivity.
Qed.






(** *** Updates *)

(** [PUT /api/breaking-news/:id] without files: each of the six form
    fields replaces the stored value when the request has it and keeps
    it otherwise; the video and the thumbnail are kept and the timestamp
    is renewed. *)
Lemma put_breaking_news_keeps_omitted_fields id body w idx existing :
  list_find (fun b => Int (BreakingNews.id b) = id) (breakingNews (stored w))
    = Some (idx, existing) ->
  let updated :=
    BreakingNews.mk (BreakingNews.id existing)
      (if_defined (body !! "headline") (BreakingNews.headline existing))
      (if_defined (body !! "shortDescription") (BreakingNews.shortDescription existing))
      (if_defined (body !! "fullDescription") (BreakingNews.fullDescription existing))
      (if_defined (body !! "category") (BreakingNews.category existing))
      (if_defined (body !! "state") (BreakingNews.state existing))
      (Some (or_empty (BreakingNews.videoUrl existing)))
      (Some (or_empty (BreakingNews.thumbnail existing)))
      (if_defined (body !! "youtubeUrl") (BreakingNews.youtubeUrl existing))
      (Some (toISOString (clock (ticks w)))) in
  run (put_breaking_news id body None) w =
    (json (BreakingNewsItem updated),
     mkWorld
       (Some (set_breakingNews (stored w)
                (<[idx := updated]> (breakingNews (stored w)))))
       (S (ticks w)) (uploads w)).
Proof.
  intros Hfind. cbv zeta.
  unfold run, put_breaking_news, catch, bind. rewrite readData_stored, Hfind.
  reflexivity.
Qed.

Lemma if_defined_omitted (old : option string) : if_defined None old = old.
Proof. reflexivity. Qed.

Lemma if_defined_provided (v : string) (old : option string) :
  if_defined (Some v) old = Some v.
Proof. reflexivity. Qed.

(** C2 (the code against the claim). [PUT /api/featured-stories/1] with
    the title alone answers 200 with a story that has lost its
    description, content, category, state and excerpt, and stores it so;
    only the image, the priority and the view count are kept.  With the
    priority alone it stores the story without its title as well, and
    answers 500. *)
Theorem put_featured_stories_drops_omitted_fields :
  (let body : gmap string string := {[ "title" := "New title" ]} in
   let updated :=
     FeaturedStory.mk 1 (Some "New title") None None None None None
       (Some "https://host/old.png") (Some (Int 3)) (Some "0")
       (Some (toISOString (clock 0))) in
   let r := run (put_featured_stories (Int 1) body None) a_story_world in
   fst r = json (FeaturedStoryItem updated) /\
   featuredStories (stored (snd r)) = Some [updated]) /\
  (let body : gmap string string := {[ "priority" := "5" ]} in
   let updated :=
     FeaturedStory.mk 1 None None None None None None
       (Some "https://host/old.png") (Some (Number "5")) (Some "0")
       (Some (toISOString (clock 0))) in
   let r := run (put_featured_stories (Int 1) body None) a_story_world in
   status (fst r) = 500 /\
   featuredStories (stored (snd r)) = Some [updated]).
Proof.
  split; cbv zeta; split; reflexivity.
Qed.

(** *** Requests, one after the other *)

Lemma post_posters_loop_world body files slots : forall acc w,
  dataFile (snd (post_posters_loop body files slots acc w)) = dataFile w.
Proof.
  induction slots as [|i slots IH]; intros acc w; simpl; [reflexivity|].
  unfold bind at 1.
  destruct (poster_file files i) as [g|].
  - unfold bind at 1.
    pose proof (uploadToCloudinary_world g "posters" w) as [Hd Ht].
    destruct (uploadToCloudinary g "posters" w) as [[url|e] w1];
      simpl in Hd, Ht; [|exact Hd].
    unfold ret. rewrite IH. exact Hd.
  - unfold ret. apply IH.
Qed.

Ltac same_document :=
  repeat match goal with
         | H : dataFile ?w' = dataFile ?w |- _ =>
           rewrite (stored_dataFile w w' H) in *; clear H
         end.

Ltac stepped :=
  unfold ret, throw, writeData, Date_now, Date_toISOString, substring_of; simpl;
  rewrite ?readData_stored; simpl;
  same_document;
  repeat match goal with
         | |- context [match ?x with Some _ => _ | None => _ end] => destruct x
         | |- context [if ?b then _ else _] => destruct b
         end;
  unfold ret, throw; simpl; rewrite ?logActivity_eq; simpl;
  (split;
   [first [left; reflexivity | right; eexists; reflexivity]
   |first [left; reflexivity | right; do 3 eexists; reflexivity]]).

(** Both outcomes of the grouping of the parts. *)
Ltac grouping :=
  rewrite ?forEach_push_spec;
  repeat match goal with
         | |- context [bool_decide (plain_fields ?l)] =>
           destruct (bool_decide (plain_fields l))
         end;
  unfold completed; rewrite ?ret_at, ?throw_at; cbv beta iota.

Ltac uploads :=
  grouping;
  repeat (unfold ret, try; simpl;
          match goal with
          | |- context [uploadToCloudinary ?f ?d ?w0] => upload_cases f d w0
          | |- context [first_file ?n ?m] => destruct (first_file n m)
          | |- context [head ?l] => destruct (head l)
          end).

Ltac found :=
  match goal with
  | |- context [list_find ?P ?l] => destruct (list_find P l) as [[? ?]|]
  end.

Lemma handler_of_steps r body files w :
  log_step w (snd (run (handler_of r body files) w)) /\
  posters_step w (snd (run (handler_of r body files) w)).
Proof.
  unfold log_step, posters_step, activity_log.
  destruct r; unfold handler_of, run.
  - unfold post_posters, catch, bind. rewrite readData_stored.
    pose proof (post_posters_loop_world body (Some (group_by_fieldname files))
                  [1; 2; 3] [] w) as Hd.
    destruct (post_posters_loop body (Some (group_by_fieldname files)) [1; 2; 3] [] w)
      as [[l|e] w1] eqn:Hloop; simpl in Hd.
    + apply post_posters_loop_return in Hloop as (_ & _ & ps & -> & HF).
      inversion HF as [|? p1 ? ps1 H1 HF1]; subst.
      inversion HF1 as [|? p2 ? ps2 H2 HF2]; subst.
      inversion HF2 as [|? p3 ? ps3 H3 HF3]; subst.
      inversion HF3; subst.
      unfold writeData, ret. simpl.
      split; [left; destruct (posters (stored w)); reflexivity|].
      right. exists p1, p2, p3.
      split; [destruct (posters (stored w)); reflexivity|].
      destruct H1 as [-> _], H2 as [-> _], H3 as [-> _]. reflexivity.
    + stepped.
  - unfold post_breaking_news, catch, bind. rewrite readData_stored.
    uploads; stepped.
  - unfold put_breaking_news, catch, bind. rewrite readData_stored.
    found; [|stepped].
    uploads; stepped.
  - unfold post_featured_stories, catch, bind.
    uploads; rewrite ?readData_stored; stepped.
  - unfold put_featured_stories, catch, bind. rewrite readData_stored.
    destruct (featuredStories (stored w)) as [stories|] eqn:Hst; [|stepped].
    found; [|stepped].
    unfold bind. uploads; stepped.
  - unfold post_media, catch, bind.
    uploads; rewrite ?readData_stored; stepped.
  - unfold post_news, catch, bind.
    destruct (truthy (body !! "imageUrl")); [stepped|].
    uploads; rewrite ?readData_stored; stepped.
  - unfold put_news, catch, bind. rewrite readData_stored.
    found; [|stepped].
    uploads; stepped.
  - unfold post_ads, catch, bind.
    uploads; rewrite ?readData_stored; stepped.
Qed.

Lemma handle_steps req w :
  log_step w (snd (handle req w)) /\ posters_step w (snd (handle req w)).
Proof.
  destruct req; simpl;
    try (unfold log_step, posters_step, activity_log, run;
         unfold post_auth_login, get_posters, get_breaking_news,
           delete_breaking_news, get_breaking_news_category,
           get_featured_stories, delete_featured_stories,
           get_featured_stories_category, get_category, get_categories,
           post_categories, get_activities, get_news, delete_news,
           get_static_pages, post_static_pages, get_tickers, post_tickers,
           get_ads, get_users, post_users;
         unfold catch, bind; rewrite readData_stored;
         try found; stepped).
  unfold serve, route. destruct (multer _ _ _).
  - apply handler_of_steps.
  - simpl. split; left; reflexivity.
Qed.

Lemma serve_all_snoc reqs req w :
  serve_all (reqs ++ [req]) w = snd (handle req (serve_all reqs w)).
Proof. unfold serve_all. rewrite foldl_app. reflexivity. Qed.

Lemma serve_all_activity_log reqs w :
  (length (activity_log w) <= 50)%nat ->
  (length (activity_log (serve_all reqs w)) <= 50)%nat.
Proof.
  intros Hw. induction reqs as [|req reqs IH] using rev_ind; [exact Hw|].
  rewrite serve_all_snoc.
  destruct (handle_steps req (serve_all reqs w)) as [[-> | [a ->]] _];
    [exact IH|]. rewrite length_take. lia.
Qed.

Lemma serve_all_posters reqs w :
  (forall l, posters (stored w) = Some l -> length l <= 3)%nat ->
  (forall l, posters (stored (serve_all reqs w)) = Some l -> length l <= 3)%nat.
Proof.
  intros Hw. induction reqs as [|req reqs IH] using rev_ind; [exact Hw|].
  rewrite serve_all_snoc. intros l Hl.
  destruct (handle_steps req (serve_all reqs w))
    as [_ [Hsame | (p1 & p2 & p3 & Hp & _)]].
  - rewrite Hsame in Hl. apply IH. exact Hl.
  - rewrite Hp in Hl. inversion Hl; subst. simpl. lia.
Qed.

Lemma serve_all_three_posters reqs w :
  dataFile w = None ->
  posters (stored (serve_all reqs w)) = Some [] \/
  exists p1 p2 p3,
    posters (stored (serve_all reqs w)) = Some [p1; p2; p3] /\
    Poster.id <$> [p1; p2; p3] = [1; 2; 3].
Proof.
  intros Hw. induction reqs as [|req reqs IH] using rev_ind.
  - left. unfold serve_all, stored. simpl. rewrite Hw. reflexivity.
  - rewrite serve_all_snoc.
    destruct (handle_steps req (serve_all reqs w)) as [_ [Hsame | Hset]].
    + rewrite Hsame. exact IH.
    + right. exact Hset.
Qed.

(** C3. Whatever requests were served since there was no data file,
    [GET /api/posters] answers with exactly three posters, of ids 1, 2
    and 3: the stored posters, in order, followed by as many placeholders
    as it takes to reach 3; a placeholder is
    [{ id, title: '', image: '', link: '' }] with its position, from 1 to
    3, as id.  The placeholders are not stored: the handler writes
    nothing.  (It pads and never truncates: in any world it answers with
    the stored posters followed by the placeholders up to 3.) *)
Theorem get_posters_pads_to_three (reqs : list Request) (w : World)
    (Hfile : dataFile w = None) :
  let w' := serve_all reqs w in
  let stored_posters := default [] (posters (stored w')) in
  let n := length stored_posters in
  let padding := map placeholder (seq (n + 1) (3 - n)) in
  run get_posters w' = (json (PosterList (stored_posters ++ padding)), w') /\
  length (stored_posters ++ padding) = 3%nat /\
  Poster.id <$> (stored_posters ++ padding) = [1; 2; 3] /\
  Forall (fun p => 1 <= Poster.id p <= 3 /\ Poster.title p = "" /\
                   Poster.image p = "" /\ Poster.link p = "") padding /\
  (forall w0,
     let stored0 := default [] (posters (stored w0)) in
     let n0 := length stored0 in
     run get_posters w0 =
       (json (PosterList (stored0 ++ map placeholder (seq (n0 + 1) (3 - n0)))),
        w0)).
Proof.
  cbv zeta.
  assert (Hpad : forall w0,
            run get_posters w0 =
              (json (PosterList
                       (default [] (posters (stored w0))
                        ++ map placeholder
                             (seq (length (default [] (posters (stored w0))) + 1)
                                (3 - length (default [] (posters (stored w0))))))),
               w0)).
  { intros w0. unfold run, get_posters, catch, bind, ret.
    rewrite readData_stored, pad_posters_spec. reflexivity. }
  split; [apply Hpad|].
  split; [|split; [|split; [|exact Hpad]]].
  - destruct (serve_all_three_posters reqs w Hfile)
      as [-> | (p1 & p2 & p3 & -> & _)]; reflexivity.
  - destruct (serve_all_three_posters reqs w Hfile)
      as [-> | (p1 & p2 & p3 & -> & Hids)]; [reflexivity|].
    simpl. simpl in Hids. exact Hids.
  - apply Forall_forall. intros p Hp.
    apply list_elem_of_In, in_map_iff in Hp as (i & <- & Hi).
    apply in_seq in Hi. simpl. repeat split; lia.
Qed.

(** X23. Whatever requests were served since there was no data file,
    [GET /api/posters] lists exactly three posters. *)
Lemma get_posters_three_after_requests reqs w :
  dataFile w = None ->
  exists p1 p2 p3,
    fst (run get_posters (serve_all reqs w)) = json (PosterList [p1; p2; p3]).
Proof.
  intros Hw.
  assert (H : forall l, posters (stored (serve_all reqs w)) = Some l ->
                        (length l <= 3)%nat).
  { apply serve_all_posters. unfold stored. rewrite Hw. simpl.
    intros l [= <-]. simpl. lia. }
  unfold run, get_posters, catch, bind, ret. rewrite readData_stored. simpl.
  destruct (posters (stored (serve_all reqs w))) as [l|]; simpl.
  - specialize (H l eq_refl).
    destruct l as [|p1 [|p2 [|p3 [|p4 l]]]]; simpl in H; try lia; simpl; eauto.
  - eauto.
Qed.

(** C5. Every call of [logActivity] puts its fresh record at the front of
    the activities, keeps the first 50 of them and writes the whole
    document, so the stored activities never number more than 50 after a
    call; no request makes them more than 50 when they were not, so they
    never are since there was no data file; and after 50 calls or more in
    a row (60, say) the stored activities are exactly the 50 latest
    records, the newest first. *)
Theorem logActivity_keeps_the_latest_50 (calls : list Call) (w : World)
    (Hcalls : (50 <= length calls)%nat) :
  (forall type title user status w0,
      let a := new_activity type title user status w0 in
      let w1 := snd (logActivity type title user status w0) in
      fst (logActivity type title user status w0) = Return a /\
      activity_log w1 = take 50 (a :: activity_log w0) /\
      head (activity_log w1) = Some a /\
      (length (activity_log w1) <= 50)%nat /\
      dataFile w1 = Some (set_activities (stored w0) (Some (activity_log w1)))) /\
  (forall reqs w0,
      (length (activity_log w0) <= 50)%nat ->
      (length (activity_log (serve_all reqs w0)) <= 50)%nat) /\
  (forall reqs w0,
      dataFile w0 = None ->
      (length (activity_log (serve_all reqs w0)) <= 50)%nat) /\
  let w' := snd (log_calls calls w) in
  activity_log w' =
    reverse (drop (length calls - 50) (logged calls (ticks w))) /\
  length (activity_log w') = 50%nat /\
  dataFile w' = Some (set_activities (stored w) (Some (activity_log w'))).
Proof.
  split.
  - intros type title user status w0. simpl.
    rewrite logActivity_eq. simpl. unfold activity_log at 1 2 3 4. simpl.
    repeat split; try reflexivity.
    rewrite length_take. lia.
  - split; [intros; apply serve_all_activity_log; assumption|].
    split.
    { intros reqs w0 Hw0. apply serve_all_activity_log.
      unfold activity_log, stored. rewrite Hw0. simpl. lia. }
    assert (Hne : calls <> []) by (destruct calls; simpl in *; [lia|congruence]).
    pose proof (log_calls_activity_log calls w Hne) as Hlog.
    pose proof (log_calls_dataFile calls w Hne) as [Hfile Hrest].
    simpl.
    assert (Heq : activity_log (snd (log_calls calls w)) =
              reverse (drop (length calls - 50) (logged calls (ticks w)))).
    { rewrite Hlog, take_app_le by (rewrite length_reverse, length_logged; lia).
      rewrite take_reverse, length_logged. reflexivity. }
    split; [exact Heq|]. split.
    + rewrite Heq, length_reverse, length_drop, length_logged. lia.
    + rewrite Hfile. f_equal.
      destruct (stored (snd (log_calls calls w))), (stored w).
      unfold set_activities in *. simpl in *. congruence.
Qed.

(** ** Further properties of the handlers *)

Ltac walk :=
  unfold ret, throw, writeData, Date_now, Date_toISOString, substring_of; simpl;
  rewrite ?readData_stored; simpl;
  same_document;
  repeat match goal with
         | |- context [match ?x with Some _ => _ | None => _ end] => destruct x
         | |- context [if ?b then _ else _] => destruct b
         end;
  unfold ret, throw; cbv beta; rewrite ?readData_stored;
  simpl; rewrite ?logActivity_eq; simpl.

Ltac open_handlers :=
  unfold run;
  unfold post_auth_login, get_posters, get_breaking_news,
    delete_breaking_news, get_breaking_news_category,
    get_featured_stories, delete_featured_stories,
    get_featured_stories_category, get_category, get_categories,
    post_categories, get_activities, get_news, delete_news,
    get_static_pages, post_static_pages, get_tickers, post_tickers,
    get_ads, get_users, post_users;
  unfold catch, bind; rewrite readData_stored.

(** X1. The listings and the login leave the world as it was: they write
    nothing, read no clock and call no media host.  In particular the
    placeholders of [GET /api/posters] are not stored. *)
Theorem reads_leave_the_world (req : Request) (w : World)
    (Hreads : reads req = true) :
  snd (handle req w) = w.
Proof.
  destruct req; try discriminate Hreads; simpl; open_handlers; walk; reflexivity.
Qed.

Lemma handler_of_quiet r body files w :
  logs (Upload r body files) = false ->
  activity_log (snd (run (handler_of r body files) w)) = activity_log w.
Proof.
  intros Hq. unfold activity_log.
  destruct r; try discriminate Hq; unfold handler_of, run.
  - unfold post_posters, catch, bind. rewrite readData_stored.
    pose proof (post_posters_loop_world body (Some (group_by_fieldname files))
                  [1; 2; 3] [] w) as Hd.
    destruct (post_posters_loop body (Some (group_by_fieldname files)) [1; 2; 3] [] w)
      as [[l|e] w1]; simpl in Hd; walk; reflexivity.
  - unfold post_breaking_news, catch, bind. rewrite readData_stored.
    uploads; walk; reflexivity.
  - unfold put_breaking_news, catch, bind. rewrite readData_stored.
    found; [|walk; reflexivity]. uploads; walk; reflexivity.
  - unfold post_media, catch, bind. uploads; walk; reflexivity.
  - unfold post_ads, catch, bind. uploads; walk; reflexivity.
Qed.

(** X2. Only the creates, updates and deletes of featured stories and of
    news articles log an activity: every other request leaves the
    activities as they were. *)
Theorem only_featured_stories_and_news_log (req : Request) (w : World)
    (Hquiet : logs req = false) :
  activity_log (snd (handle req w)) = activity_log w.
Proof.
  destruct req; try discriminate Hquiet; simpl;
    try (unfold activity_log; open_handlers; try found; walk; reflexivity).
  unfold serve, route. destruct (multer _ _ _); [|reflexivity].
  apply handler_of_quiet. destruct r; try discriminate Hquiet; reflexivity.
Qed.

Lemma poster_file_no_files i : poster_file (Some (group_by_fieldname [])) i = None.
Proof. unfold poster_file, group_by_fieldname. simpl. rewrite lookup_empty. reflexivity. Qed.

Lemma post_posters_loop_no_files body slots : forall acc w,
  exists l, post_posters_loop body (Some (group_by_fieldname [])) slots acc w
            = (Return l, w).
Proof.
  induction slots as [|i slots IH]; intros acc w; simpl; [eexists; reflexivity|].
  unfold bind at 1. rewrite poster_file_no_files. unfold ret. apply IH.
Qed.

Lemma first_file_no_files name : first_file name ∅ = None.
Proof. unfold first_file. rewrite lookup_empty. reflexivity. Qed.

Ltac no_files :=
  change (forEach_push (default [] (Some [])) ∅)
    with (inl ∅ : gmap string (list File) + string);
  unfold completed; rewrite ?ret_at; cbv beta iota;
  rewrite ?first_file_no_files.

(** X3. A request without file parts never calls the media host. *)
Theorem no_file_part_no_upload (req : Request) (w : World)
    (Hparts : parts_of req = []) :
  uploads (snd (handle req w)) = uploads w.
Proof.
  destruct req; simpl in Hparts |- *;
    try (open_handlers; try found; walk; reflexivity).
  subst parts. unfold serve, route. simpl.
  destruct r; unfold handler_of, run.
  - unfold post_posters, catch, bind. rewrite readData_stored.
    destruct (post_posters_loop_no_files body [1; 2; 3] [] w) as [l ->].
    reflexivity.
  - unfold post_breaking_news, catch, bind. rewrite readData_stored.
    no_files. walk; reflexivity.
  - unfold put_breaking_news, catch, bind. rewrite readData_stored.
    found; no_files; walk; reflexivity.
  - unfold post_featured_stories, catch, bind. walk; reflexivity.
  - unfold put_featured_stories, catch, bind. rewrite readData_stored.
    destruct (featuredStories (stored w)); [|walk; reflexivity].
    found; walk; reflexivity.
  - unfold post_media, catch, bind. walk; reflexivity.
  - unfold post_news, catch, bind. walk; reflexivity.
  - unfold put_news, catch, bind. rewrite readData_stored.
    found; walk; reflexivity.
  - unfold post_ads, catch, bind. walk; reflexivity.
Qed.

Lemma fmap_insert_same {A} (f : A -> Z) (l : list A) (i : nat) (x y : A) :
  l !! i = Some x -> f y = f x -> f <$> <[i:=y]> l = f <$> l.
Proof.
  intros Hi Hf. rewrite list_fmap_insert. apply list_insert_id.
  rewrite list_lookup_fmap, Hi. simpl. congruence.
Qed.

Ltac same_ids :=
  first [reflexivity
        |erewrite fmap_insert_same; [reflexivity|eassumption|reflexivity]].

(** X4. An update never changes which ids a collection holds, nor their
    order, whatever its outcome: it replaces the record in place and keeps
    its id. *)
Theorem update_keeps_ids (k : Kind) (id : number) (body : gmap string string)
    (files : list File) (w : World) :
  ids k (stored (snd (run (update k id body files) w))) = ids k (stored w).
Proof.
  destruct k; unfold update, handler_of, run, ids.
  - unfold put_breaking_news, catch, bind. rewrite readData_stored.
    destruct (list_find _ (breakingNews (stored w))) as [[idx existing]|] eqn:Hfind;
      [|reflexivity].
    apply list_find_Some in Hfind as (Hi & _ & _).
    uploads; walk; f_equal; same_ids.
  - unfold put_featured_stories, catch, bind. rewrite readData_stored.
    destruct (featuredStories (stored w)) as [stories|] eqn:Hst;
      [|unfold throw; simpl; rewrite Hst; reflexivity].
    destruct (list_find _ stories) as [[idx existing]|] eqn:Hfind;
      [|simpl; rewrite Hst; reflexivity].
    apply list_find_Some in Hfind as (Hi & _ & _).
    unfold bind. uploads; walk; rewrite ?Hst; simpl; f_equal; same_ids.
  - unfold put_news, catch, bind. rewrite readData_stored.
    destruct (list_find _ (news (stored w))) as [[idx existing]|] eqn:Hfind;
      [|reflexivity].
    apply list_find_Some in Hfind as (Hi & _ & _).
    uploads; walk; f_equal; same_ids.
Qed.

(** X5. An update whose attached file fails to upload writes nothing and
    does not answer 200; when a record has the id, it answers 500. *)
Theorem failed_upload_aborts_update (k : Kind) (id : number)
    (body : gmap string string) (files : list File) (w : World)
    (file : File) (folder : string)
    (Hattached : (file, folder) ∈ update_attached k files)
    (Hraises : raises (uploadToCloudinary file folder)) :
  status (fst (run (update k id body files) w)) <> 200 /\
  dataFile (snd (run (update k id body files) w)) = dataFile w /\
  (forall z l, ids k (stored w) = Some l -> z ∈ l -> id = Int z ->
     status (fst (run (update k id body files) w)) = 500).
Proof.
  assert (Hfound : forall {A} (f : A -> Z) (l : list A) z,
            z ∈ f <$> l -> list_find (fun x => Int (f x) = Int z) l <> None).
  { intros A f l z Hz. destruct (find_id_Some f l z Hz) as (i & x & -> & _).
    discriminate. }
  destruct k; unfold update, handler_of, run; unfold update_attached in Hattached.
  - unfold put_breaking_news, catch, bind. rewrite readData_stored.
    change (default [] (Some files)) with files.
    destruct (list_find _ (breakingNews (stored w))) as [[idx existing]|] eqn:Hfind.
    + unfold breaking_news_attached in Hattached. rewrite forEach_push_spec.
      destruct (bool_decide (plain_fields files));
        [|apply elem_of_nil in Hattached; contradiction].
      rewrite <- !first_file_group in Hattached.
      unfold completed; rewrite !ret_at; cbv beta iota.
      set (byField := group_by_fieldname files) in *.
      apply elem_of_app in Hattached as [Hv|Hth].
      * destruct (first_file "video" byField) as [g|]; simpl in Hv;
          [|apply elem_of_nil in Hv; contradiction].
        apply list_elem_of_singleton in Hv. inversion Hv; subst g folder.
        upload_cases file "breaking-news" w; [raise_contradiction Hraises w|].
        simpl. repeat split; auto; discriminate.
      * destruct (first_file "thumbnail" byField) as [g|]; simpl in Hth;
          [|apply elem_of_nil in Hth; contradiction].
        apply list_elem_of_singleton in Hth. inversion Hth; subst g folder.
        destruct (first_file "video" byField) as [v|].
        -- upload_cases v "breaking-news" w.
           ++ upload_cases file "breaking-news-thumbnails" w0;
                [raise_contradiction Hraises w0|].
              simpl. repeat split; auto; try discriminate; congruence.
           ++ simpl. repeat split; auto; discriminate.
        -- upload_cases file "breaking-news-thumbnails" w;
             [raise_contradiction Hraises w|].
           simpl. repeat split; auto; discriminate.
    + simpl. repeat split; auto; try discriminate.
      intros z l [= <-] Hz ->. destruct (Hfound _ _ _ _ Hz). exact Hfind.
  - destruct (head files) as [g|]; simpl in Hattached;
      [|apply elem_of_nil in Hattached; contradiction].
    apply list_elem_of_singleton in Hattached. inversion Hattached; subst g folder.
    unfold put_featured_stories, catch, bind. rewrite readData_stored.
    destruct (featuredStories (stored w)) as [stories|] eqn:Hst.
    + destruct (list_find _ stories) as [[idx existing]|] eqn:Hfind.
      * unfold bind. upload_cases file "featured-stories" w;
          [raise_contradiction Hraises w|].
        simpl. repeat split; auto; discriminate.
      * simpl. repeat split; auto; try discriminate.
        intros z l Hl Hz ->. simpl in Hl. rewrite Hst in Hl. simpl in Hl.
        inversion Hl; subst l. destruct (Hfound _ _ _ _ Hz). exact Hfind.
    + unfold throw. simpl. repeat split; auto; discriminate.
  - destruct (head files) as [g|]; simpl in Hattached;
      [|apply elem_of_nil in Hattached; contradiction].
    apply list_elem_of_singleton in Hattached. inversion Hattached; subst g folder.
    unfold put_news, catch, bind. rewrite readData_stored.
    destruct (list_find _ (news (stored w))) as [[idx existing]|] eqn:Hfind.
    + upload_cases file "news" w; [raise_contradiction Hraises w|].
      simpl. repeat split; auto; discriminate.
    + simpl. repeat split; auto; try discriminate.
      intros z l [= <-] Hz ->. destruct (Hfound _ _ _ _ Hz). exact Hfind.
Qed.

(** *** Users *)

Lemma find_app_None {A} (f : A -> bool) (l l' : list A) :
  find f l = None -> find f (l ++ l') = find f l'.
Proof.
  induction l as [|x l IH]; simpl; [reflexivity|].
  destruct (f x); [discriminate|exact IH].
Qed.

Lemma username_free (body : gmap string string) (l : list User.t) :
  (forall u, u ∈ l -> User.username u <> body !! "username") <->
  existsb (fun u => bool_decide (User.username u = body !! "username")) l = false.
Proof.
  split.
  - intros Hfree. destruct (existsb _ l) eqn:E; [|reflexivity].
    apply existsb_exists in E as (u & Hu & Hm).
    apply bool_decide_eq_true in Hm. apply list_elem_of_In in Hu.
    destruct (Hfree u Hu Hm).
  - intros E u Hu Hm. apply list_elem_of_In in Hu.
    assert (existsb (fun u => bool_decide (User.username u = body !! "username")) l
            = true); [|congruence].
    apply existsb_exists. exists u. split; [exact Hu|].
    apply bool_decide_eq_true. exact Hm.
Qed.

(** X6. [POST /api/users] with a username that no stored user has appends
    the user, password included, and answers with the user without the
    password: the id is the reading of the clock, the username, the role
    and the email are those of the request.  A login with the same
    username and password then succeeds and answers with the same record,
    and a second [POST /api/users] of it is refused with 400 and writes
    nothing. *)
Theorem post_users_then_login (body : gmap string string) (w : World)
    (Hfree : forall u, u ∈ users (stored w) -> User.username u <> body !! "username") :
  let newUser :=
    User.mk (clock (ticks w)) (body !! "username") (body !! "password")
      (body !! "role") (body !! "email")
      (Some (toISOString (clock (S (ticks w))))) in
  let answered :=
    User.mk (clock (ticks w)) (body !! "username") None
      (body !! "role") (body !! "email")
      (Some (toISOString (clock (S (ticks w))))) in
  let w' := snd (run (post_users body) w) in
  fst (run (post_users body) w) = json (UserItem answered) /\
  users (stored w') = users (stored w) ++ [newUser] /\
  fst (run (post_auth_login body) w') = json (LoginUser answered) /\
  run (post_users body) w' =
    (mkResponse 400 (Error "Username already exists" None), w').
Proof.
  cbv zeta. pose proof (proj1 (username_free body _) Hfree) as Hex.
  unfold run, post_users, bind. rewrite readData_stored, Hex.
  unfold Date_now, Date_toISOString, writeData, ret. simpl.
  split; [reflexivity|]. split; [reflexivity|]. split.
  - unfold post_auth_login, bind, ret. rewrite readData_stored. simpl.
    rewrite find_app_None.
    + simpl. rewrite !bool_decide_eq_true_2 by reflexivity. reflexivity.
    + destruct (find _ (users (stored w))) as [u|] eqn:Hfind; [|reflexivity].
      apply find_some in Hfind as [Hin Hm].
      apply andb_prop in Hm as [Hu _]. apply bool_decide_eq_true in Hu.
      apply list_elem_of_In in Hin. destruct (Hfree u Hin Hu).
  - rewrite ?readData_stored. simpl. rewrite existsb_app. simpl.
    rewrite bool_decide_eq_true_2 by reflexivity.
    rewrite orb_true_r. reflexivity.
Qed.

Lemma handler_of_users r body files w :
  users (stored (snd (run (handler_of r body files) w))) = users (stored w).
Proof.
  destruct r; unfold handler_of, run.
  - unfold post_posters, catch, bind. rewrite readData_stored.
    pose proof (post_posters_loop_world body (Some (group_by_fieldname files))
                  [1; 2; 3] [] w) as Hd.
    destruct (post_posters_loop body (Some (group_by_fieldname files)) [1; 2; 3] [] w)
      as [[l|e] w1]; simpl in Hd; walk; reflexivity.
  - unfold post_breaking_news, catch, bind. rewrite readData_stored.
    uploads; walk; reflexivity.
  - unfold put_breaking_news, catch, bind. rewrite readData_stored.
    found; [|walk; reflexivity]. uploads; walk; reflexivity.
  - unfold post_featured_stories, catch, bind. uploads; walk; reflexivity.
  - unfold put_featured_stories, catch, bind. rewrite readData_stored.
    destruct (featuredStories (stored w)) as [stories|]; [|walk; reflexivity].
    found; [|walk; reflexivity]. unfold bind. uploads; walk; reflexivity.
  - unfold post_media, catch, bind. uploads; walk; reflexivity.
  - unfold post_news, catch, bind.
    destruct (truthy (body !! "imageUrl")); [walk; reflexivity|].
    uploads; walk; reflexivity.
  - unfold put_news, catch, bind. rewrite readData_stored.
    found; [|walk; reflexivity]. uploads; walk; reflexivity.
  - unfold post_ads, catch, bind. uploads; walk; reflexivity.
Qed.

Lemma handle_users req w :
  users (stored (snd (handle req w))) = users (stored w) \/
  exists u, users (stored (snd (handle req w))) = users (stored w) ++ [u] /\
            User.username u ∉ usernames (stored w).
Proof.
  destruct req; simpl;
    try (left; open_handlers; try found; walk; reflexivity).
  - unfold run, post_users, bind. rewrite readData_stored.
    destruct (existsb _ (users (stored w))) eqn:E; [left; reflexivity|].
    right. unfold Date_now, Date_toISOString, writeData, ret. simpl.
    eexists. split; [reflexivity|]. simpl.
    intros Hin. unfold usernames in Hin.
    apply list_elem_of_fmap in Hin as (u & Hu & Hin).
    apply (proj2 (username_free body _) E u Hin). congruence.
  - left. unfold serve, route. destruct (multer _ _ _); [|reflexivity].
    apply handler_of_users.
Qed.

(** X7. Usernames stay pairwise distinct: when the stored users have
    distinct usernames, they still have after any requests. *)
Theorem usernames_stay_distinct (reqs : list Request) (w : World)
    (Hdistinct : NoDup (usernames (stored w))) :
  NoDup (usernames (stored (serve_all reqs w))).
Proof.
  induction reqs as [|req reqs IH] using rev_ind; [exact Hdistinct|].
  rewrite serve_all_snoc.
  destruct (handle_users req (serve_all reqs w)) as [Hsame | (u & Hu & Hfresh)];
    unfold usernames in *.
  - rewrite Hsame. exact IH.
  - rewrite Hu, fmap_app. apply NoDup_app. split; [exact IH|]. split.
    + intros x Hx Hx'. apply list_elem_of_singleton in Hx'. subst x.
      contradiction.
    + apply NoDup_singleton.
Qed.

Lemma without_password_all (l : list User.t) :
  Forall (fun u => User.password u = None) (map without_password l).
Proof. induction l; simpl; constructor; auto. Qed.

Lemma handler_of_no_user r body files w :
  users_of (payload (fst (run (handler_of r body files) w))) = [].
Proof.
  destruct r; unfold handler_of, run.
  - unfold post_posters, catch, bind. rewrite readData_stored.
    destruct (post_posters_loop body (Some (group_by_fieldname files)) [1; 2; 3] [] w)
      as [[l|e] w1]; walk; reflexivity.
  - unfold post_breaking_news, catch, bind. rewrite readData_stored.
    uploads; walk; reflexivity.
  - unfold put_breaking_news, catch, bind. rewrite readData_stored.
    found; [|walk; reflexivity]. uploads; walk; reflexivity.
  - unfold post_featured_stories, catch, bind. uploads; walk; reflexivity.
  - unfold put_featured_stories, catch, bind. rewrite readData_stored.
    destruct (featuredStories (stored w)) as [stories|]; [|walk; reflexivity].
    found; [|walk; reflexivity]. unfold bind. uploads; walk; reflexivity.
  - unfold post_media, catch, bind. uploads; walk; reflexivity.
  - unfold post_news, catch, bind.
    destruct (truthy (body !! "imageUrl")); [walk; reflexivity|].
    uploads; walk; reflexivity.
  - unfold put_news, catch, bind. rewrite readData_stored.
    found; [|walk; reflexivity]. uploads; walk; reflexivity.
  - unfold post_ads, catch, bind. uploads; walk; reflexivity.
Qed.

(** X8. No response carries a password: the user of a login, the user of
    [POST /api/users] and the users of [GET /api/users] have none, and no
    other response carries a user. *)
Theorem no_response_carries_a_password (req : Request) (w : World) :
  Forall (fun u => User.password u = None)
    (users_of (payload (fst (handle req w)))).
Proof.
  destruct req; simpl;
    try (open_handlers; try found; walk;
         first [constructor; [reflexivity|constructor]
               |apply without_password_all
               |constructor]).
  unfold serve, route. destruct (multer _ _ _); [|constructor].
  rewrite handler_of_no_user. constructor.
Qed.

(** *** Listings by category *)

Lemma in_category_true category c :
  in_category category c = true <->
  exists s, c = Some s /\ s <> "" /\ toLowerCase s = toLowerCase category.
Proof.
  unfold in_category, truthy. destruct c as [s|]; simpl.
  - destruct (String.eqb s EmptyString) eqn:E; simpl.
    + apply String.eqb_eq in E. split; [discriminate|].
      intros (s' & [= <-] & Hne & _). contradiction.
    + apply String.eqb_neq in E. rewrite String.eqb_eq. split.
      * intros H. eauto.
      * intros (s' & [= <-] & _ & H). exact H.
  - split; [discriminate|]. intros (s & [=] & _).
Qed.

Lemma filter_sublist {A} (f : A -> bool) (l : list A) : List.filter f l `sublist_of` l.
Proof.
  induction l as [|x l IH]; simpl; [constructor|].
  destruct (f x); constructor; exact IH.
Qed.

Lemma filter_elem_of {A} (f : A -> bool) (l : list A) (x : A) :
  x ∈ List.filter f l <-> x ∈ l /\ f x = true.
Proof. rewrite !list_elem_of_In. apply filter_In. Qed.

(** X9. [GET /api/category/:category] answers with what the two category
    listings answer, and with the news articles of the category.  A record
    is listed exactly when its category is a non-empty string whose
    [toLowerCase()] is that of the requested category; the listed records
    keep their stored order, and nothing is written. *)
Theorem category_listings_agree (category : string) (w : World) :
  exists breaking stories articles,
    run (get_category category) w =
      (json (CategoryContent breaking stories articles category), w) /\
    run (get_breaking_news_category category) w =
      (json (BreakingNewsList breaking), w) /\
    run (get_featured_stories_category category) w =
      (json (FeaturedStoryList stories), w) /\
    breaking `sublist_of` breakingNews (stored w) /\
    stories `sublist_of` default [] (featuredStories (stored w)) /\
    articles `sublist_of` news (stored w) /\
    (forall n, n ∈ breaking <->
       n ∈ breakingNews (stored w) /\
       exists s, BreakingNews.category n = Some s /\ s <> "" /\
                 toLowerCase s = toLowerCase category) /\
    (forall n, n ∈ stories <->
       n ∈ default [] (featuredStories (stored w)) /\
       exists s, FeaturedStory.category n = Some s /\ s <> "" /\
                 toLowerCase s = toLowerCase category) /\
    (forall n, n ∈ articles <->
       n ∈ news (stored w) /\
       exists s, News.category n = Some s /\ s <> "" /\
                 toLowerCase s = toLowerCase category).
Proof.
  do 3 eexists.
  unfold run, get_category, get_breaking_news_category,
    get_featured_stories_category, catch, bind, ret.
  rewrite readData_stored.
  split; [reflexivity|]. split; [reflexivity|]. split; [reflexivity|].
  split; [apply filter_sublist|]. split; [apply filter_sublist|].
  split; [apply filter_sublist|].
  split; [|split]; intros n; rewrite filter_elem_of, in_category_true; reflexivity.
Qed.

(** X10. The category listings ignore the case of the requested category:
    two requests whose categories have the same [toLowerCase()] get the
    same lists of breaking news, of featured stories and of news. *)
Theorem category_listings_ignore_case (c1 c2 : string) (w : World)
    (Hcase : toLowerCase c1 = toLowerCase c2) :
  fst (run (get_breaking_news_category c1) w)
    = fst (run (get_breaking_news_category c2) w) /\
  fst (run (get_featured_stories_category c1) w)
    = fst (run (get_featured_stories_category c2) w) /\
  (forall breaking stories articles,
     fst (run (get_category c1) w)
       = json (CategoryContent breaking stories articles c1) ->
     fst (run (get_category c2) w)
       = json (CategoryContent breaking stories articles c2)).
Proof.
  assert (Hin : forall a b, toLowerCase a = toLowerCase b ->
                            in_category a = in_category b).
  { intros a b Hab. unfold in_category. rewrite Hab. reflexivity. }
  unfold run, get_category, get_breaking_news_category,
    get_featured_stories_category, catch, bind, ret.
  rewrite !readData_stored. simpl.
  rewrite (Hin c1 c2 Hcase).
  repeat split; try reflexivity.
  intros ? ? ? [= <- <- <-]. reflexivity.
Qed.

(** *** Parts on inherited field names *)

(** X11. The handlers of breaking news group the file parts of a request
    by field in an object literal.  When no part is on a field named like
    a property of [Object.prototype], the object holds, for each field
    name, the parts on that field in the order of the request, and
    nothing for a field without parts; so the file that a handler takes
    for a field is the first part of the request on it.  When a part is
    on such a field ([constructor], say), the grouping throws:
    [POST /api/breaking-news] answers 500, and neither uploads nor
    writes. *)
Theorem first_file_is_first_of_field (files : list File) (name : string) :
  (plain_fields files ->
   exists m,
     forEach_push files ∅ = inl m /\
     m !! name =
       match filter (fun f => fieldname f = name) files with
       | [] => None
       | l => Some l
       end /\
     first_file name m = part_on name files) /\
  (~ plain_fields files ->
   forEach_push files ∅ = inr "filesByField[f.fieldname].push is not a function" /\
   forall body w,
     run (post_breaking_news body (Some files)) w =
       (mkResponse 500
          (Error "Failed to add breaking news"
             (Some "filesByField[f.fieldname].push is not a function")), w)) /\
  (forall f, part_on name files = Some f -> f ∈ files /\ fieldname f = name).
Proof.
  split; [|split].
  - intros Hplain. exists (group_by_fieldname files).
    rewrite forEach_push_spec, bool_decide_eq_true_2 by exact Hplain.
    split; [reflexivity|].
    split; [apply group_by_fieldname_lookup|apply first_file_group].
  - intros Hnot.
    assert (Hthrow : forEach_push files ∅
                     = inr "filesByField[f.fieldname].push is not a function").
    { rewrite forEach_push_spec, bool_decide_eq_false_2 by exact Hnot.
      reflexivity. }
    split; [exact Hthrow|].
    intros body w. unfold run, post_breaking_news, catch, bind.
    rewrite readData_stored.
    change (default [] (Some files)) with files. rewrite Hthrow.
    reflexivity.
  - intros f Hf. unfold part_on in Hf.
    apply head_Some_elem_of in Hf. apply list_elem_of_filter in Hf as [? ?]. auto.
Qed.

(** *** The two filters *)

(** X13. A file that [breakingNewsUpload] admits as an image,
    [posterUpload] admits as well: its lists are those of the images of
    breaking news, with [avif] added. *)
Theorem posterUpload_admits_breaking_news_images (f : File)
    (Himage : test_alternatives imageExtTypes (extension f)
              && test_prefixed "image/" imageMimeTypes (mimetype f) = true) :
  breakingNewsUpload_fileFilter f = Admit /\ posterUpload_fileFilter f = Admit.
Proof.
  apply andb_prop in Himage as [He Hm].
  unfold breakingNewsUpload_fileFilter, posterUpload_fileFilter.
  unfold extension in He. rewrite He, Hm.
  change posterExtTypes with (imageExtTypes ++ ["avif"]).
  rewrite test_alternatives_app, He.
  unfold test_prefixed in *.
  change posterMimeTypes with (imageMimeTypes ++ ["avif"]).
  rewrite existsb_app, Hm. simpl. rewrite orb_true_r. split; reflexivity.
Qed.

(** *** News articles *)

Lemma truthy_or_empty (v : option string) :
  truthy v = true -> Some (or_empty v) = v.
Proof.
  unfold or_empty, js_or. intros H. rewrite H.
  destruct v; [reflexivity|discriminate].
Qed.

Lemma falsy_or_empty (v : option string) : truthy v = false -> or_empty v = "".
Proof. unfold or_empty, js_or. intros ->. reflexivity. Qed.

Lemma filter_snoc_true {A} (f : A -> bool) (l : list A) (x : A) :
  f x = true -> List.filter f (l ++ [x]) = List.filter f l ++ [x].
Proof. intros H. rewrite List.filter_app. simpl. rewrite H. reflexivity. Qed.

(** X14. [POST /api/news] with a title and a category, without file or
    image URL, answers with an article whose [imageUrl] is the empty
    string; the article is then the last of [GET /api/news] and of the
    news of [GET /api/category/:category] for the category in any case,
    and the first activity is the one of its publication. *)
Theorem post_news_then_listed (body : gmap string string) (w : World)
    (t c : string)
    (Htitle : body !! "title" = Some t)
    (Hcategory : body !! "category" = Some c)
    (Hnonempty : c <> "")
    (Hnourl : truthy (body !! "imageUrl") = false) :
  let article :=
    News.mk (clock (ticks w)) (Some t) (body !! "content") (Some c) (Some "")
      (Some (toISOString (clock (S (ticks w))))) in
  let w' := snd (run (post_news body None) w) in
  fst (run (post_news body None) w) = json (NewsItem article) /\
  run get_news w' = (json (NewsList (news (stored w) ++ [article])), w') /\
  (forall q, toLowerCase q = toLowerCase c ->
     exists breaking stories articles,
       fst (run (get_category q) w')
         = json (CategoryContent breaking stories articles q) /\
       last articles = Some article) /\
  head (activity_log w') =
    Some (Activity.mk (clock (S (S (ticks w)))) "news"
            ("New article published: " +:+ dquote +:+ ellipsis50 t +:+ dquote)
            "Admin User" "published"
            (toISOString (clock (S (S (S (ticks w))))))).
Proof.
  cbv zeta. unfold run, post_news, catch, bind. rewrite Hnourl.
  unfold ret. rewrite readData_stored.
  unfold Date_now, Date_toISOString, writeData, substring_of, ret.
  rewrite Htitle, Hcategory. simpl. rewrite ?logActivity_eq. simpl.
  split; [reflexivity|]. split; [reflexivity|]. split; [|reflexivity].
  intros q Hq. do 3 eexists. split.
  - unfold get_category, catch, bind, ret. simpl. reflexivity.
  - simpl. rewrite filter_snoc_true, last_snoc; [reflexivity|].
    apply in_category_true. exists c. simpl. auto.
Qed.

(** X15. An image URL in the body of [POST /api/news] wins over an
    attached file: the article gets the URL of the body, the file is not
    uploaded, and the article is appended whatever else the request has. *)
Theorem post_news_prefers_the_url_of_the_body (body : gmap string string)
    (file : option File) (w : World)
    (Hurl : truthy (body !! "imageUrl") = true) :
  let article :=
    News.mk (clock (ticks w)) (body !! "title") (body !! "content")
      (body !! "category") (body !! "imageUrl")
      (Some (toISOString (clock (S (ticks w))))) in
  let w' := snd (run (post_news body file) w) in
  news (stored w') = news (stored w) ++ [article] /\
  uploads w' = uploads w /\
  (is_Some (body !! "title") ->
   fst (run (post_news body file) w) = json (NewsItem article)).
Proof.
  cbv zeta. unfold run, post_news, catch, bind. rewrite Hurl.
  unfold ret. rewrite readData_stored.
  unfold Date_now, Date_toISOString, writeData, substring_of, ret, throw.
  rewrite (truthy_or_empty _ Hurl). simpl.
  destruct (body !! "title") as [t|]; simpl.
  - rewrite ?logActivity_eq. simpl. repeat split; reflexivity.
  - repeat split; try reflexivity. intros [t [=]].
Qed.


Lemma js_or_missing (old : option string) : js_or None old = old.
Proof. reflexivity. Qed.

Lemma js_or_empty (old : option string) : js_or (Some "") old = old.
Proof. reflexivity. Qed.

Lemma js_or_given (s : string) (old : option string) :
  s <> "" -> js_or (Some s) old = Some s.
Proof.
  intros H. unfold js_or, truthy.
  destruct (String.eqb s EmptyString) eqn:E; [|reflexivity].
  apply String.eqb_eq in E. contradiction.
Qed.

(** X17. [PUT /api/news/:id] without a file replaces the title, the
    content and the category by the non-empty values of the request and
    keeps the stored value for a field that is missing or empty: it
    cannot blank a field.  Only the record with the id changes, in place. *)
Theorem put_news_cannot_blank_a_field (id : number) (body : gmap string string)
    (w : World) (idx : nat) (existing : News.t) (t : string)
    (Hfound : list_find (fun n => Int (News.id n) = id) (news (stored w))
              = Some (idx, existing))
    (Htitle : js_or (body !! "title") (News.title existing) = Some t) :
  let updated :=
    News.mk (News.id existing)
      (js_or (body !! "title") (News.title existing))
      (js_or (body !! "content") (News.content existing))
      (js_or (body !! "category") (News.category existing))
      (Some (or_empty (js_or (body !! "imageUrl") (News.imageUrl existing))))
      (Some (toISOString (clock (ticks w)))) in
  let w' := snd (run (put_news id body None) w) in
  fst (run (put_news id body None) w) = json (NewsItem updated) /\
  news (stored w') = <[idx := updated]> (news (stored w)) /\
  (forall j, j <> idx -> news (stored w') !! j = news (stored w) !! j) /\
  (forall key old, body !! key = None \/ body !! key = Some "" ->
                   js_or (body !! key) old = old) /\
  (forall key s old, body !! key = Some s -> s <> "" ->
                     js_or (body !! key) old = Some s).
Proof.
  cbv zeta. unfold run, put_news, catch, bind. rewrite readData_stored, Hfound.
  unfold Date_toISOString, writeData, substring_of, ret. simpl.
  rewrite Htitle. simpl. rewrite ?logActivity_eq. simpl.
  split; [reflexivity|]. split; [reflexivity|]. split.
  - intros j Hj. apply list_lookup_insert_ne. auto.
  - split.
    + intros key old [-> | ->]; reflexivity.
    + intros key s old -> Hs. apply js_or_given. exact Hs.
Qed.

(** *** Breaking news *)

(** X18. [PUT /api/breaking-news/:id] without files changes the record
    with the id and no other: the record keeps its place, its id, its
    video and its thumbnail; each of the headline, the two descriptions,
    the category, the state and the YouTube URL gets the value of the
    request when the request has the field (the empty string included)
    and keeps its value otherwise; the timestamp is renewed. *)
Theorem put_breaking_news_touches_one_record (id : number)
    (body : gmap string string) (w : World) (idx : nat)
    (existing : BreakingNews.t)
    (Hfound : list_find (fun b => Int (BreakingNews.id b) = id)
                (breakingNews (stored w)) = Some (idx, existing)) :
  exists updated,
    let w' := snd (run (put_breaking_news id body None) w) in
    fst (run (put_breaking_news id body None) w) = json (BreakingNewsItem updated) /\
    breakingNews (stored w') !! idx = Some updated /\
    length (breakingNews (stored w')) = length (breakingNews (stored w)) /\
    (forall j, j <> idx ->
       breakingNews (stored w') !! j = breakingNews (stored w) !! j) /\
    BreakingNews.id updated = BreakingNews.id existing /\
    BreakingNews.videoUrl updated = Some (or_empty (BreakingNews.videoUrl existing)) /\
    BreakingNews.thumbnail updated = Some (or_empty (BreakingNews.thumbnail existing)) /\
    (forall v, body !! "headline" = Some v -> BreakingNews.headline updated = Some v) /\
    (body !! "headline" = None ->
     BreakingNews.headline updated = BreakingNews.headline existing) /\
    (forall v, body !! "shortDescription" = Some v ->
       BreakingNews.shortDescription updated = Some v) /\
    (body !! "shortDescription" = None ->
     BreakingNews.shortDescription updated = BreakingNews.shortDescription existing) /\
    (forall v, body !! "fullDescription" = Some v ->
       BreakingNews.fullDescription updated = Some v) /\
    (body !! "fullDescription" = None ->
     BreakingNews.fullDescription updated = BreakingNews.fullDescription existing) /\
    (forall v, body !! "category" = Some v -> BreakingNews.category updated = Some v) /\
    (body !! "category" = None ->
     BreakingNews.category updated = BreakingNews.category existing) /\
    (forall v, body !! "state" = Some v -> BreakingNews.state updated = Some v) /\
    (body !! "state" = None ->
     BreakingNews.state updated = BreakingNews.state existing) /\
    (forall v, body !! "youtubeUrl" = Some v -> BreakingNews.youtubeUrl updated = Some v) /\
    (body !! "youtubeUrl" = None ->
     BreakingNews.youtubeUrl updated = BreakingNews.youtubeUrl existing) /\
    BreakingNews.timestamp updated = Some (toISOString (clock (ticks w))) /\
    set_breakingNews (stored w') [] = set_breakingNews (stored w) [].
Proof.
  eexists. cbv zeta.
  rewrite (put_breaking_news_keeps_omitted_fields id body w idx existing Hfound).
  simpl. apply list_find_Some in Hfound as (Hi & _ & _).
  split; [reflexivity|]. split.
  { apply list_lookup_insert_eq. apply lookup_lt_Some in Hi. exact Hi. }
  split; [apply length_insert|]. split.
  { intros j Hj. apply list_lookup_insert_ne. auto. }
  repeat split; try reflexivity; try (intros v ->; reflexivity);
    try (intros ->; reflexivity).
Qed.

(** *** Categories, static pages and tickers *)

(** X19. A category, a static page or a ticker that is created gets the
    reading of the clock as id and is appended: the listing that follows
    the create is the previous listing followed by the record that the
    create answered with; a ticker is created active. *)
Theorem create_then_list (body : gmap string string) (w : World) :
  (exists c,
     fst (run (post_categories body) w) = json (CategoryItem c) /\
     Category.id c = clock (ticks w) /\
     fst (run get_categories (snd (run (post_categories body) w)))
       = json (CategoryList (categories (stored w) ++ [c]))) /\
  (exists p,
     fst (run (post_static_pages body) w) = json (StaticPageItem p) /\
     StaticPage.id p = clock (ticks w) /\
     fst (run get_static_pages (snd (run (post_static_pages body) w)))
       = json (StaticPageList (staticPages (stored w) ++ [p]))) /\
  (exists t,
     fst (run (post_tickers body) w) = json (TickerItem t) /\
     Ticker.id t = clock (ticks w) /\ Ticker.active t = true /\
     fst (run get_tickers (snd (run (post_tickers body) w)))
       = json (TickerList (tickers (stored w) ++ [t]))).
Proof.
  unfold run, post_categories, post_static_pages, post_tickers, get_categories,
    get_static_pages, get_tickers, bind.
  rewrite !readData_stored.
  unfold Date_now, Date_toISOString, writeData, ret. simpl.
  repeat split; eexists; repeat split; reflexivity.
Qed.

(** *** Media *)

(** X20. [POST /api/media] without a file answers 400 and does nothing;
    with a file that the media host stores, it appends a record with the
    URL of the host and the MIME type of the file, and answers with it. *)
Theorem post_media_needs_a_file (body : gmap string string) (w : World)
    (file : File) (url : string)
    (Hstored : returns (uploadToCloudinary file "media") url) :
  run (post_media body None) w = (mkResponse 400 (Error "No file uploaded" None), w) /\
  (let item :=
     Media.mk (clock (ticks w)) (body !! "title") (body !! "description")
       (Some url) (Some (mimetype file))
       (Some (toISOString (clock (S (ticks w))))) in
   let w' := snd (run (post_media body (Some file)) w) in
   fst (run (post_media body (Some file)) w) = json (MediaItem item) /\
   media (stored w') = media (stored w) ++ [item] /\
   uploads w' = (path file, "media") :: uploads w).
Proof.
  split; [reflexivity|]. cbv zeta.
  unfold run, post_media, catch, bind.
  destruct (Hstored w) as (w1 & Hw1). rewrite Hw1.
  apply uploadToCloudinary_return in Hw1 as [_ ->].
  rewrite readData_stored.
  unfold Date_now, Date_toISOString, writeData, ret. simpl.
  repeat split; reflexivity.
Qed.

(** *** Deletes *)


(** *** Ads *)

(** X22. [POST /api/ads] appends an active ad, with the URL of the
    uploaded image or the empty string without a file, and answers with
    it; [GET /api/ads] then lists it last.  No activity is logged. *)
Theorem post_ads_then_list (body : gmap string string) (file : option File)
    (w : World) (url : string)
    (Hurl : url_of file "ads" url) :
  let ad :=
    Ad.mk (clock (ticks w)) (body !! "title") (body !! "placement") (Some url)
      (body !! "url") (body !! "startDate") (body !! "endDate") true
      (Some (toISOString (clock (S (ticks w))))) in
  let w' := snd (run (post_ads body file) w) in
  fst (run (post_ads body file) w) = json (AdItem ad) /\
  fst (run get_ads w') = json (AdList (ads (stored w) ++ [ad])) /\
  activity_log w' = activity_log w /\
  (file = None -> url = "").
Proof.
  cbv zeta. unfold run, post_ads, get_ads, catch, bind.
  assert (Hi : exists w1,
            match file with
            | Some f => uploadToCloudinary f "ads"
            | None => ret ""
            end w = (Return url, w1) /\
            dataFile w1 = dataFile w /\ ticks w1 = ticks w).
  { destruct file as [f|]; simpl in Hurl.
    - destruct (returns_return _ _ _ w Hurl) as (w1 & Hw1 & Hd & Ht). eauto.
    - subst. exists w. auto. }
  destruct Hi as (w1 & -> & Hd1 & Ht1).
  rewrite readData_stored, (stored_dataFile _ _ Hd1).
  unfold Date_now, Date_toISOString, writeData, ret. simpl. rewrite Ht1.
  repeat split; try reflexivity.
  intros ->. exact Hurl.
Qed.

(** *** Featured stories *)

(** X24. [POST /api/featured-stories] with a title and a category, without
    a file, answers 201 with the story; the story is then the last of
    [GET /api/featured-stories] and of its category listing in any case,
    and the first activity is the one of its publication. *)
Theorem post_featured_stories_then_listed (body : gmap string string)
    (w : World) (t c : string)
    (Htitle : body !! "title" = Some t)
    (Hcategory : body !! "category" = Some c)
    (Hnonempty : c <> "") :
  let story :=
    FeaturedStory.mk (clock (ticks w)) (Some t) (body !! "description")
      (js_or (body !! "content") (body !! "description")) (Some c)
      (body !! "state") (js_or (body !! "excerpt") (body !! "description"))
      (Some "") (Some (priority_of body)) (Some "0")
      (Some (toISOString (clock (S (ticks w))))) in
  let w' := snd (run (post_featured_stories body None) w) in
  fst (run (post_featured_stories body None) w)
    = mkResponse 201 (FeaturedStoryItem story) /\
  fst (run get_featured_stories w')
    = json (FeaturedStoryList (default [] (featuredStories (stored w)) ++ [story])) /\
  (forall q, toLowerCase q = toLowerCase c ->
     exists stories,
       fst (run (get_featured_stories_category q) w')
         = json (FeaturedStoryList stories) /\
       last stories = Some story) /\
  head (activity_log w') =
    Some (Activity.mk (clock (S (S (ticks w)))) "featured-story"
            ("New featured story published: " +:+ dquote +:+ ellipsis50 t +:+ dquote)
            "Admin User" "published"
            (toISOString (clock (S (S (S (ticks w))))))).
Proof.
  cbv zeta. unfold run, post_featured_stories, catch, bind, ret.
  rewrite readData_stored.
  unfold Date_now, Date_toISOString, writeData, substring_of, ret, priority_of.
  rewrite Htitle, Hcategory. simpl. rewrite ?logActivity_eq. simpl.
  assert (Hp : match body !! "priority" with
               | Some p => if truthy (body !! "priority") then Number p else Int 1
               | None => Int 1
               end =
               match body !! "priority" with
               | Some p => if truthy (Some p) then Number p else Int 1
               | None => Int 1
               end) by (destruct (body !! "priority"); reflexivity).
  rewrite Hp.
  split; [reflexivity|]. split; [reflexivity|]. split; [|reflexivity].
  intros q Hq. eexists. split.
  - unfold get_featured_stories_category, catch, bind, ret. simpl. reflexivity.
  - simpl. rewrite filter_snoc_true, last_snoc; [reflexivity|].
    apply in_category_true. exists c. simpl. auto.
Qed.

(** X25. [PUT /api/featured-stories/:id] with a title and without a file
    keeps the id, the place, the image and the view count of the story,
    and its priority unless the request has one; it takes the other
    fields from the request, logs the update and answers with the story. *)
Theorem put_featured_stories_keeps_image_and_views (id : number)
    (body : gmap string string) (w : World) (stories : list FeaturedStory.t)
    (idx : nat) (existing : FeaturedStory.t) (t : string)
    (Hstories : featuredStories (stored w) = Some stories)
    (Hfound : list_find (fun s => Int (FeaturedStory.id s) = id) stories
              = Some (idx, existing))
    (Htitle : body !! "title" = Some t) :
  exists updated,
    let w' := snd (run (put_featured_stories id body None) w) in
    fst (run (put_featured_stories id body None) w) = json (FeaturedStoryItem updated) /\
    featuredStories (stored w') = Some (<[idx := updated]> stories) /\
    (forall j, j <> idx -> <[idx := updated]> stories !! j = stories !! j) /\
    FeaturedStory.id updated = FeaturedStory.id existing /\
    FeaturedStory.imageUrl updated = FeaturedStory.imageUrl existing /\
    FeaturedStory.views updated = FeaturedStory.views existing /\
    (truthy (body !! "priority") = false ->
     FeaturedStory.priority updated = FeaturedStory.priority existing) /\
    FeaturedStory.title updated = Some t /\
    FeaturedStory.description updated = body !! "description" /\
    FeaturedStory.category updated = body !! "category" /\
    FeaturedStory.state updated = body !! "state" /\
    (exists a, head (activity_log w') = Some a /\
               Activity.type a = "featured-story" /\ Activity.status a = "updated" /\
               Activity.title a =
                 "Featured story updated: " +:+ dquote +:+ ellipsis50 t +:+ dquote).
Proof.
  eexists. cbv zeta.
  unfold run, put_featured_stories, catch, bind. rewrite readData_stored, Hstories.
  rewrite Hfound. unfold bind, ret.
  unfold Date_toISOString, writeData, substring_of, ret.
  rewrite Htitle. simpl. rewrite ?logActivity_eq. simpl.
  split; [reflexivity|]. split; [reflexivity|]. split.
  { intros j Hj. apply list_lookup_insert_ne. auto. }
  split; [reflexivity|]. split; [reflexivity|]. split; [reflexivity|]. split.
  { intros Hp. destruct (body !! "priority") as [p|]; [|reflexivity].
    rewrite Hp. reflexivity. }
  repeat split; try reflexivity.
  eexists. repeat split; reflexivity.
Qed.

(** *** Uploads of breaking news *)

(** X26. [POST /api/breaking-news] with a video and a thumbnail, on
    fields that can be grouped, sends the video first.  When the video
    fails, the thumbnail is not sent.  When the video is stored and the
    thumbnail fails, the answer is 500 and nothing is written, but the
    video has been sent to the media host.  When a part is on a field
    named like a property of [Object.prototype], nothing is sent. *)
Theorem post_breaking_news_sends_the_video_first (body : gmap string string)
    (files : list File) (w : World) (video thumbnail : File)
    (Hvideo : part_on "video" files = Some video)
    (Hthumbnail : part_on "thumbnail" files = Some thumbnail)
    (Hpath : path video <> "" /\ path thumbnail <> "") :
  let r := fst (run (post_breaking_news body (Some files)) w) in
  let w' := snd (run (post_breaking_news body (Some files)) w) in
  (~ plain_fields files -> status r = 500 /\ w' = w) /\
  (plain_fields files ->
   match cloudinary (path video) "breaking-news",
         cloudinary (path thumbnail) "breaking-news-thumbnails" with
   | inr _, _ =>
     status r = 500 /\ dataFile w' = dataFile w /\
     uploads w' = (path video, "breaking-news") :: uploads w
   | inl _, inr _ =>
     status r = 500 /\ dataFile w' = dataFile w /\
     uploads w' = (path thumbnail, "breaking-news-thumbnails")
                  :: (path video, "breaking-news") :: uploads w
   | inl videoUrl, inl thumbnailUrl =>
     status r = 200 /\
     uploads w' = (path thumbnail, "breaking-news-thumbnails")
                  :: (path video, "breaking-news") :: uploads w /\
     exists item, r = json (BreakingNewsItem item) /\
                  BreakingNews.videoUrl item = Some videoUrl /\
                  BreakingNews.thumbnail item = Some thumbnailUrl /\
                  breakingNews (stored w') = item :: breakingNews (stored w)
   end).
Proof.
  destruct Hpath as [Hpv Hpt]. cbv zeta.
  apply String.eqb_neq in Hpv, Hpt.
  unfold run, post_breaking_news, catch, bind. rewrite readData_stored.
  change (default [] (Some files)) with files.
  rewrite forEach_push_spec. split.
  - intros Hnot. rewrite bool_decide_eq_false_2 by exact Hnot.
    split; reflexivity.
  - intros Hplain. rewrite bool_decide_eq_true_2 by exact Hplain.
    unfold completed. rewrite !ret_at. cbv beta iota.
    rewrite !first_file_group, Hvideo, Hthumbnail.
    unfold try, uploadToCloudinary. rewrite Hpv, Hpt.
    destruct (cloudinary (path video) "breaking-news") as [videoUrl|e1].
    + destruct (cloudinary (path thumbnail) "breaking-news-thumbnails")
        as [thumbnailUrl|e2].
      * unfold Date_now, Date_toISOString, writeData, ret. simpl.
        rewrite or_empty_Some.
        split; [reflexivity|]. split; [reflexivity|].
        eexists. repeat split; reflexivity.
      * unfold ret. simpl. repeat split; reflexivity.
    + unfold ret. simpl. repeat split; reflexivity.
Qed.

End Handlers.


(** ** Concrete runs *)

(** Sixty calls of [logActivity] from no data file: articles 60 down to 11
    remain. *)
Lemma logActivity_keeps_the_latest_50_witness :
  (50 <= length sixty_calls)%nat /\
  length (activity_log (snd (log_calls a_clock a_rendering sixty_calls no_file))) = 50%nat /\
  Activity.title <$> head (activity_log (snd (log_calls a_clock a_rendering sixty_calls no_file)))
    = Some "Article 60" /\
  Activity.title <$> last (activity_log (snd (log_calls a_clock a_rendering sixty_calls no_file)))
    = Some "Article 11".
Proof.
  assert (H : (50 <= length sixty_calls)%nat) by (vm_compute; lia).
  split; [exact H|].
  destruct (logActivity_keeps_the_latest_50 a_clock a_rendering host_up a_Number ascii_toLowerCase ascii_length ascii_substring
              sixty_calls no_file H) as (_ & _ & _ & Hlog & Hlen & _).
  split; [exact Hlen|].
  rewrite Hlog. split; vm_compute; reflexivity.
Defined.

(** [readData] with no data file. *)
Lemma readData_without_file_witness :
  dataFile no_file = None /\
  readData no_file = (Return emptyDocument, no_file).
Proof.
  split; [reflexivity|].
  apply (readData_without_file a_clock a_rendering no_file). reflexivity.
Defined.

(** C1, as stated, fails: the document that [readData] returns without a
    data file has [tools] and no [activities], so not all eleven
    collections of the data model are present. *)
Lemma readData_without_file_lacks_activities :
  fst (readData no_file) = Return emptyDocument /\
  collection "tools" emptyDocument = Some 0%nat /\
  collection "activities" emptyDocument = None /\
  ~ (forall k, k ∈ spec_collections ->
       exists d, fst (readData no_file) = Return d /\
                 collection k d = Some 0%nat).
Proof.
  split; [reflexivity|]. split; [reflexivity|]. split; [reflexivity|].
  intros H.
  destruct (H "activities") as (d & Hd & Hk).
  - unfold spec_collections. do 10 apply list_elem_of_further.
    apply list_elem_of_here.
  - simpl in Hd. inversion Hd; subst d. discriminate Hk.
Qed.

(** [POST /api/posters] with the title of the second poster alone, then
    the listing; and the listing without a data file. *)
Lemma get_posters_pads_to_three_witness :
  dataFile no_file = None /\
  fst (run get_posters
         (serve_all a_clock a_rendering host_up a_Number ascii_toLowerCase ascii_length ascii_substring
            [Upload POST_posters {[ "poster2Title" := "Elections" ]} []] no_file))
    = json (PosterList [Poster.mk 1 "" "" ""; Poster.mk 2 "Elections" "" "";
                        Poster.mk 3 "" "" ""]) /\
  fst (run get_posters no_file)
    = json (PosterList [Poster.mk 1 "" "" ""; Poster.mk 2 "" "" "";
                        Poster.mk 3 "" "" ""]).
Proof.
  assert (H : dataFile no_file = None) by reflexivity.
  split; [exact H|]. split.
  - destruct (get_posters_pads_to_three a_clock a_rendering host_up a_Number ascii_toLowerCase ascii_length ascii_substring
                [Upload POST_posters {[ "poster2Title" := "Elections" ]} []]
                no_file H) as (Hrun & _).
    rewrite Hrun. vm_compute. reflexivity.
  - destruct (get_posters_pads_to_three a_clock a_rendering host_up a_Number ascii_toLowerCase ascii_length ascii_substring [] no_file H) as (Hrun & _).
    change (serve_all a_clock a_rendering host_up a_Number ascii_toLowerCase
              ascii_length ascii_substring [] no_file) with no_file in Hrun.
    rewrite Hrun. reflexivity.
Defined.

(** [clip.exe] sent to [POST /api/breaking-news]: no upload, no data
    file.  [photo.jpgx], declared [image/jpgx], sent to
    [POST /api/media]: on no allow-list, and uploaded. *)
Lemma unsupported_file_refused_before_upload_witness :
  an_exe ∈ [an_exe] /\
  ~ passes_filter ascii_toLowerCase POST_breaking_news an_exe /\
  uploads (snd (serve a_clock a_rendering host_up a_Number ascii_toLowerCase ascii_length ascii_substring POST_breaking_news ∅ [an_exe] no_file)) = [] /\
  dataFile (snd (serve a_clock a_rendering host_up a_Number ascii_toLowerCase ascii_length ascii_substring POST_breaking_news ∅ [an_exe] no_file)) = None /\
  extension ascii_toLowerCase a_jpgx = ".jpgx" /\
  ~ spec_admits ascii_toLowerCase POST_media a_jpgx /\
  status (fst (serve a_clock a_rendering host_up a_Number ascii_toLowerCase ascii_length ascii_substring POST_media ∅ [a_jpgx] no_file)) = 200 /\
  uploads (snd (serve a_clock a_rendering host_up a_Number ascii_toLowerCase ascii_length ascii_substring POST_media ∅ [a_jpgx] no_file))
    = [("uploads/1700000000000_photo.jpgx", "media")].
Proof.
  assert (Hin : an_exe ∈ [an_exe]) by apply list_elem_of_here.
  assert (Hbad : forall r, ~ passes_filter ascii_toLowerCase r an_exe).
  { intros r H. apply fileFilter_of_admit in H.
    destruct r; vm_compute in H; discriminate H. }
  split; [exact Hin|]. split; [apply Hbad|].
  destruct (unsupported_file_refused_before_upload a_clock a_rendering host_up a_Number ascii_toLowerCase ascii_length ascii_substring
              POST_breaking_news ∅ [an_exe] no_file an_exe Hin
              (Hbad POST_breaking_news))
    as (_ & _ & _ & _ & Hup & Hfile & _).
  split; [exact Hup|]. split; [exact Hfile|].
  destruct (unsupported_file_refused_before_upload a_clock a_rendering host_up a_Number ascii_toLowerCase ascii_length ascii_substring
              POST_media ∅ [an_exe] no_file an_exe Hin (Hbad POST_media))
    as (_ & _ & _ & _ & _ & _ & _ & Hjpgx & Hname & _ & _).
  assert (Hext : extension ascii_toLowerCase a_jpgx = ".jpgx").
  { rewrite (Hname a_jpgx "photo" "jpgx");
      [reflexivity|reflexivity|discriminate|reflexivity|discriminate
      |reflexivity|reflexivity]. }
  destruct (Hjpgx a_jpgx Hext eq_refl) as [_ Hoff].
  split; [exact Hext|]. split; [exact Hoff|]. split; vm_compute; reflexivity.
Defined.

(** [POST /api/breaking-news] with a video while the media host is down. *)
Lemma failed_upload_aborts_create_witness :
  (a_video, "breaking-news") ∈ attached (create_breaking_news (Some [a_video])) ∅ /\
  raises (uploadToCloudinary host_down a_video "breaking-news") /\
  status (fst (run (create a_clock a_rendering host_down a_Number ascii_length ascii_substring
                      (create_breaking_news (Some [a_video])) ∅) no_file)) = 500 /\
  fst (run get_breaking_news
         (snd (run (create a_clock a_rendering host_down a_Number ascii_length ascii_substring
                      (create_breaking_news (Some [a_video])) ∅) no_file)))
    = json (BreakingNewsList []).
Proof.
  assert (Hin : (a_video, "breaking-news")
                ∈ attached (create_breaking_news (Some [a_video])) ∅)
    by (vm_compute; apply list_elem_of_here).
  assert (Hr : raises (uploadToCloudinary host_down a_video "breaking-news"))
    by (intros w; eexists; eexists; reflexivity).
  split; [exact Hin|]. split; [exact Hr|].
  destruct (failed_upload_aborts_create a_clock a_rendering host_down a_Number ascii_length ascii_substring
              (create_breaking_news (Some [a_video])) ∅ no_file a_video
              "breaking-news" Hin Hr) as (Hs & _ & _ & Hget & _).
  split; [exact Hs|]. rewrite Hget. reflexivity.
Defined.

(** [POST /api/posters] with the title of the second poster alone, over
    four stored posters. *)
Lemma post_posters_replaces_all_three_witness :
  status (fst (run (post_posters host_up {[ "poster2Title" := "Elections" ]} None)
                 four_posters)) = 200 /\
  posters (stored (snd (run (post_posters host_up {[ "poster2Title" := "Elections" ]} None)
                          four_posters)))
    = Some [Poster.mk 1 "" "" ""; Poster.mk 2 "Elections" "" ""; Poster.mk 3 "" "" ""].
Proof.
  assert (Hok : status (fst (run (post_posters host_up
                   {[ "poster2Title" := "Elections" ]} None) four_posters)) = 200)
    by reflexivity.
  split; [exact Hok|].
  destruct (post_posters_replaces_all_three host_up
              {[ "poster2Title" := "Elections" ]} None four_posters Hok)
    as (p1 & p2 & p3 & _ & Hp & _).
  rewrite Hp. vm_compute in Hp. inversion Hp; subst. reflexivity.
Defined.

(** [POST /api/breaking-news] with a headline alone, over one stored
    item; and [POST /api/featured-stories] with a description alone, which
    is stored and answered with 500. *)
Lemma create_defaults_and_order_witness :
  plain_fields (default [] None) /\
  url_of host_up (part_on "video" (default [] None)) "breaking-news" "" /\
  url_of host_up (part_on "thumbnail" (default [] None))
    "breaking-news-thumbnails" "" /\
  url_of host_up None "featured-stories" "" /\
  BreakingNews.id <$> breakingNews
    (stored (snd (run (post_breaking_news a_clock a_rendering host_up
                         {[ "headline" := "Floods" ]} None)
                    (mkWorld (Some (set_breakingNews emptyDocument
                       [BreakingNews.mk 7 None None None None None None None None None]))
                       0 []))))
    = [1700000000000; 7] /\
  status (fst (run (post_featured_stories a_clock a_rendering host_up a_Number
                      ascii_length ascii_substring
                      {[ "description" := "Rain" ]} None) no_file)) = 500 /\
  FeaturedStory.description <$>
    default [] (featuredStories
      (stored (snd (run (post_featured_stories a_clock a_rendering host_up a_Number
                           ascii_length ascii_substring
                           {[ "description" := "Rain" ]} None) no_file))))
    = [Some "Rain"].
Proof.
  assert (H0 : plain_fields (default [] None)) by constructor.
  assert (H1 : url_of host_up (part_on "video" (default [] None))
                 "breaking-news" "") by reflexivity.
  assert (H2 : url_of host_up (part_on "thumbnail" (default [] None))
                 "breaking-news-thumbnails" "") by reflexivity.
  assert (H3 : url_of host_up None "featured-stories" "") by reflexivity.
  split; [exact H0|]. split; [exact H1|]. split; [exact H2|]. split; [exact H3|].
  split.
  - destruct (create_defaults_and_order a_clock a_rendering host_up a_Number
                ascii_length ascii_substring
                {[ "headline" := "Floods" ]} None None
                (mkWorld (Some (set_breakingNews emptyDocument
                   [BreakingNews.mk 7 None None None None None None None None None]))
                   0 []) "" "" "" H0 H1 H2 H3) as ((_ & Hfile) & _).
    unfold stored. rewrite Hfile. reflexivity.
  - destruct (create_defaults_and_order a_clock a_rendering host_up a_Number
                ascii_length ascii_substring
                {[ "description" := "Rain" ]} None None no_file "" "" ""
                H0 H1 H2 H3) as (_ & (Hstored & _ & _ & Hfails) & _).
    rewrite Hstored, Hfails by reflexivity. split; reflexivity.
Defined.



(** ** Runs for the further properties *)

(** [GET /api/posters] over four stored posters changes nothing. *)
Lemma reads_leave_the_world_witness :
  reads GET_posters = true /\
  snd (handle a_clock a_rendering host_up a_Number ascii_toLowerCase ascii_length ascii_substring GET_posters four_posters)
    = four_posters.
Proof.
  split; [reflexivity|].
  apply (reads_leave_the_world a_clock a_rendering host_up a_Number ascii_toLowerCase ascii_length ascii_substring GET_posters
           four_posters). reflexivity.
Defined.

(** A category is created without an activity. *)
Lemma only_featured_stories_and_news_log_witness :
  logs (POST_categories {[ "name" := "Sports" ]}) = false /\
  activity_log (snd (handle a_clock a_rendering host_up a_Number ascii_toLowerCase ascii_length ascii_substring
                       (POST_categories {[ "name" := "Sports" ]}) no_file)) = [].
Proof.
  split; [reflexivity|].
  rewrite (only_featured_stories_and_news_log a_clock a_rendering host_up a_Number ascii_toLowerCase ascii_length ascii_substring
             (POST_categories {[ "name" := "Sports" ]}) no_file); reflexivity.
Defined.

(** [POST /api/news] without a file part. *)
Lemma no_file_part_no_upload_witness :
  parts_of (Upload POST_news a_news_form []) = [] /\
  uploads (snd (handle a_clock a_rendering host_up a_Number ascii_toLowerCase ascii_length ascii_substring
                  (Upload POST_news a_news_form []) no_file)) = [].
Proof.
  split; [reflexivity|].
  rewrite (no_file_part_no_upload a_clock a_rendering host_up a_Number ascii_toLowerCase ascii_length ascii_substring
             (Upload POST_news a_news_form []) no_file); reflexivity.
Defined.

(** [PUT /api/news/7] with an image while the media host is down. *)
Lemma failed_upload_aborts_update_witness :
  (a_png, "news") ∈ update_attached news_articles [a_png] /\
  raises (uploadToCloudinary host_down a_png "news") /\
  status (fst (run (update a_clock a_rendering host_down a_Number ascii_length ascii_substring news_articles
                      (Int 7) {[ "title" := "New title" ]} [a_png]) one_article))
    = 500 /\
  dataFile (snd (run (update a_clock a_rendering host_down a_Number ascii_length ascii_substring news_articles
                        (Int 7) {[ "title" := "New title" ]} [a_png]) one_article))
    = dataFile one_article.
Proof.
  assert (Hin : (a_png, "news") ∈ update_attached news_articles [a_png])
    by (vm_compute; apply list_elem_of_here).
  assert (Hr : raises (uploadToCloudinary host_down a_png "news"))
    by (intros w; eexists; eexists; reflexivity).
  split; [exact Hin|]. split; [exact Hr|].
  destruct (failed_upload_aborts_update a_clock a_rendering host_down a_Number ascii_length ascii_substring
              news_articles (Int 7) {[ "title" := "New title" ]} [a_png]
              one_article a_png "news" Hin Hr) as (_ & Hfile & Hstatus).
  split; [|exact Hfile].
  apply (Hstatus 7 [7]); [reflexivity|apply list_elem_of_here|reflexivity].
Defined.

(** A sign-up, then the login. *)
Lemma post_users_then_login_witness :
  (forall u, u ∈ users (stored no_file) -> User.username u <> a_signup !! "username") /\
  fst (run (post_auth_login a_signup)
         (snd (run (post_users a_clock a_rendering a_signup) no_file)))
    = json (LoginUser (User.mk 1700000000000 (Some "editor") None (Some "admin")
                         None (Some "1700000000001"))).
Proof.
  assert (Hfree : forall u, u ∈ users (stored no_file) ->
                            User.username u <> a_signup !! "username")
    by (intros u Hu; apply elem_of_nil in Hu; contradiction).
  split; [exact Hfree|].
  destruct (post_users_then_login a_clock a_rendering a_signup no_file Hfree)
    as (_ & _ & Hlogin & _).
  rewrite Hlogin. reflexivity.
Defined.

(** The same sign-up twice. *)
Lemma usernames_stay_distinct_witness :
  NoDup (usernames (stored no_file)) /\
  NoDup (usernames (stored (serve_all a_clock a_rendering host_up a_Number ascii_toLowerCase ascii_length ascii_substring
                              [POST_users a_signup; POST_users a_signup] no_file))).
Proof.
  assert (H : NoDup (usernames (stored no_file))) by apply NoDup_nil_2.
  split; [exact H|].
  apply (usernames_stay_distinct a_clock a_rendering host_up a_Number ascii_toLowerCase ascii_length ascii_substring
           [POST_users a_signup; POST_users a_signup] no_file H).
Defined.

(** The article of category [World], listed for [world]. *)
Lemma category_listings_ignore_case_witness :
  ascii_toLowerCase "World" = ascii_toLowerCase "world" /\
  fst (run (get_category ascii_toLowerCase "world") one_article)
    = json (CategoryContent [] [] [an_article] "world").
Proof.
  assert (H : ascii_toLowerCase "World" = ascii_toLowerCase "world")
    by reflexivity.
  split; [exact H|].
  destruct (category_listings_ignore_case ascii_toLowerCase "World" "world"
              one_article H) as (_ & _ & Hall).
  apply Hall. reflexivity.
Defined.

(** A part on the field [constructor], sent to [POST /api/breaking-news]. *)
Lemma first_file_is_first_of_field_witness :
  ~ plain_fields [a_constructor_part] /\
  run (post_breaking_news a_clock a_rendering host_up
         {[ "headline" := "Floods" ]} (Some [a_constructor_part])) no_file
    = (mkResponse 500
         (Error "Failed to add breaking news"
            (Some "filesByField[f.fieldname].push is not a function")), no_file) /\
  status (fst (serve a_clock a_rendering host_up a_Number ascii_toLowerCase ascii_length ascii_substring POST_breaking_news {[ "headline" := "Floods" ]}
                 [a_constructor_part] no_file)) = 500.
Proof.
  assert (H : ~ plain_fields [a_constructor_part]).
  { intros Hp. apply Forall_cons in Hp as [Hp _]. apply Hp.
    apply list_elem_of_here. }
  split; [exact H|]. split; [|reflexivity].
  destruct (first_file_is_first_of_field a_clock a_rendering host_up
              [a_constructor_part] "video") as (_ & Hthrows & _).
  destruct (Hthrows H) as [_ Hrun]. apply Hrun.
Defined.

(** [photo.PNG], declared [image/png]. *)
Lemma posterUpload_admits_breaking_news_images_witness :
  test_alternatives imageExtTypes (extension ascii_toLowerCase a_png)
    && test_prefixed "image/" imageMimeTypes (mimetype a_png) = true /\
  posterUpload_fileFilter ascii_toLowerCase a_png = Admit.
Proof.
  split; [reflexivity|].
  apply (posterUpload_admits_breaking_news_images ascii_toLowerCase a_png).
  reflexivity.
Defined.

(** [POST /api/news] with [{ title: 'A', content: 'B', category: 'world' }]. *)
Lemma post_news_then_listed_witness :
  a_news_form !! "title" = Some "A" /\
  a_news_form !! "category" = Some "world" /\
  "world" <> "" /\
  truthy (a_news_form !! "imageUrl") = false /\
  fst (run (post_news a_clock a_rendering host_up ascii_length ascii_substring a_news_form None) no_file)
    = json (NewsItem (News.mk 1700000000000 (Some "A") (Some "B") (Some "world")
                        (Some "") (Some "1700000000001"))).
Proof.
  assert (H1 : a_news_form !! "title" = Some "A") by reflexivity.
  assert (H2 : a_news_form !! "category" = Some "world") by reflexivity.
  assert (H3 : "world" <> "") by discriminate.
  assert (H4 : truthy (a_news_form !! "imageUrl") = false) by reflexivity.
  split; [exact H1|]. split; [exact H2|]. split; [exact H3|]. split; [exact H4|].
  destruct (post_news_then_listed a_clock a_rendering host_up ascii_toLowerCase ascii_length ascii_substring a_news_form no_file
              "A" "world" H1 H2 H3 H4) as (Hr & _).
  rewrite Hr. reflexivity.
Defined.

(** [POST /api/news] with an image URL and a file. *)
Lemma post_news_prefers_the_url_of_the_body_witness :
  truthy (({[ "imageUrl" := "https://host/a.png" ]} : gmap string string) !! "imageUrl")
    = true /\
  uploads (snd (run (post_news a_clock a_rendering host_up ascii_length ascii_substring
                       {[ "imageUrl" := "https://host/a.png" ]} (Some a_png))
                  no_file)) = [].
Proof.
  assert (H : truthy (({[ "imageUrl" := "https://host/a.png" ]}
                       : gmap string string) !! "imageUrl") = true) by reflexivity.
  split; [exact H|].
  destruct (post_news_prefers_the_url_of_the_body a_clock a_rendering host_up ascii_length ascii_substring
              {[ "imageUrl" := "https://host/a.png" ]} (Some a_png) no_file H)
    as (_ & Hup & _).
  exact Hup.
Defined.


(** [PUT /api/news/7] with an empty title and a new content. *)
Lemma put_news_cannot_blank_a_field_witness :
  list_find (fun n => Int (News.id n) = Int 7) (news (stored one_article))
    = Some (0%nat, an_article) /\
  js_or (({[ "title" := ""; "content" := "New content" ]} : gmap string string)
           !! "title") (News.title an_article) = Some "Old title" /\
  News.content <$> news (stored (snd (run (put_news a_clock a_rendering host_up ascii_length ascii_substring (Int 7)
                          {[ "title" := ""; "content" := "New content" ]} None)
                       one_article))) = [Some "New content"] /\
  News.title <$> news (stored (snd (run (put_news a_clock a_rendering host_up ascii_length ascii_substring (Int 7)
                          {[ "title" := ""; "content" := "New content" ]} None)
                       one_article))) = [Some "Old title"].
Proof.
  assert (H1 : list_find (fun n => Int (News.id n) = Int 7) (news (stored one_article))
               = Some (0%nat, an_article)) by reflexivity.
  assert (H2 : js_or (({[ "title" := ""; "content" := "New content" ]}
                        : gmap string string) !! "title") (News.title an_article)
               = Some "Old title") by reflexivity.
  split; [exact H1|]. split; [exact H2|].
  destruct (put_news_cannot_blank_a_field a_clock a_rendering host_up ascii_length ascii_substring (Int 7)
              {[ "title" := ""; "content" := "New content" ]} one_article 0%nat
              an_article "Old title" H1 H2) as (_ & Hn & _).
  rewrite Hn. split; reflexivity.
Defined.

(** [PUT /api/breaking-news/1] with a headline, over the items 2 and 1. *)
Lemma put_breaking_news_touches_one_record_witness :
  list_find (fun b => Int (BreakingNews.id b) = Int 1)
    (breakingNews (stored two_breaking_news))
    = Some (1%nat, BreakingNews.mk 1 (Some "First") None None None None None None
                     None None) /\
  BreakingNews.headline <$>
    breakingNews (stored (snd (run (put_breaking_news a_clock a_rendering host_up
                                      (Int 1) {[ "headline" := "Updated" ]} None)
                                 two_breaking_news)))
    = [Some "Second"; Some "Updated"].
Proof.
  assert (H : list_find (fun b => Int (BreakingNews.id b) = Int 1)
                (breakingNews (stored two_breaking_news))
              = Some (1%nat, BreakingNews.mk 1 (Some "First") None None None None
                               None None None None)) by reflexivity.
  split; [exact H|].
  destruct (put_breaking_news_touches_one_record a_clock a_rendering host_up (Int 1)
              {[ "headline" := "Updated" ]} two_breaking_news 1%nat _ H)
    as (updated & _ & Hidx & _ & Hother & _).
  reflexivity.
Defined.

(** [POST /api/media] with [photo.PNG]. *)
Lemma post_media_needs_a_file_witness :
  returns (uploadToCloudinary host_up a_png "media")
    "https://res.cloudinary.com/media/uploads/1700000000000_photo.PNG" /\
  Media.type <$> media (stored (snd (run (post_media a_clock a_rendering host_up ∅
                                            (Some a_png)) no_file)))
    = [Some "image/png"].
Proof.
  assert (H : returns (uploadToCloudinary host_up a_png "media")
                "https://res.cloudinary.com/media/uploads/1700000000000_photo.PNG")
    by (intros w; eexists; reflexivity).
  split; [exact H|].
  destruct (post_media_needs_a_file a_clock a_rendering host_up ∅ no_file a_png _ H)
    as (_ & _ & Hm & _).
  rewrite Hm. reflexivity.
Defined.


(** [POST /api/ads] without a file. *)
Lemma post_ads_then_list_witness :
  url_of host_up None "ads" "" /\
  Ad.imageUrl <$> ads (stored (snd (run (post_ads a_clock a_rendering host_up
                                           {[ "title" := "Sale" ]} None) no_file)))
    = [Some ""].
Proof.
  assert (H : url_of host_up None "ads" "") by reflexivity.
  split; [exact H|].
  destruct (post_ads_then_list a_clock a_rendering host_up {[ "title" := "Sale" ]}
              None no_file "" H) as (_ & Hl & _).
  reflexivity.
Defined.

(** A poster with a title, then the listing. *)
Lemma get_posters_three_after_requests_witness :
  dataFile no_file = None /\
  exists p1 p2 p3,
    fst (run get_posters
           (serve_all a_clock a_rendering host_up a_Number ascii_toLowerCase ascii_length ascii_substring
              [Upload POST_posters {[ "poster1Title" := "Floods" ]} []; GET_posters]
              no_file)) = json (PosterList [p1; p2; p3]).
Proof.
  split; [reflexivity|].
  apply (get_posters_three_after_requests a_clock a_rendering host_up a_Number ascii_toLowerCase ascii_length ascii_substring
           [Upload POST_posters {[ "poster1Title" := "Floods" ]} []; GET_posters]
           no_file). reflexivity.
Defined.

(** [POST /api/featured-stories] with a title and a category. *)
Lemma post_featured_stories_then_listed_witness :
  a_news_form !! "title" = Some "A" /\
  a_news_form !! "category" = Some "world" /\
  "world" <> "" /\
  status (fst (run (post_featured_stories a_clock a_rendering host_up a_Number ascii_length ascii_substring
                      a_news_form None) no_file)) = 201.
Proof.
  assert (H1 : a_news_form !! "title" = Some "A") by reflexivity.
  assert (H2 : a_news_form !! "category" = Some "world") by reflexivity.
  assert (H3 : "world" <> "") by discriminate.
  split; [exact H1|]. split; [exact H2|]. split; [exact H3|].
  destruct (post_featured_stories_then_listed a_clock a_rendering host_up a_Number ascii_toLowerCase ascii_length ascii_substring
              a_news_form no_file "A" "world" H1 H2 H3) as (Hr & _).
  rewrite Hr. reflexivity.
Defined.

(** [PUT /api/featured-stories/1] with a new title. *)
Lemma put_featured_stories_keeps_image_and_views_witness :
  featuredStories (stored a_story_world) = Some [a_story] /\
  list_find (fun s => Int (FeaturedStory.id s) = Int 1) [a_story]
    = Some (0%nat, a_story) /\
  ({[ "title" := "New title" ]} : gmap string string) !! "title" = Some "New title" /\
  FeaturedStory.imageUrl <$>
    default [] (featuredStories
      (stored (snd (run (put_featured_stories a_clock a_rendering host_up a_Number ascii_length ascii_substring
                          (Int 1) {[ "title" := "New title" ]} None)
                      a_story_world))))
    = [Some "https://host/old.png"].
Proof.
  assert (H1 : featuredStories (stored a_story_world) = Some [a_story])
    by reflexivity.
  assert (H2 : list_find (fun s => Int (FeaturedStory.id s) = Int 1) [a_story]
               = Some (0%nat, a_story)) by reflexivity.
  assert (H3 : ({[ "title" := "New title" ]} : gmap string string) !! "title"
               = Some "New title") by reflexivity.
  split; [exact H1|]. split; [exact H2|]. split; [exact H3|].
  destruct (put_featured_stories_keeps_image_and_views a_clock a_rendering host_up
              a_Number ascii_length ascii_substring (Int 1) {[ "title" := "New title" ]} a_story_world
              [a_story] 0%nat a_story "New title" H1 H2 H3)
    as (updated & _ & Hst & _ & _ & Himage & _).
  rewrite Hst. simpl. rewrite Himage. reflexivity.
Defined.

(** A video and a thumbnail while the media host is down. *)
Lemma post_breaking_news_sends_the_video_first_witness :
  part_on "video" [a_thumbnail; a_video] = Some a_video /\
  part_on "thumbnail" [a_thumbnail; a_video] = Some a_thumbnail /\
  (path a_video <> "" /\ path a_thumbnail <> "") /\
  plain_fields [a_thumbnail; a_video] /\
  uploads (snd (run (post_breaking_news a_clock a_rendering host_down ∅
                       (Some [a_thumbnail; a_video])) no_file))
    = [(path a_video, "breaking-news")].
Proof.
  assert (H1 : part_on "video" [a_thumbnail; a_video] = Some a_video)
    by reflexivity.
  assert (H2 : part_on "thumbnail" [a_thumbnail; a_video] = Some a_thumbnail)
    by reflexivity.
  assert (H3 : path a_video <> "" /\ path a_thumbnail <> "")
    by (split; discriminate).
  assert (H4 : plain_fields [a_thumbnail; a_video]).
  { repeat constructor; intros H;
      repeat (apply elem_of_cons in H as [H|H]; [discriminate H|]);
      apply elem_of_nil in H; exact H. }
  split; [exact H1|]. split; [exact H2|]. split; [exact H3|]. split; [exact H4|].
  destruct (post_breaking_news_sends_the_video_first a_clock a_rendering host_down
              ∅ [a_thumbnail; a_video] no_file a_video a_thumbnail H1 H2 H3)
    as [_ H].
  specialize (H H4). simpl in H. destruct H as (_ & _ & Hup). exact Hup.
Defined.
